(** * napcat-plugin-test: the state store and the gesture handler

    A shallow embedding of [src/core/state.ts] (class [PluginState] and
    [sanitizeConfig]) and of the gesture handler [handleLike], with the
    properties the specification states about them.

    Definitions:
    - [Js]       : the fragment of JavaScript values and builtins the code uses
                   ([typeof], truthiness, [===], [parseInt], [String], [split],
                   [trim], [includes]);
    - [Sanitize] : [sanitizeConfig] over untyped values;
    - [Store]    : [PluginState] as explicit state passing in a small
                   state-and-exception monad, with the host (remote bridge,
                   clock, file writes) as oracles and a trace of effects;
    - [Handler]  : [handleLike];
    - [Scenario] : one concrete deployment.
    Properties: [SanitizeFacts], [StoreFacts], [HandlerFacts].

    Conventions of the model:
    - numbers are integers or [NaN] (identifiers, counters, limits);
    - a thrown value is an [Error] object with a name and a message;
    - an asynchronous function runs to completion: its awaits are points
      where the host answers, not points where other handlers interleave;
    - the host is deterministic in the history: the n-th remote call, clock
      read and file write get the n-th answer. *)

From Stdlib Require Import ZArith List String Ascii Bool Lia.
From stdpp Require Import base decidable option list gmap strings pretty.

Open Scope string_scope.
Open Scope list_scope.
Open Scope Z_scope.

(* ===================================================================== *)
(** * JavaScript values and builtins *)
(* ===================================================================== *)

Module Js.

(** A JavaScript number.  The numbers this program handles are account and
    group identifiers, counters, limits and the results of [parseInt]: integers,
    or [NaN].  Integers are exact here (a double is exact up to 2^53). *)
Inductive number : Type :=
  | NaN
  | Num (z : Z).

#[global] Instance number_eq_dec : EqDecision number.
Proof. solve_decision. Defined.

#[global] Instance number_countable : Countable number.
Proof.
  refine (inj_countable' (fun n => match n with NaN => None | Num z => Some z end)
                         (fun o => match o with None => NaN | Some z => Num z end) _).
  by intros [|z].
Defined.

(** [isNaN(n)] *)
Definition isNaN (n : number) : bool :=
  match n with NaN => true | Num _ => false end.

(** [a === b] on numbers: [NaN] is different from everything, itself included. *)
Definition num_strict_eq (a b : number) : bool :=
  match a, b with
  | Num x, Num y => x =? y
  | _, _ => false
  end.

(** [a >= b] on numbers: every comparison with [NaN] is false. *)
Definition num_ge (a b : number) : bool :=
  match a, b with
  | Num x, Num y => y <=? x
  | _, _ => false
  end.

(** SameValueZero, the equality of [Array.prototype.includes]: [NaN] is found. *)
Definition same_value_zero (a b : number) : bool := bool_decide (a = b).

(** [arr.includes(x)] on an array of numbers. *)
Definition includes (arr : list number) (x : number) : bool :=
  existsb (same_value_zero x) arr.

#[local] Set Warnings "-register-all".

(** A JavaScript value, as [JSON.parse] or a caller can produce it.  An object
    is the list of its own properties in insertion order. *)
Inductive value : Type :=
  | VUndef
  | VNull
  | VBool (b : bool)
  | VNum (n : number)
  | VStr (s : string)
  | VArr (elems : list value)
  | VObj (props : list (string * value)).

Definition obj : Type := list (string * value).

(** The results of [typeof]. *)
Inductive type_tag : Type :=
  | TUndefined | TObject | TBoolean | TNumber | TString.

#[global] Instance type_tag_eq_dec : EqDecision type_tag.
Proof. solve_decision. Defined.

Definition typeof (v : value) : type_tag :=
  match v with
  | VUndef => TUndefined
  | VNull => TObject
  | VBool _ => TBoolean
  | VNum _ => TNumber
  | VStr _ => TString
  | VArr _ => TObject
  | VObj _ => TObject
  end.

(** [typeof v === 'number'], the predicate of the two array filters. *)
Definition is_number (v : value) : bool :=
  bool_decide (typeof v = TNumber).

(** Truthiness, as [if (v)], [!v] and [v || d] decide it. *)
Definition truthy (v : value) : bool :=
  match v with
  | VUndef | VNull => false
  | VBool b => b
  | VNum NaN => false
  | VNum (Num z) => negb (z =? 0)
  | VStr s => negb (String.eqb s "")
  | VArr _ | VObj _ => true
  end.

(** [v === n] for a value against a number. *)
Definition strict_eq_num (v : value) (n : number) : bool :=
  match v with
  | VNum m => num_strict_eq m n
  | _ => false
  end.

(** Own-property read [o.k] on an object: [undefined] when absent. *)
Fixpoint getProp (k : string) (o : obj) : value :=
  match o with
  | [] => VUndef
  | (k', v) :: rest => if String.eqb k k' then v else getProp k rest
  end.

(** Property write [o.k = v]: in place when [k] exists, appended otherwise. *)
Fixpoint setProp (k : string) (v : value) (o : obj) : obj :=
  match o with
  | [] => [(k, v)]
  | (k', v') :: rest =>
      if String.eqb k k' then (k', v) :: rest else (k', v') :: setProp k v rest
  end.

(** Member access [v.k] on an arbitrary value: a [TypeError] ([None]) on
    [undefined] and [null]; [undefined] on a primitive or an array (the keys
    read by this program, [data], [vip], [user_id], [message], are not
    properties of those). *)
Definition member (v : value) (k : string) : option value :=
  match v with
  | VUndef | VNull => None
  | VObj o => Some (getProp k o)
  | _ => Some VUndef
  end.

(** ** Strings *)

(** ASCII white space (tab, LF, VT, FF, CR, space), stripped by [trim] and
    skipped by [parseInt]. *)
Definition is_ws (a : ascii) : bool :=
  let n := N_of_ascii a in
  ((9 <=? n) && (n <=? 13) || (n =? 32))%N.

Fixpoint skip_ws (s : string) : string :=
  match s with
  | String a rest => if is_ws a then skip_ws rest else s
  | EmptyString => EmptyString
  end.

(** [s.trim()] *)
Definition trim (s : string) : string :=
  String.rev (skip_ws (String.rev (skip_ws s))).

(** [s.split(',')]: never empty, [''.split(',')] is [['']]. *)
Fixpoint split_comma (s : string) : list string :=
  match s with
  | EmptyString => [EmptyString]
  | String a rest =>
      if Ascii.eqb a ","%char then EmptyString :: split_comma rest
      else match split_comma rest with
           | h :: t => String a h :: t
           | [] => [String a EmptyString]
           end
  end.

(** The value of a digit in the given radix, if it is one. *)
Definition digit_of (radix : Z) (a : ascii) : option Z :=
  let n := Z.of_N (N_of_ascii a) in
  let d := if (48 <=? n) && (n <=? 57) then n - 48
           else if (97 <=? n) && (n <=? 122) then n - 87
           else if (65 <=? n) && (n <=? 90) then n - 55
           else 36 in
  if d <? radix then Some d else None.

(** The longest prefix of digits, as an integer; [acc] is [None] until a digit
    has been read. *)
Fixpoint read_digits (radix : Z) (acc : option Z) (s : string) : option Z :=
  match s with
  | EmptyString => acc
  | String a rest =>
      match digit_of radix a with
      | Some d => read_digits radix (Some (default 0 acc * radix + d)) rest
      | None => acc
      end
  end.

Definition strip_sign (s : string) : Z * string :=
  match s with
  | String "-" rest => (-1, rest)
  | String "+" rest => (1, rest)
  | _ => (1, s)
  end.

Definition strip_hex_prefix (s : string) : option string :=
  match s with
  | String "0" (String "x" rest) => Some rest
  | String "0" (String "X" rest) => Some rest
  | _ => None
  end.

(** [parseInt(s, radix)] (ECMA-262 19.2.5); [radix = None] is the one-argument
    call, which reads a [0x] prefix as hexadecimal. *)
Definition parseInt_radix (s : string) (radix : option Z) : number :=
  let '(sign, body) := strip_sign (skip_ws s) in
  let '(r, digits) :=
    match radix with
    | Some r =>
        if r =? 16 then (r, default body (strip_hex_prefix body)) else (r, body)
    | None =>
        match strip_hex_prefix body with
        | Some rest => (16, rest)
        | None => (10, body)
        end
    end in
  if (r <? 2) || (36 <? r) then NaN
  else match read_digits r None digits with
       | Some m => Num (sign * m)
       | None => NaN
       end.

Definition parseInt (s : string) : number := parseInt_radix s None.
Definition parseInt10 (s : string) : number := parseInt_radix s (Some 10).

(** [String(n)] on a number (decimal notation; integers below 10^21). *)
Definition string_of_number (n : number) : string :=
  match n with
  | NaN => "NaN"
  | Num z => pretty z
  end.

(** [s.includes(t)] on strings. *)
Fixpoint str_includes (t s : string) : bool :=
  String.prefix t s
  || match s with
     | EmptyString => false
     | String _ rest => str_includes t rest
     end.

End Js.
Export Js.


(* ===================================================================== *)
(** * Configuration sanitizing ([sanitizeConfig]) *)
(* ===================================================================== *)

Module Sanitize.

(** [if (typeof raw.k === ty) out.k = raw.k;] *)
Definition assign_if_typeof (ty : type_tag) (k : string) (raw out : obj) : obj :=
  if bool_decide (typeof (getProp k raw) = ty)
  then setProp k (getProp k raw) out
  else out.

(** [str.split(',').map(s => parseInt(s.trim(), 10)).filter(n => !isNaN(n))] *)
Definition parse_id_list (str : string) : list number :=
  List.filter (fun n => negb (isNaN n))
    (List.map (fun s => parseInt10 (trim s)) (split_comma str)).

(** The two list fields:
    [if (Array.isArray(raw.k)) out.k = raw.k.filter(id => typeof id === 'number');
     else if (typeof raw.k === 'string') out.k = <parse_id_list>;] *)
Definition assign_id_list (k : string) (raw out : obj) : obj :=
  match getProp k raw with
  | VArr elems => setProp k (VArr (List.filter is_number elems)) out
  | VStr str => setProp k (VArr (List.map VNum (parse_id_list str))) out
  | _ => out
  end.

Section WithDefaults.

(** [DEFAULT_CONFIG] is imported from [../config]; its own properties are a
    parameter here. *)
Variable DEFAULT_CONFIG : obj.

(** [isObject(raw)], that is [raw !== null && typeof raw === 'object' &&
    !Array.isArray(raw)], holds of the [VObj] values only; [{ ...DEFAULT_CONFIG }]
    copies the own properties. *)
Definition sanitizeConfig (raw : value) : value :=
  match raw with
  | VObj r =>
      let out := DEFAULT_CONFIG in
      let out := assign_if_typeof TBoolean "enabled" r out in
      let out := assign_if_typeof TBoolean "debug" r out in
      let out := assign_if_typeof TBoolean "autoLikeEnabled" r out in
      let out := assign_if_typeof TNumber "vipLikeLimit" r out in
      let out := assign_id_list "blacklist" r out in
      let out := assign_if_typeof TBoolean "autoLikeSomeoneEnabled" r out in
      let out := assign_if_typeof TNumber "autoLikeInterval" r out in
      let out := assign_if_typeof TNumber "autoLikeTimes" r out in
      let out := assign_id_list "autoLikeUsers" r out in
      VObj out
  | _ => VObj DEFAULT_CONFIG
  end.

End WithDefaults.

(** ** The declared type [PluginConfig] *)

Definition is_boolean (v : value) : bool := bool_decide (typeof v = TBoolean).

Definition is_number_array (v : value) : bool :=
  match v with
  | VArr elems => forallb is_number elems
  | _ => false
  end.

(** Every field of [PluginConfig] is present with its declared type. *)
Definition has_declared_types (v : value) : bool :=
  match v with
  | VObj o =>
      is_boolean (getProp "enabled" o)
      && is_boolean (getProp "debug" o)
      && is_boolean (getProp "autoLikeEnabled" o)
      && is_number_array (getProp "blacklist" o)
      && is_number (getProp "vipLikeLimit" o)
      && is_boolean (getProp "autoLikeSomeoneEnabled" o)
      && is_number (getProp "autoLikeInterval" o)
      && is_number (getProp "autoLikeTimes" o)
      && is_number_array (getProp "autoLikeUsers" o)
  | _ => false
  end.

(** [v.k] when [v] is an object. *)
Definition field (k : string) (v : value) : value :=
  match v with
  | VObj o => getProp k o
  | _ => VUndef
  end.

(** ** The field table

    [sanitizeConfig] treats its nine fields in two ways; the table lists them
    in the order of the source, for reasoning about all of them at once. *)

Inductive field_kind : Type :=
  | KTyped (ty : type_tag)      (* copied when [typeof] agrees *)
  | KIdList.                    (* an identifier list, array or string *)

Definition schema : list (string * field_kind) :=
  [ ("enabled", KTyped TBoolean);
    ("debug", KTyped TBoolean);
    ("autoLikeEnabled", KTyped TBoolean);
    ("vipLikeLimit", KTyped TNumber);
    ("blacklist", KIdList);
    ("autoLikeSomeoneEnabled", KTyped TBoolean);
    ("autoLikeInterval", KTyped TNumber);
    ("autoLikeTimes", KTyped TNumber);
    ("autoLikeUsers", KIdList) ].

Definition assign (raw : obj) (out : obj) (f : string * field_kind) : obj :=
  match f.2 with
  | KTyped ty => assign_if_typeof ty f.1 raw out
  | KIdList => assign_id_list f.1 raw out
  end.

(** What a field of the input becomes, when it is taken at all. *)
Definition accepted (kd : field_kind) (v : value) : option value :=
  match kd with
  | KTyped ty => if bool_decide (typeof v = ty) then Some v else None
  | KIdList =>
      match v with
      | VArr elems => Some (VArr (List.filter is_number elems))
      | VStr str => Some (VArr (List.map VNum (parse_id_list str)))
      | _ => None
      end
  end.

(** The declared type of a field of the given kind. *)
Definition well_kinded (kd : field_kind) (v : value) : bool :=
  match kd with
  | KTyped ty => bool_decide (typeof v = ty)
  | KIdList => is_number_array v
  end.

(** The fields in the order of the source, as one fold. *)
Definition run (raw : obj) (fields : list (string * field_kind)) (out : obj) : obj :=
  fold_left (assign raw) fields out.

End Sanitize.

(* ===================================================================== *)
(** * The state store ([PluginState]) *)
(* ===================================================================== *)

Module Store.

(** ** Data *)

(** A calendar day, as [new Date().toDateString()] prints it. *)
Definition Day : Type := string.

(** [PluginConfig] as the store holds it. *)
Record PluginConfig : Type := mkConfig {
  enabled : bool;
  debug : bool;
  autoLikeEnabled : bool;
  blacklist : list number;
  vipLikeLimit : number;
  autoLikeSomeoneEnabled : bool;
  autoLikeInterval : number;
  autoLikeTimes : number;
  autoLikeUsers : list number;
}.

Record Stats : Type := mkStats {
  processed : Z;
  todayProcessed : Z;
  lastUpdateDay : Day;
}.

(** What the store reads of [NapCatPluginContext]; its [logger] and [actions]
    are the host, below. *)
Record Context : Type := mkContext {
  configPath : string;
  dataPath : string;
}.

Record PluginState : Type := mkState {
  _ctx : option Context;
  config : PluginConfig;
  startTime : Z;
  selfId : string;
  timers : gmap string Z;            (* job id -> interval in ms *)
  stats : Stats;
  vipLikeCounts : gmap number Z;
  lastVipLikeResetDay : Day;
}.

(** ** Effects *)

(** A thrown [Error] object. *)
Record Error : Type := JsError {
  err_name : string;
  err_message : string;
}.

#[global] Instance Error_eq_dec : EqDecision Error.
Proof. solve_decision. Defined.

(** [new Error('PluginState 尚未初始化，请先调用 init()')], thrown by the
    [ctx] getter. *)
Definition Uninitialized : Error :=
  JsError "Error" "PluginState 尚未初始化，请先调用 init()".

(** The [TypeError] of a member access on [undefined] or [null], or of a call
    of something that is not a function. *)
Definition TypeError : Error :=
  JsError "TypeError" "Cannot read properties of undefined".

(** [String(error)] for an [Error] object. *)
Definition string_of_error (e : Error) : string :=
  if String.eqb (err_message e) "" then err_name e
  else err_name e +:+ ": " +:+ err_message e.

(** A remote action and its parameters: [callApi(action, params)]. *)
Record Call : Type := mkCall {
  action : string;
  params : obj;
}.

(** What the remote bridge answers: the promise resolves or rejects. *)
Inductive Reply : Type :=
  | Resolve (v : value)
  | Reject (e : Error).

Inductive Level : Type := LDebug | LInfo | LWarn | LError.

(** The log lines of the two components, one constructor per call site. *)
Inductive LogMsg : Type :=
  | MsgSelfId (id : string)
  | MsgSelfIdFailed
  | MsgTimerCleared (jobId : string)
  | MsgSaveDataFailed (filename : string)
  | MsgSaveConfigFailed
  | MsgAutoLiked (userId times : number)
  | MsgAutoLikedNoData (userId times : number)
  | MsgAutoLikeFailed (userId : number)
  | MsgReceived (user_id : number) (thumb_up : bool) (times : number)
  | MsgBlacklisted (user_id : number)
  | MsgNotFriend (user_id : number)
  | MsgFriendListFailed
  | MsgVipLimit (user_id : number) (currentLikes : Z) (limit : number)
  | MsgVipLookupFailed (user_id : number)
  | MsgPokedBackForLike (user_id times : number)
  | MsgPokedBackInGroup (group_id user_id : number)
  | MsgPokedBack (user_id : number)
  | MsgReciprocationFailed (user_id : number).

(** What is written to a file, before [JSON.stringify]. *)
Inductive Payload : Type :=
  | PCounts (counts : gmap number Z)
  | PConfig (c : PluginConfig) (s : Stats).

(** The observable effects, in program order. *)
Inductive Event : Type :=
  | ECall (c : Call)
  | ESleep (ms : Z)
  | ELog (lvl : Level) (m : LogMsg)
  | EWrite (path : string) (data : Payload)
  | EClearInterval (jobId : string).

(** The host: the [n]-th remote call is answered by [reply n], the [n]-th read
    of the clock gives [clock n], the [n]-th file write succeeds iff
    [write_ok n]. *)
Record Host : Type := mkHost {
  reply : nat -> Call -> Reply;
  clock : nat -> Day;
  write_ok : nat -> bool;
}.

Record World : Type := mkWorld {
  ps : PluginState;
  trace : list Event;
  ncalls : nat;
  nclock : nat;
  nwrites : nat;
}.

(** ** The monad: state, and exceptions that keep the state *)

Inductive Res (A : Type) : Type :=
  | Ok (a : A)
  | Throw (e : Error).
Arguments Ok {A} a.
Arguments Throw {A} e.

Definition M (A : Type) : Type := World -> Res A * World.

#[global] Instance M_ret : MRet M := fun A a w => (Ok a, w).

#[global] Instance M_bind : MBind M := fun A B f m w =>
  match m w with
  | (Ok a, w') => f a w'
  | (Throw e, w') => (Throw e, w')
  end.

Definition throw {A} (e : Error) : M A := fun w => (Throw e, w).

(** [try { body } catch (e) { handler e }] *)
Definition try_catch {A} (body : M A) (handler : Error -> M A) : M A := fun w =>
  match body w with
  | (Ok a, w') => (Ok a, w')
  | (Throw e, w') => handler e w'
  end.

Definition gets {A} (f : PluginState -> A) : M A := fun w => (Ok (f (ps w)), w).

Definition modify (f : PluginState -> PluginState) : M unit := fun w =>
  (Ok tt, mkWorld (f (ps w)) (trace w) (ncalls w) (nclock w) (nwrites w)).

Definition emit (e : Event) : M unit := fun w =>
  (Ok tt, mkWorld (ps w) (trace w ++ [e]) (ncalls w) (nclock w) (nwrites w)).

(** [for (const x of xs) { body x }] *)
Fixpoint for_of {A} (xs : list A) (body : A -> M unit) : M unit :=
  match xs with
  | [] => mret tt
  | x :: rest => body x ;; for_of rest body
  end.

(** Field updates of [PluginState]. *)
Definition set_ctx (c : option Context) (s : PluginState) : PluginState :=
  mkState c (config s) (startTime s) (selfId s) (timers s) (stats s)
          (vipLikeCounts s) (lastVipLikeResetDay s).
Definition set_selfId (id : string) (s : PluginState) : PluginState :=
  mkState (_ctx s) (config s) (startTime s) id (timers s) (stats s)
          (vipLikeCounts s) (lastVipLikeResetDay s).
Definition set_timers (t : gmap string Z) (s : PluginState) : PluginState :=
  mkState (_ctx s) (config s) (startTime s) (selfId s) t (stats s)
          (vipLikeCounts s) (lastVipLikeResetDay s).
Definition set_stats (st : Stats) (s : PluginState) : PluginState :=
  mkState (_ctx s) (config s) (startTime s) (selfId s) (timers s) st
          (vipLikeCounts s) (lastVipLikeResetDay s).
Definition set_vipLikeCounts (m : gmap number Z) (s : PluginState) : PluginState :=
  mkState (_ctx s) (config s) (startTime s) (selfId s) (timers s) (stats s)
          m (lastVipLikeResetDay s).
Definition set_lastVipLikeResetDay (d : Day) (s : PluginState) : PluginState :=
  mkState (_ctx s) (config s) (startTime s) (selfId s) (timers s) (stats s)
          (vipLikeCounts s) d.

(** The state of [new PluginState()]: no context, the default configuration,
    an empty [selfId], no timer, zeroed counters marked with the day of
    construction. *)
Definition new_PluginState (defaults : PluginConfig) (today : Day) : PluginState :=
  mkState None defaults 0 "" ∅ (mkStats 0 0 today) ∅ today.

(** The remote calls of a trace, in order. *)
Definition calls_of (t : list Event) : list Call :=
  flat_map (fun e => match e with ECall c => [c] | _ => [] end) t.

(** ** Operations *)

Section WithHost.

Variable h : Host.

(** [new Date().toDateString()] *)
Definition today : M Day := fun w =>
  (Ok (clock h (nclock w)),
   mkWorld (ps w) (trace w) (ncalls w) (S (nclock w)) (nwrites w)).

(** The outcome of the next file write. *)
Definition next_write : M bool := fun w =>
  (Ok (write_ok h (nwrites w)),
   mkWorld (ps w) (trace w) (ncalls w) (nclock w) (S (nwrites w))).

(** [await new Promise(resolve => setTimeout(resolve, ms))] *)
Definition sleep (ms : Z) : M unit := emit (ESleep ms).

(** [get ctx()]: throws unless [init] has stored a context. *)
Definition ctx : M Context := fun w =>
  match _ctx (ps w) with
  | Some c => (Ok c, w)
  | None => (Throw Uninitialized, w)
  end.

(** [this.logger.<lvl>(msg)]; [get logger()] goes through [this.ctx]. *)
Definition log (lvl : Level) (msg : LogMsg) : M unit :=
  ctx ;; emit (ELog lvl msg).

(** [path.join(dir, filename)] *)
Definition path_join (dir filename : string) : string :=
  dir +:+ "/" +:+ filename.

Definition getDataFilePath (filename : string) : M string :=
  c ← ctx; mret (path_join (dataPath c) filename).

(** [saveDataFile]: the write is inside [try]/[catch], its failure is logged. *)
Definition saveDataFile (filename : string) (data : Payload) : M unit :=
  filePath ← getDataFilePath filename;
  ok ← next_write;
  if ok : bool then emit (EWrite filePath data)
  else log LError (MsgSaveDataFailed filename).

(** [saveConfig]: returns at once without a context; otherwise writes the
    configuration and the statistics, a failure being logged through
    [this._ctx.logger]. *)
Definition saveConfig : M unit := fun w =>
  match _ctx (ps w) with
  | None => (Ok tt, w)
  | Some c =>
      (ok ← next_write;
       if ok : bool
       then emit (EWrite (configPath c) (PConfig (config (ps w)) (stats (ps w))))
       else emit (ELog LError MsgSaveConfigFailed)) w
  end.

(** What a call of [saveDataFile] leaves in the trace. *)
Definition saved (c : Context) (ok : bool) (filename : string) (data : Payload) : Event :=
  if ok then EWrite (path_join (dataPath c) filename) data
  else ELog LError (MsgSaveDataFailed filename).

(** [incrementProcessed] *)
Definition incrementProcessed : M unit :=
  day ← today;
  modify (fun s =>
    let st := stats s in
    let st := if bool_decide (lastUpdateDay st ≠ day)
              then mkStats (processed st) 0 day
              else st in
    let st := mkStats (processed st) (todayProcessed st + 1) (lastUpdateDay st) in
    let st := mkStats (processed st + 1) (todayProcessed st) (lastUpdateDay st) in
    set_stats st s).

(** [checkVipLikeReset] *)
Definition checkVipLikeReset : M unit :=
  day ← today;
  last ← gets lastVipLikeResetDay;
  if bool_decide (last ≠ day) then
    modify (set_vipLikeCounts ∅) ;;
    modify (set_lastVipLikeResetDay day) ;;
    saveDataFile "vip_likes.json" (PCounts ∅)
  else mret tt.

(** [this.vipLikeCounts[userId] || 0] *)
Definition count_of (userId : number) (counts : gmap number Z) : Z :=
  default 0 (counts !! userId).

Definition getVipLikeCount (userId : number) : M Z :=
  checkVipLikeReset ;;
  gets (fun s => count_of userId (vipLikeCounts s)).

Definition incrementVipLikeCount (userId : number) : M unit :=
  checkVipLikeReset ;;
  modify (fun s =>
    set_vipLikeCounts
      (<[userId := count_of userId (vipLikeCounts s) + 1]> (vipLikeCounts s)) s) ;;
  counts ← gets vipLikeCounts;
  saveDataFile "vip_likes.json" (PCounts counts).

(** The bridge: the call is recorded and the host's answer awaited. *)
Definition bridge_call (c : Call) : M value := fun w =>
  let w' := mkWorld (ps w) (trace w ++ [ECall c]) (S (ncalls w)) (nclock w)
                    (nwrites w) in
  match reply h (ncalls w) c with
  | Resolve v => (Ok v, w')
  | Reject e => (Throw e, w')
  end.

(** [callApi(action, params)]: [this.ctx] is read before [actions.call]. *)
Definition callApi (action : string) (params : obj) : M value :=
  ctx ;; bridge_call (mkCall action params).

(** [String(v)] for the value of [res.user_id]. *)
Fixpoint string_of_value (v : value) : string :=
  match v with
  | VUndef => "undefined"
  | VNull => "null"
  | VBool true => "true"
  | VBool false => "false"
  | VNum n => string_of_number n
  | VStr s => s
  | VArr elems =>
      String.concat ","
        (List.map (fun x => match x with
                            | VUndef | VNull => ""
                            | _ => string_of_value x
                            end) elems)
  | VObj _ => "[object Object]"
  end.

(** [fetchSelfId]: the answer of [get_login_info] fills [selfId] when it
    carries a truthy [user_id]; a failure is logged and leaves it as it is. *)
Definition fetchSelfId : M unit :=
  try_catch
    (res ← callApi "get_login_info" [];
     let user_id := default VUndef (member res "user_id") in   (* res?.user_id *)
     if truthy user_id then
       modify (set_selfId (string_of_value user_id)) ;;
       id ← gets selfId;
       log LDebug (MsgSelfId id)
     else mret tt)
    (fun e => log LWarn MsgSelfIdFailed).

(** [cleanup] *)
Definition cleanup : M unit :=
  ts ← gets timers;
  for_of (map_to_list ts) (fun '(jobId, _) =>
    emit (EClearInterval jobId) ;;
    log LDebug (MsgTimerCleared jobId)) ;;
  modify (set_timers ∅) ;;
  saveConfig ;;
  counts ← gets vipLikeCounts;
  saveDataFile "vip_likes.json" (PCounts counts) ;;
  modify (set_ctx None).

(** [error?.message || String(error)] *)
Definition errMsg_of (e : Error) : string :=
  if truthy (VStr (err_message e)) then err_message e else string_of_error e.

(** The body of the loop of [executeAutoLike] for one target. *)
Definition autoLikeTarget (times userId : number) : M unit :=
  try_catch
    (callApi "send_like"
       [("user_id", VStr (string_of_number userId)); ("times", VNum times)] ;;
     log LInfo (MsgAutoLiked userId times) ;;
     incrementProcessed ;;
     sleep 1000)
    (fun error =>
       let errMsg := errMsg_of error in
       if str_includes "No data returned" errMsg then
         log LInfo (MsgAutoLikedNoData userId times) ;;
         incrementProcessed
       else
         log LError (MsgAutoLikeFailed userId)).

(** [executeAutoLike] *)
Definition executeAutoLike : M unit :=
  cfg ← gets config;
  if negb (autoLikeSomeoneEnabled cfg)
     || bool_decide (length (autoLikeUsers cfg) = 0%nat)
  then mret tt
  else
    let times := autoLikeTimes cfg in
    for_of (autoLikeUsers cfg) (autoLikeTarget times).

(** [executeAutoLikeNow] *)
Definition executeAutoLikeNow : M unit := executeAutoLike.

End WithHost.

(** The call [callApi('send_like', { user_id: String(userId), times })]. *)
Definition send_like (userId times : number) : Call :=
  mkCall "send_like" [("user_id", VStr (string_of_number userId)); ("times", VNum times)].

(** The statistics after [incrementProcessed] has read [day] from the clock. *)
Definition bumped (day : Day) (st : Stats) : Stats :=
  mkStats (processed st + 1)
          ((if bool_decide (lastUpdateDay st ≠ day) then 0 else todayProcessed st) + 1)
          day.

(** The store after the rollover that a read of the clock giving [day]
    triggers, if any. *)
Definition rolled (day : Day) (s : PluginState) : PluginState :=
  if bool_decide (lastVipLikeResetDay s ≠ day)
  then set_lastVipLikeResetDay day (set_vipLikeCounts ∅ s)
  else s.

End Store.

(* ===================================================================== *)
(** * The gesture handler ([handleLike]) *)
(* ===================================================================== *)

Module Handler.
Import Store.

(** The two shapes of [LikeEvent], with the fields the handler reads;
    an absent optional field is [None]. *)
Record LikeEvent : Type := mkEvent {
  notice_type : string;
  sub_type : option string;
  user_id : number;
  target_id : number;
  group_id : option number;
  count : option number;
}.

(** A value that may be a [TypeError]. *)
Definition or_TypeError {A} (o : option A) : M A :=
  match o with
  | Some a => mret a
  | None => throw TypeError
  end.

(** [friends.some(friend => friend.user_id === user_id)]: stops at the first
    match; reading [user_id] of a [null] entry is a [TypeError]. *)
Fixpoint some_friend (user_id : number) (friends : list value) : option bool :=
  match friends with
  | [] => Some false
  | friend :: rest =>
      match member friend "user_id" with
      | None => None
      | Some v => if strict_eq_num v user_id then Some true
                  else some_friend user_id rest
      end
  end.

(** [friendList.data.some(...)]; anything but an array under [data] has no
    [some] to call. *)
Definition isFriend_of (friendList : value) (user_id : number) : option bool :=
  match member friendList "data" with
  | Some (VArr friends) => some_friend user_id friends
  | _ => None
  end.

(** [userInfo.data.vip || false] *)
Definition isVip_of (userInfo : value) : option bool :=
  match member userInfo "data" with
  | Some data =>
      match member data "vip" with
      | Some vip => Some (truthy vip)
      | None => None
      end
  | None => None
  end.

(** [event.notice_type === 'thumb_up' ||
     (event.notice_type === 'notify' && event.sub_type === 'poke')] *)
Definition isLikeOrPoke (event : LikeEvent) : bool :=
  String.eqb (notice_type event) "thumb_up"
  || (String.eqb (notice_type event) "notify"
      && bool_decide (sub_type event = Some "poke")).

(** ['count' in event ? event.count || 1 : 1] *)
Definition times_of (event : LikeEvent) : number :=
  match count event with
  | Some c => if truthy (VNum c) then c else Num 1
  | None => Num 1
  end.

Section WithHost.

Variable h : Host.

(** The handler logs through the [logger] of the context it is passed, which
    is always there. *)
Definition hlog (lvl : Level) (msg : LogMsg) : M unit := emit (ELog lvl msg).

(** Lines 46-56, the friendship check; [true] when the pipeline goes on. *)
Definition friendship_check (user_id : number) : M bool :=
  try_catch
    (friendList ← callApi h "get_friend_list" [];
     isFriend ← or_TypeError (isFriend_of friendList user_id);
     if negb isFriend then
       hlog LInfo (MsgNotFriend user_id) ;; mret false
     else mret true)
    (fun error => hlog LError MsgFriendListFailed ;; mret false).

(** Lines 58-71, the VIP-limit check; [true] when the pipeline goes on. *)
Definition vip_limit_check (user_id : number) : M bool :=
  try_catch
    (userInfo ← callApi h "get_stranger_info" [("user_id", VNum user_id)];
     isVip ← or_TypeError (isVip_of userInfo);
     if isVip : bool then
       currentLikes ← getVipLikeCount h user_id;
       limit ← gets (fun s => vipLikeLimit (config s));
       if num_ge (Num currentLikes) limit then
         hlog LInfo (MsgVipLimit user_id currentLikes limit) ;; mret false
       else mret true
     else mret true)
    (fun error => hlog LWarn (MsgVipLookupFailed user_id) ;; mret true).

(** [if (event.group_id)] *)
Definition truthy_group (g : option number) : option number :=
  match g with
  | Some gid => if truthy (VNum gid) then Some gid else None
  | None => None
  end.

(** Lines 74-98, the reciprocation and the counter update. *)
Definition reciprocate (event : LikeEvent) : M unit :=
  let user_id := user_id event in
  try_catch
    ((if String.eqb (notice_type event) "thumb_up" then
        callApi h "friend_poke" [("user_id", VNum user_id)] ;;
        hlog LInfo (MsgPokedBackForLike user_id (times_of event))
      else if bool_decide (sub_type event = Some "poke") then
        match truthy_group (group_id event) with
        | Some gid =>
            callApi h "group_poke" [("group_id", VNum gid); ("user_id", VNum user_id)] ;;
            hlog LInfo (MsgPokedBackInGroup gid user_id)
        | None =>
            callApi h "friend_poke" [("user_id", VNum user_id)] ;;
            hlog LInfo (MsgPokedBack user_id)
        end
      else mret tt) ;;
     incrementVipLikeCount h user_id)
    (fun error => hlog LError (MsgReciprocationFailed user_id)).

(** [handleLike(ctx, event)] *)
Definition handleLike (event : LikeEvent) : M unit :=
  if negb (isLikeOrPoke event) then mret tt else
  let user_id := user_id event in
  let times := times_of event in
  self ← gets selfId;
  if negb (num_strict_eq (target_id event) (parseInt self)) then mret tt else
  cfg ← gets config;
  if negb (autoLikeEnabled cfg) then mret tt else
  hlog LInfo (MsgReceived user_id (String.eqb (notice_type event) "thumb_up") times) ;;
  if includes (blacklist cfg) user_id then
    hlog LInfo (MsgBlacklisted user_id)
  else
    isFriend ← friendship_check user_id;
    if negb isFriend then mret tt else
    underLimit ← vip_limit_check user_id;
    if negb underLimit then mret tt else
    reciprocate event.

End WithHost.

(** ** The calls of the pipeline and its gates, for the statements *)

Definition friend_list_call : Call := mkCall "get_friend_list" [].

Definition stranger_info_call (user_id : number) : Call :=
  mkCall "get_stranger_info" [("user_id", VNum user_id)].

Definition friend_poke (user_id : number) : Call :=
  mkCall "friend_poke" [("user_id", VNum user_id)].

Definition group_poke (group_id user_id : number) : Call :=
  mkCall "group_poke" [("group_id", VNum group_id); ("user_id", VNum user_id)].

(** The call the reciprocation step issues for a gesture. *)
Definition poke_back_call (event : LikeEvent) : Call :=
  if String.eqb (notice_type event) "thumb_up" then friend_poke (user_id event)
  else match truthy_group (group_id event) with
       | Some gid => group_poke gid (user_id event)
       | None => friend_poke (user_id event)
       end.

(** Steps 1 to 5 of the pipeline let the gesture through: it is a thumb-up
    or a poke, aimed at the bot, the feature is on, the acting user is not
    blacklisted, and the friend list, which the bridge delivers, has them. *)
Definition eligible (h : Host) (event : LikeEvent) (w : World) : Prop :=
  isLikeOrPoke event = true
  ∧ num_strict_eq (target_id event) (parseInt (selfId (ps w))) = true
  ∧ autoLikeEnabled (config (ps w)) = true
  ∧ (user_id event ∉ blacklist (config (ps w)))
  ∧ is_Some (_ctx (ps w))
  ∧ ∃ friendList,
      reply h (ncalls w) friend_list_call = Resolve friendList
      ∧ isFriend_of friendList (user_id event) = Some true.

(** Where the pipeline stands once steps 1 to 5 have let the gesture
    through: one log line, one call. *)
Definition after_friendship (event : LikeEvent) (w : World) : World :=
  mkWorld (ps w)
    (trace w ++ [ELog LInfo (MsgReceived (user_id event)
                               (String.eqb (notice_type event) "thumb_up")
                               (times_of event));
                 ECall friend_list_call])
    (S (ncalls w)) (nclock w) (nwrites w).

(** The store once [incrementVipLikeCount] has read [day] from the clock. *)
Definition counted (day : Day) (user_id : number) (s : PluginState) : PluginState :=
  let s := rolled day s in
  set_vipLikeCounts
    (<[user_id := count_of user_id (vipLikeCounts s) + 1]> (vipLikeCounts s)) s.

End Handler.

(* ===================================================================== *)
(** * A concrete deployment, for the instances *)
(* ===================================================================== *)

Module Scenario.
Import Store Handler.

Definition oct31 : Day := "Sat Oct 31 2026".
Definition nov1 : Day := "Sun Nov 01 2026".

Definition context : Context :=
  mkContext "/napcat/config/plugin.json" "/napcat/data/plugin".

(** Reciprocation on, user 900 blacklisted, two reciprocations a day for a
    VIP, and the proactive-like job for the users 1 and 2 with strength 5. *)
Definition cfg : PluginConfig :=
  mkConfig true false true [Num 900] (Num 2) true (Num 60) (Num 5) [Num 1; Num 2].

(** The bot is account 42.  On November 1st, user 300 has been answered twice
    and user 301 once. *)
Definition store : PluginState :=
  mkState (Some context) cfg 0 "42" ∅ (mkStats 3 7 nov1)
          {[ Num 300 := 2; Num 301 := 1 ]} nov1.

(** The same store as October 31st left it. *)
Definition stale : PluginState :=
  mkState (Some context) cfg 0 "42" ∅ (mkStats 3 7 oct31)
          {[ Num 300 := 5 ]} oct31.

(** Before [init]. *)
Definition fresh : PluginState := new_PluginState cfg nov1.

Definition world (s : PluginState) : World := mkWorld s [] 0 0 0.

Definition friends : value :=
  VObj [("data", VArr [ VObj [("user_id", VNum (Num 100))];
                        VObj [("user_id", VNum (Num 200))];
                        VObj [("user_id", VNum (Num 300))];
                        VObj [("user_id", VNum (Num 301))];
                        VObj [("user_id", VNum (Num 900))] ])].

Definition vip_info : value := VObj [("data", VObj [("vip", VBool true)])].
Definition plain_info : value := VObj [("data", VObj [("vip", VBool false)])].

(** A bridge that answers every call: the users 300 and 301 are VIP.  It is
    November 1st and the disk is writable. *)
Definition host : Host :=
  mkHost
    (fun _ c =>
       if String.eqb (action c) "get_friend_list" then Resolve friends
       else if String.eqb (action c) "get_stranger_info" then
         if strict_eq_num (getProp "user_id" (params c)) (Num 300)
            || strict_eq_num (getProp "user_id" (params c)) (Num 301)
         then Resolve vip_info else Resolve plain_info
       else Resolve VNull)
    (fun _ => nov1)
    (fun _ => true).

(** A bridge whose every answer is the empty-body rejection. *)
Definition host_no_data : Host :=
  mkHost (fun _ _ => Reject (JsError "Error" "No data returned"))
         (fun _ => nov1) (fun _ => true).

Definition thumb_up_from (user : Z) : LikeEvent :=
  mkEvent "thumb_up" None (Num user) (Num 42) None (Some (Num 3)).

Definition poke_from (user : Z) (group : option number) : LikeEvent :=
  mkEvent "notify" (Some "poke") (Num user) (Num 42) group None.

End Scenario.

(* ===================================================================== *)
(** * Printed numbers *)
(* ===================================================================== *)

Module Printed.

(** Every character of [s] satisfies [P]. *)
Fixpoint str_forall (P : ascii -> bool) (s : string) : bool :=
  match s with
  | EmptyString => true
  | String a rest => P a && str_forall P rest
  end.

(** A decimal digit. *)
Definition is_digit10 (a : ascii) : bool :=
  let n := N_of_ascii a in ((48 <=? n) && (n <=? 57))%N.

(** A character of a printed integer: a digit or the minus sign. *)
Definition is_numeral (a : ascii) : bool :=
  is_digit10 a || Ascii.eqb a "-".

(** [Number.MAX_SAFE_INTEGER], 2^53 - 1.  Up to it a double holds every
    integer exactly, [parseInt] is exact and [String] prints every digit. *)
Definition MAX_SAFE_INTEGER : Z := 9007199254740991.

(** [Number.isSafeInteger(z)] on an integer. *)
Definition isSafeInteger (z : Z) : bool :=
  (- MAX_SAFE_INTEGER <=? z) && (z <=? MAX_SAFE_INTEGER).

End Printed.

(* ===================================================================== *)
(** * Configuration updates and the proactive-like schedule *)
(* ===================================================================== *)

Module Config.
Import Sanitize Store.

(** ** The stored configuration as a JavaScript object, and back *)

Definition encodeConfig (c : PluginConfig) : obj :=
  [ ("enabled", VBool (enabled c));
    ("debug", VBool (debug c));
    ("autoLikeEnabled", VBool (autoLikeEnabled c));
    ("blacklist", VArr (List.map VNum (blacklist c)));
    ("vipLikeLimit", VNum (vipLikeLimit c));
    ("autoLikeSomeoneEnabled", VBool (autoLikeSomeoneEnabled c));
    ("autoLikeInterval", VNum (autoLikeInterval c));
    ("autoLikeTimes", VNum (autoLikeTimes c));
    ("autoLikeUsers", VArr (List.map VNum (autoLikeUsers c))) ].

Definition bool_of (v : value) : bool :=
  match v with VBool b => b | _ => false end.

Definition number_of (v : value) : number :=
  match v with VNum n => n | _ => NaN end.

Definition numbers_of (v : value) : list number :=
  match v with
  | VArr elems =>
      omap (fun e => match e with VNum n => Some n | _ => None end) elems
  | _ => []
  end.

(** The record the store keeps for an object that has the declared types
    (what [sanitizeConfig] returns); the fall-backs are never used then. *)
Definition decodeConfig (v : value) : PluginConfig :=
  mkConfig (bool_of (field "enabled" v))
           (bool_of (field "debug" v))
           (bool_of (field "autoLikeEnabled" v))
           (numbers_of (field "blacklist" v))
           (number_of (field "vipLikeLimit" v))
           (bool_of (field "autoLikeSomeoneEnabled" v))
           (number_of (field "autoLikeInterval" v))
           (number_of (field "autoLikeTimes" v))
           (numbers_of (field "autoLikeUsers" v)).

Definition set_config (c : PluginConfig) (s : PluginState) : PluginState :=
  mkState (_ctx s) c (startTime s) (selfId s) (timers s) (stats s)
          (vipLikeCounts s) (lastVipLikeResetDay s).

(** ** Partial updates *)

(** [{ ...a, ...b }]: the own properties of [a], each own property of [b]
    written over them in the order of [b]. *)
Definition spread (a b : obj) : obj :=
  fold_left (fun o kv => setProp kv.1 kv.2 o) b a.

(** [if ('k' in partial && typeof partial.k === 'string')
       partial.k = str.split(',').map(s => parseInt(s.trim(), 10)).filter(n => !isNaN(n));]
    ([typeof partial.k] is ['string'] only when the key is there.) *)
Definition normalize_id_list (k : string) (partial : obj) : obj :=
  match getProp k partial with
  | VStr str => setProp k (VArr (List.map VNum (parse_id_list str))) partial
  | _ => partial
  end.

(** What [updateConfig] assigns to [this.config]:
    [{ ...this.config, ...partial }], once the two list fields of [partial]
    are normalized. *)
Definition merged (c : PluginConfig) (partial : obj) : obj :=
  spread (encodeConfig c)
         (normalize_id_list "autoLikeUsers" (normalize_id_list "blacklist" partial)).

(** ** Timers *)

(** [a * b] on numbers. *)
Definition num_mul (a b : number) : number :=
  match a, b with
  | Num x, Num y => Num (x * y)
  | _, _ => NaN
  end.

(** The delay [setInterval] really uses (Node.js timers): a delay below 1,
    above 2^31 - 1 or [NaN] is set to 1. *)
Definition effective_delay (ms : number) : Z :=
  match ms with
  | Num z => if (1 <=? z) && (z <=? 2147483647) then z else 1
  | NaN => 1
  end.

Section WithHost.

Variable h : Host.

(** [this.logger.info(...)] for the two lines of the schedule: the getter
    throws without a context; the line itself is not kept in the trace. *)
Definition logger_info : M unit := ctx ;; mret tt.

(** [stopAutoLikeTimer] *)
Definition stopAutoLikeTimer : M unit :=
  ts ← gets timers;
  if bool_decide (is_Some (ts !! "autoLike")) then
    emit (EClearInterval "autoLike") ;;
    modify (fun s => set_timers (delete "autoLike" (timers s)) s) ;;
    logger_info
  else mret tt.

(** [startAutoLikeTimer]; the handle [setInterval] returns is kept as its
    delay. *)
Definition startAutoLikeTimer : M unit :=
  stopAutoLikeTimer ;;
  cfg ← gets config;
  if negb (autoLikeSomeoneEnabled cfg)
     || bool_decide (length (autoLikeUsers cfg) = 0%nat)
  then mret tt
  else
    let interval := num_mul (num_mul (autoLikeInterval cfg) (Num 60)) (Num 1000) in
    modify (fun s =>
      set_timers (<["autoLike" := effective_delay interval]> (timers s)) s) ;;
    logger_info.

(** [restartAutoLikeTimer] *)
Definition restartAutoLikeTimer : M unit := startAutoLikeTimer.

(** [updateConfig(partial)], for any object [partial].  The store of this
    model keeps the configuration as a record: it is the merged object when
    the update stays within the declared types ([typed_update] below).  With
    any other update (a key set to [undefined], a foreign key, a value of
    another type) the code goes on with an object the record cannot hold,
    and what is read back here is not what the code has; the theorems on
    [updateConfig] are stated for typed updates. *)
Definition updateConfig (partial : obj) : M unit :=
  modify (fun s => set_config (decodeConfig (VObj (merged (config s) partial))) s) ;;
  saveConfig h ;;
  restartAutoLikeTimer.

(** [replaceConfig(config)]; [DEFAULT_CONFIG] is the parameter of
    [sanitizeConfig]. *)
Definition replaceConfig (DEFAULT_CONFIG : obj) (raw : value) : M unit :=
  modify (set_config (decodeConfig (sanitizeConfig DEFAULT_CONFIG raw))) ;;
  saveConfig h.

End WithHost.

(** ** Summaries, for the statements *)

(** The proactive-like job is to run: enabled, with at least one target. *)
Definition job_wanted (cfg : PluginConfig) : bool :=
  autoLikeSomeoneEnabled cfg && negb (bool_decide (length (autoLikeUsers cfg) = 0%nat)).

(** The delay of the job: [autoLikeInterval * 60 * 1000], as [setInterval]
    takes it. *)
Definition job_delay (cfg : PluginConfig) : Z :=
  effective_delay (num_mul (num_mul (autoLikeInterval cfg) (Num 60)) (Num 1000)).

(** The timer table once [startAutoLikeTimer] has run under [cfg]. *)
Definition scheduled (cfg : PluginConfig) (ts : gmap string Z) : gmap string Z :=
  if job_wanted cfg then <["autoLike" := job_delay cfg]> (delete "autoLike" ts)
  else delete "autoLike" ts.

(** What [startAutoLikeTimer] and [stopAutoLikeTimer] add to the trace: the
    previous job, if any, is cancelled. *)
Definition cancelled (ts : gmap string Z) : list Event :=
  if bool_decide (is_Some (ts !! "autoLike")) then [EClearInterval "autoLike"] else [].

(** The declared kind of a configuration key. *)
Definition kind_of (k : string) : option field_kind :=
  snd <$> List.find (fun f => String.eqb k f.1) schema.

(** A value a caller may give a field of the given kind: one of the declared
    type, a list also as the string of the settings page. *)
Definition update_kinded (kd : field_kind) (v : value) : bool :=
  match kd with
  | KTyped ty => bool_decide (typeof v = ty)
  | KIdList => is_number_array v || bool_decide (typeof v = TString)
  end.

(** An update that stays within the declared types: an object (its keys are
    distinct) whose every key is a field of the configuration and holds a
    value of that field's type.  A key set to [undefined], which
    [Partial<PluginConfig>] lets through, is not such an update, nor is one
    with a key the configuration does not have. *)
Definition typed_update (partial : obj) : bool :=
  bool_decide (NoDup partial.*1)
  && forallb (fun kv => match kind_of kv.1 with
                        | Some kd => update_kinded kd kv.2
                        | None => false
                        end) partial.

(** The field of the configuration after an update that gives [v] for it
    ([undefined]: the key is not in the update). *)
Definition updated_field (old v : value) : value :=
  match v with
  | VUndef => old
  | VStr str => VArr (List.map VNum (parse_id_list str))
  | _ => v
  end.

End Config.

(* ===================================================================== *)
(** * Summaries of the store operations, for the statements *)
(* ===================================================================== *)

Module Summary.
Import Store.

(** A [send_like] the loop of [executeAutoLike] counts: it resolved, or it was
    rejected with the empty-body message. *)
Definition counts_as_success (r : Reply) : bool :=
  match r with
  | Resolve _ => true
  | Reject e => str_includes "No data returned" (errMsg_of e)
  end.

(** How many of the targets count, the first call being the [n]-th of the
    host. *)
Fixpoint successes (h : Host) (n : nat) (times : number) (users : list number) : Z :=
  match users with
  | [] => 0
  | u :: rest =>
      (if counts_as_success (reply h n (send_like u times)) then 1 else 0)
      + successes h (S n) times rest
  end.

(** The daily count never exceeds the lifetime count, and neither is
    negative. *)
Definition stats_ok (st : Stats) : Prop :=
  0 ≤ todayProcessed st ≤ processed st.

(** The two lines [cleanup] leaves per timer. *)
Definition cleared (jobs : list (string * Z)) : list Event :=
  flat_map (fun '(jobId, _) =>
              [EClearInterval jobId; ELog LDebug (MsgTimerCleared jobId)]) jobs.

End Summary.

(* ===================================================================== *)
(** * Summaries of the gesture handler, for the statements *)
(* ===================================================================== *)

Module Gates.
Import Store Handler.

(** Steps 1 to 4 of the pipeline, which need no remote call: the event is a
    thumb-up or a poke, aimed at the bot, the feature is on and the acting
    user is not blacklisted. *)
Definition passes_local_gates (event : LikeEvent) (w : World) : Prop :=
  isLikeOrPoke event = true
  ∧ num_strict_eq (target_id event) (parseInt (selfId (ps w))) = true
  ∧ autoLikeEnabled (config (ps w)) = true
  ∧ (user_id event ∉ blacklist (config (ps w))).

(** The three remote calls of a full run, in order. *)
Definition pipeline_calls (event : LikeEvent) : list Call :=
  [friend_list_call; stranger_info_call (user_id event); poke_back_call event].

(** [s'] differs from [s] at most in the VIP counters and their day marker. *)
Definition same_but_counters (s s' : PluginState) : Prop :=
  _ctx s' = _ctx s ∧ config s' = config s ∧ startTime s' = startTime s
  ∧ selfId s' = selfId s ∧ timers s' = timers s ∧ stats s' = stats s.

(** The first line of the handler's log for a gesture. *)
Definition received (event : LikeEvent) : Event :=
  ELog LInfo (MsgReceived (user_id event)
                          (String.eqb (notice_type event) "thumb_up")
                          (times_of event)).

End Gates.

(* ===================================================================== *)
(** * Uptime *)
(* ===================================================================== *)

Module Uptime.
Import Store.

(** [getUptime()]; [now] is [Date.now()]. *)
Definition getUptime (now : Z) (s : PluginState) : Z := now - startTime s.

(** [getUptimeFormatted()]: [Math.floor] of a quotient is [Z.div], [%] is
    [Z.rem]. *)
Definition getUptimeFormatted (now : Z) (st : PluginState) : string :=
  let ms := getUptime now st in
  let s := ms / 1000 in
  let m := s / 60 in
  let h := m / 60 in
  let d := h / 24 in
  if 0 <? d then pretty d +:+ "天" +:+ pretty (Z.rem h 24) +:+ "小时"
  else if 0 <? h then pretty h +:+ "小时" +:+ pretty (Z.rem m 60) +:+ "分钟"
  else if 0 <? m then pretty m +:+ "分钟" +:+ pretty (Z.rem s 60) +:+ "秒"
  else pretty s +:+ "秒".

End Uptime.

(* ===================================================================== *)
(** * More of the concrete deployment *)
(* ===================================================================== *)

Module Scenario2.
Import Store Handler Config Scenario.

(** The store of [Scenario] with the proactive-like job running every hour. *)
Definition store_with_job : PluginState :=
  mkState (Some context) cfg 0 "42" {[ "autoLike" := 3600000 ]} (mkStats 3 7 nov1)
          {[ Num 300 := 2; Num 301 := 1 ]} nov1.

(** The store with the tallies a running plugin has: seven gestures in all,
    three of them on October 31st. *)
Definition tallied : PluginState := set_stats (mkStats 7 3 oct31) store.

(** The same store once [cleanup] has released the context. *)
Definition released : PluginState :=
  mkState None cfg 0 "42" ∅ (mkStats 3 7 nov1) {[ Num 300 := 2; Num 301 := 1 ]} nov1.

(** A bridge that knows the account: [get_login_info] gives user 42. *)
Definition host_login : Host :=
  mkHost (fun _ _ => Resolve (VObj [("user_id", VNum (Num 42))]))
         (fun _ => nov1) (fun _ => true).

(** A bridge whose first answer is fine and whose later ones time out. *)
Definition host_flaky : Host :=
  mkHost (fun n _ => match n with
                     | O => Resolve VNull
                     | S _ => Reject (JsError "Error" "timeout")
                     end)
         (fun _ => nov1) (fun _ => true).

(** The defaults [DEFAULT_CONFIG] could be. *)
Definition defaults : obj :=
  [ ("enabled", VBool true); ("debug", VBool false);
    ("autoLikeEnabled", VBool true); ("blacklist", VArr []);
    ("vipLikeLimit", VNum (Num 10));
    ("autoLikeSomeoneEnabled", VBool false);
    ("autoLikeInterval", VNum (Num 60));
    ("autoLikeTimes", VNum (Num 10)); ("autoLikeUsers", VArr []) ].

(** An update that turns the job off and blacklists the users 7 and 8. *)
Definition turn_off : obj :=
  [ ("blacklist", VStr "7, 8"); ("autoLikeSomeoneEnabled", VBool false) ].

End Scenario2.

(* ===================================================================== *)
(** * Properties of [sanitizeConfig] *)
(* ===================================================================== *)

Module SanitizeFacts.
Import Sanitize.

Lemma getProp_setProp_eq k v o : getProp k (setProp k v o) = v.
Proof.
  induction o as [|[k' v'] o IH]; simpl.
  - by rewrite String.eqb_refl.
  - destruct (String.eqb_spec k k') as [->|Hne]; simpl.
    + by rewrite String.eqb_refl.
    + by destruct (String.eqb_spec k k').
Qed.

Lemma getProp_setProp_ne k k' v o :
  k ≠ k' → getProp k' (setProp k v o) = getProp k' o.
Proof.
  intros Hne. induction o as [|[k0 v0] o IH]; simpl.
  - by destruct (String.eqb_spec k' k) as [->|_].
  - destruct (String.eqb_spec k k0) as [->|Hk]; simpl.
    + by destruct (String.eqb_spec k' k0) as [->|_].
    + by rewrite IH.
Qed.

(** Writing back what is there changes nothing, provided the key exists. *)
Lemma setProp_getProp_id k o :
  getProp k o ≠ VUndef → setProp k (getProp k o) o = o.
Proof.
  induction o as [|[k' v'] o IH]; simpl; [done|].
  destruct (String.eqb_spec k k') as [->|Hne]; [done|].
  intros H. by rewrite IH.
Qed.

Lemma assign_accepted raw out f :
  assign raw out f =
  match accepted f.2 (getProp f.1 raw) with
  | Some v => setProp f.1 v out
  | None => out
  end.
Proof.
  destruct f as [k [ty|]]; unfold assign, accepted; simpl.
  - unfold assign_if_typeof. by case_bool_decide.
  - unfold assign_id_list. by destruct (getProp k raw).
Qed.

Lemma filter_is_number_fix elems :
  forallb is_number elems = true → List.filter is_number elems = elems.
Proof.
  induction elems as [|x l IH]; simpl; [done|].
  intros [Hx Hl]%andb_true_iff. rewrite Hx. by rewrite IH.
Qed.

Lemma forallb_filter_is_number elems :
  forallb is_number (List.filter is_number elems) = true.
Proof.
  induction elems as [|x l IH]; simpl; [done|].
  destruct (is_number x) eqn:Hx; simpl; [by rewrite Hx|done].
Qed.

Lemma forallb_is_number_VNum ns : forallb is_number (List.map VNum ns) = true.
Proof. by induction ns. Qed.

Lemma accepted_well_kinded kd v w :
  accepted kd v = Some w → well_kinded kd w = true.
Proof.
  destruct kd as [ty|]; simpl.
  - case_bool_decide; [|done]. intros [= <-]. by apply bool_decide_eq_true.
  - destruct v; try done; intros [= <-]; simpl.
    + apply forallb_is_number_VNum.
    + apply forallb_filter_is_number.
Qed.

Lemma well_kinded_accepted kd w :
  well_kinded kd w = true → accepted kd w = Some w.
Proof.
  destruct kd as [ty|]; simpl.
  - intros H. by rewrite H.
  - destruct w; try done. simpl. intros H. by rewrite filter_is_number_fix.
Qed.

Lemma sanitizeConfig_run D r : sanitizeConfig D (VObj r) = VObj (run r schema D).
Proof. reflexivity. Qed.

Lemma well_kinded_accepted_None kd :
  well_kinded kd VUndef = false → accepted kd VUndef = None.
Proof. destruct kd as [ty|]; simpl; [|done]. by intros ->. Qed.

Lemma run_cons raw f fields out :
  run raw (f :: fields) out = run raw fields (assign raw out f).
Proof. reflexivity. Qed.

Lemma getProp_run_other raw fields out k :
  k ∉ fields.*1 → getProp k (run raw fields out) = getProp k out.
Proof.
  revert out. induction fields as [|[k' kd] l IH]; intros out Hk; [done|].
  apply not_elem_of_cons in Hk as [Hne Hk]. simpl in Hne.
  rewrite run_cons, IH by done.
  rewrite assign_accepted. simpl.
  destruct (accepted kd (getProp k' raw)); [|done].
  by apply getProp_setProp_ne.
Qed.

Lemma getProp_run raw fields out k kd :
  NoDup fields.*1 → (k, kd) ∈ fields →
  getProp k (run raw fields out) =
  match accepted kd (getProp k raw) with
  | Some v => v
  | None => getProp k out
  end.
Proof.
  revert out. induction fields as [|[k' kd'] l IH]; intros out Hnd Hin.
  - by apply elem_of_nil in Hin.
  - apply NoDup_cons in Hnd as [Hk' Hnd]. rewrite run_cons.
    apply elem_of_cons in Hin as [[= -> ->]|Hin].
    + rewrite getProp_run_other by done.
      rewrite assign_accepted. simpl.
      destruct (accepted kd' (getProp k' raw)); [|done].
      apply getProp_setProp_eq.
    + rewrite IH by done.
      destruct (accepted kd (getProp k raw)); [done|].
      rewrite assign_accepted. simpl.
      destruct (accepted kd' (getProp k' raw)); [|done].
      apply getProp_setProp_ne. intros ->.
      apply Hk'. by apply (list_elem_of_fmap_2 fst _ (k, kd)).
Qed.

(** A second pass over an object that already has the declared types writes
    back, field by field, what the first pass produced. *)
Lemma run_again raw raw' fields out :
  NoDup fields.*1 →
  (∀ k kd, (k, kd) ∈ fields →
     well_kinded kd VUndef = false
     ∧ well_kinded kd (getProp k out) = true
     ∧ getProp k raw' = match accepted kd (getProp k raw) with
                        | Some v => v
                        | None => getProp k out
                        end) →
  run raw' fields out = run raw fields out.
Proof.
  revert out. induction fields as [|[k kd] l IH]; intros out Hnd Hf; [done|].
  apply NoDup_cons in Hnd as [Hk Hnd]. rewrite !run_cons.
  destruct (Hf k kd) as (Hundef & Hout & Hraw'); [left|].
  assert (assign raw' out (k, kd) = assign raw out (k, kd)) as Hstep.
  { rewrite !assign_accepted. simpl. rewrite Hraw'.
    destruct (accepted kd (getProp k raw)) as [v|] eqn:Hacc.
    - by rewrite (well_kinded_accepted kd v (accepted_well_kinded _ _ _ Hacc)).
    - rewrite (well_kinded_accepted _ _ Hout).
      apply setProp_getProp_id. intros Heq. rewrite Heq in Hout. congruence. }
  rewrite Hstep. apply IH; [done|].
  intros k' kd' Hin.
  assert (k ≠ k') as Hne.
  { intros ->. apply Hk. by apply (list_elem_of_fmap_2 fst _ (k', kd')). }
  destruct (Hf k' kd') as (Hu & Ho & Hr); [by right|].
  assert (getProp k' (assign raw out (k, kd)) = getProp k' out) as Hsame.
  { rewrite assign_accepted. simpl.
    destruct (accepted kd (getProp k raw)); [|done].
    by apply getProp_setProp_ne. }
  rewrite Hsame. done.
Qed.

Lemma schema_NoDup : NoDup schema.*1.
Proof. apply (bool_decide_unpack _). by vm_compute. Qed.

Lemma schema_not_undef k kd : (k, kd) ∈ schema → well_kinded kd VUndef = false.
Proof.
  unfold schema. rewrite !elem_of_cons, elem_of_nil.
  intros H. repeat (destruct H as [[= -> ->]|H]; [done|]). done.
Qed.

Lemma has_declared_types_schema o :
  has_declared_types (VObj o) = true ↔
  ∀ k kd, (k, kd) ∈ schema → well_kinded kd (getProp k o) = true.
Proof.
  split.
  - unfold has_declared_types. rewrite !andb_true_iff.
    intros H k kd. unfold schema. rewrite !elem_of_cons, elem_of_nil.
    intros Hin.
    repeat (destruct Hin as [[= -> ->]|Hin]; [simpl; tauto|]). done.
  - intros H. unfold has_declared_types. rewrite !andb_true_iff.
    repeat split;
      match goal with
      | |- is_boolean (getProp ?k _) = true =>
          apply (H k (KTyped TBoolean)); unfold schema; set_solver
      | |- is_number (getProp ?k _) = true =>
          apply (H k (KTyped TNumber)); unfold schema; set_solver
      | |- is_number_array (getProp ?k _) = true =>
          apply (H k KIdList); unfold schema; set_solver
      end.
Qed.

Lemma run_typed D raw :
  has_declared_types (VObj D) = true →
  has_declared_types (VObj (run raw schema D)) = true.
Proof.
  rewrite !has_declared_types_schema. intros HD k kd Hin.
  rewrite (getProp_run _ _ _ _ kd schema_NoDup Hin).
  destruct (accepted kd (getProp k raw)) as [v|] eqn:Hacc.
  - by eapply accepted_well_kinded.
  - by apply HD.
Qed.

Lemma run_twice D raw :
  has_declared_types (VObj D) = true →
  run (run raw schema D) schema D = run raw schema D.
Proof.
  intros HD. apply run_again; [apply schema_NoDup|].
  intros k kd Hin. split; [by eapply schema_not_undef|]. split.
  - by apply has_declared_types_schema.
  - by apply getProp_run; [apply schema_NoDup|].
Qed.

(** Sanitizing the defaults gives the defaults. *)
Lemma run_defaults D :
  has_declared_types (VObj D) = true → run D schema D = D.
Proof.
  intros HD. transitivity (run [] schema D); [|done].
  apply run_again; [apply schema_NoDup|].
  intros k kd Hin. split; [by eapply schema_not_undef|]. split.
  - by apply has_declared_types_schema.
  - simpl. by rewrite (well_kinded_accepted_None kd) by (by eapply schema_not_undef).
Qed.

Lemma parse_id_list_no_NaN str :
  Forall (fun n => isNaN n = false) (parse_id_list str).
Proof.
  unfold parse_id_list. apply Forall_forall. intros n Hn.
  apply list_elem_of_In, filter_In in Hn as [_ Hn]. by apply negb_true_iff in Hn.
Qed.

(** C5. For every input [x], [sanitizeConfig] applied twice is
    [sanitizeConfig] applied once, and every field of the result has its
    declared type: booleans for the five flags, numbers for the three numeric
    fields, arrays of numbers for [blacklist] and [autoLikeUsers], where an
    array input keeps its numbers and a comma-separated string input becomes
    the list of its parsed tokens, the unparsable ones ([NaN]) discarded.
    [DEFAULT_CONFIG], declared outside the sources at hand, is taken to have
    its declared type [PluginConfig]. *)
Theorem sanitizeConfig_idempotent_typed (DEFAULT_CONFIG : obj) (x : value) :
  has_declared_types (VObj DEFAULT_CONFIG) = true →
  sanitizeConfig DEFAULT_CONFIG (sanitizeConfig DEFAULT_CONFIG x)
    = sanitizeConfig DEFAULT_CONFIG x
  ∧ has_declared_types (sanitizeConfig DEFAULT_CONFIG x) = true
  ∧ (∀ k, k = "blacklist" ∨ k = "autoLikeUsers" →
       (∀ elems, field k x = VArr elems →
          field k (sanitizeConfig DEFAULT_CONFIG x)
            = VArr (List.filter is_number elems))
       ∧ (∀ str, field k x = VStr str →
            field k (sanitizeConfig DEFAULT_CONFIG x)
              = VArr (List.map VNum (parse_id_list str))
            ∧ Forall (fun n => isNaN n = false) (parse_id_list str))).
Proof.
  intros HD.
  assert (sanitizeConfig DEFAULT_CONFIG (VObj DEFAULT_CONFIG) = VObj DEFAULT_CONFIG)
    as Hdef by (by rewrite sanitizeConfig_run, run_defaults).
  destruct x as [| | | | |elems|r];
    try (split; [exact Hdef|]; split; [exact HD|];
         intros k _; split; intros ? Hx; discriminate Hx).
  rewrite !sanitizeConfig_run. split; [|split].
  - by rewrite run_twice.
  - by apply run_typed.
  - intros k Hk. cbn [field].
    assert (∃ kd, (k, kd) ∈ schema ∧ kd = KIdList) as (kd & Hin & ->).
    { exists KIdList. split; [|done].
      destruct Hk as [-> | ->]; unfold schema; set_solver. }
    rewrite (getProp_run _ _ _ _ _ schema_NoDup Hin).
    split.
    + intros elems Hx. by rewrite Hx.
    + intros str Hx. rewrite Hx. split; [done|].
      apply parse_id_list_no_NaN.
Qed.

(** The defaults and an input of mixed shapes, for the instance below. *)
Example sanitizeConfig_instance :
  let D := [ ("enabled", VBool true); ("debug", VBool false);
             ("autoLikeEnabled", VBool true); ("blacklist", VArr []);
             ("vipLikeLimit", VNum (Num 10));
             ("autoLikeSomeoneEnabled", VBool false);
             ("autoLikeInterval", VNum (Num 60));
             ("autoLikeTimes", VNum (Num 10)); ("autoLikeUsers", VArr []) ] in
  let x := VObj [ ("enabled", VStr "yes"); ("vipLikeLimit", VNum (Num 3));
                  ("blacklist", VStr "1, 2,abc,,3 ");
                  ("autoLikeUsers", VArr [VNum (Num 7); VStr "8"; VNull]);
                  ("extra", VBool true) ] in
  sanitizeConfig D x =
  VObj [ ("enabled", VBool true); ("debug", VBool false);
         ("autoLikeEnabled", VBool true);
         ("blacklist", VArr [VNum (Num 1); VNum (Num 2); VNum (Num 3)]);
         ("vipLikeLimit", VNum (Num 3));
         ("autoLikeSomeoneEnabled", VBool false);
         ("autoLikeInterval", VNum (Num 60));
         ("autoLikeTimes", VNum (Num 10));
         ("autoLikeUsers", VArr [VNum (Num 7)]) ].
Proof. reflexivity. Qed.

Lemma sanitizeConfig_idempotent_typed_witness :
  let D := [ ("enabled", VBool true); ("debug", VBool false);
             ("autoLikeEnabled", VBool true); ("blacklist", VArr []);
             ("vipLikeLimit", VNum (Num 10));
             ("autoLikeSomeoneEnabled", VBool false);
             ("autoLikeInterval", VNum (Num 60));
             ("autoLikeTimes", VNum (Num 10)); ("autoLikeUsers", VArr []) ] in
  let x := VObj [ ("enabled", VStr "yes"); ("vipLikeLimit", VNum (Num 3));
                  ("blacklist", VStr "1, 2,abc,,3 ");
                  ("autoLikeUsers", VArr [VNum (Num 7); VStr "8"; VNull]) ] in
  has_declared_types (VObj D) = true
  ∧ sanitizeConfig D (sanitizeConfig D x) = sanitizeConfig D x
  ∧ has_declared_types (sanitizeConfig D x) = true.
Proof.
  intros D x. split; [reflexivity|].
  destruct (sanitizeConfig_idempotent_typed D x eq_refl) as (H1 & H2 & _).
  split; [exact H1 | exact H2].
Defined.

End SanitizeFacts.

(* ===================================================================== *)
(** * Properties of the state store *)
(* ===================================================================== *)

Module StoreFacts.
Import Store.

(** Symbolic execution of the monad. *)
Ltac unfold_monad :=
  unfold mbind, M_bind, mret, M_ret, throw, try_catch, gets, modify, emit in *.

Lemma calls_of_app t1 t2 : calls_of (t1 ++ t2) = calls_of t1 ++ calls_of t2.
Proof. unfold calls_of. by rewrite flat_map_app. Qed.

Lemma calls_of_snoc_call t c : calls_of (t ++ [ECall c]) = calls_of t ++ [c].
Proof. by rewrite calls_of_app. Qed.

Lemma calls_of_snoc_log t lvl msg : calls_of (t ++ [ELog lvl msg]) = calls_of t.
Proof. rewrite calls_of_app. apply app_nil_r. Qed.

Lemma calls_of_snoc_sleep t ms : calls_of (t ++ [ESleep ms]) = calls_of t.
Proof. rewrite calls_of_app. apply app_nil_r. Qed.

Lemma calls_of_snoc_write t path data : calls_of (t ++ [EWrite path data]) = calls_of t.
Proof. rewrite calls_of_app. apply app_nil_r. Qed.

Create Rewrite HintDb calls.
#[export] Hint Rewrite calls_of_snoc_call calls_of_snoc_log calls_of_snoc_sleep
  calls_of_snoc_write : calls.

#[global] Arguments calls_of : simpl never.

Lemma count_of_empty userId : count_of userId ∅ = 0.
Proof. unfold count_of. by rewrite lookup_empty. Qed.

(** ** One equation per operation and case *)

Section Equations.

Context (h : Host).

Lemma bind_Ok {A B} (m : M A) (f : A → M B) w a w' :
  m w = (Ok a, w') → (m ≫= f) w = f a w'.
Proof. unfold mbind, M_bind. by intros ->. Qed.

Lemma bind_Throw {A B} (m : M A) (f : A → M B) w e w' :
  m w = (Throw e, w') → (m ≫= f) w = (Throw e, w').
Proof. unfold mbind, M_bind. by intros ->. Qed.

Lemma ctx_Some w c : _ctx (ps w) = Some c → ctx w = (Ok c, w).
Proof. unfold ctx. by intros ->. Qed.

Lemma ctx_None w : _ctx (ps w) = None → ctx w = (Throw Uninitialized, w).
Proof. unfold ctx. by intros ->. Qed.

Lemma log_Some w c lvl msg :
  _ctx (ps w) = Some c →
  log lvl msg w =
  (Ok tt, mkWorld (ps w) (trace w ++ [ELog lvl msg]) (ncalls w) (nclock w) (nwrites w)).
Proof. intros Hc. unfold log. by rewrite (bind_Ok _ _ _ _ _ (ctx_Some _ _ Hc)). Qed.

Lemma log_None w lvl msg :
  _ctx (ps w) = None → log lvl msg w = (Throw Uninitialized, w).
Proof. intros Hc. unfold log. by rewrite (bind_Throw _ _ _ _ _ (ctx_None _ Hc)). Qed.

Lemma saveDataFile_Some w c filename data :
  _ctx (ps w) = Some c →
  saveDataFile h filename data w =
  (Ok tt, mkWorld (ps w)
            (trace w ++ [saved c (write_ok h (nwrites w)) filename data])
            (ncalls w) (nclock w) (S (nwrites w))).
Proof.
  intros Hc. unfold saveDataFile, getDataFilePath, next_write, saved.
  unfold_monad. rewrite (ctx_Some _ _ Hc). simpl.
  destruct (write_ok h (nwrites w)); [done|].
  by rewrite (log_Some _ c).
Qed.

Lemma saveDataFile_None w filename data :
  _ctx (ps w) = None →
  saveDataFile h filename data w = (Throw Uninitialized, w).
Proof.
  intros Hc. unfold saveDataFile, getDataFilePath.
  unfold_monad. by rewrite (ctx_None _ Hc).
Qed.

Lemma incrementProcessed_eq w :
  incrementProcessed h w =
  (Ok tt, mkWorld (set_stats (bumped (clock h (nclock w)) (stats (ps w))) (ps w))
            (trace w) (ncalls w) (S (nclock w)) (nwrites w)).
Proof.
  unfold incrementProcessed, today, bumped. unfold_monad. simpl.
  do 2 f_equal. case_bool_decide as Hd; simpl; [done|].
  destruct (stats (ps w)); simpl in *. by subst.
Qed.

Lemma rolled_ctx day s : _ctx (rolled day s) = _ctx s.
Proof. unfold rolled. by case_bool_decide. Qed.

Lemma rolled_config day s : config (rolled day s) = config s.
Proof. unfold rolled. by case_bool_decide. Qed.

Lemma rolled_stats day s : stats (rolled day s) = stats s.
Proof. unfold rolled. by case_bool_decide. Qed.

Lemma rolled_selfId day s : selfId (rolled day s) = selfId s.
Proof. unfold rolled. by case_bool_decide. Qed.

Lemma rolled_marker day s : lastVipLikeResetDay (rolled day s) = day.
Proof.
  unfold rolled. by case_bool_decide as Hd.
Qed.

Lemma rolled_stale day s :
  lastVipLikeResetDay s ≠ day → vipLikeCounts (rolled day s) = ∅.
Proof. intros Hd. unfold rolled. by rewrite bool_decide_eq_true_2. Qed.

Lemma rolled_fresh day s : lastVipLikeResetDay s = day → rolled day s = s.
Proof. intros Hd. unfold rolled. by rewrite bool_decide_eq_false_2 by auto. Qed.

(** With a context, the rollover check returns; it touches neither the calls
    nor anything but the counters and their marker. *)
Lemma checkVipLikeReset_Some w c :
  _ctx (ps w) = Some c →
  ∃ w', checkVipLikeReset h w = (Ok tt, w')
        ∧ ps w' = rolled (clock h (nclock w)) (ps w)
        ∧ calls_of (trace w') = calls_of (trace w)
        ∧ ncalls w' = ncalls w
        ∧ nclock w' = S (nclock w).
Proof.
  intros Hc. unfold checkVipLikeReset, today, rolled. unfold_monad. simpl.
  case_bool_decide as Hd.
  - rewrite saveDataFile_Some with (c := c) by done. simpl.
    eexists. split; [reflexivity|]. simpl.
    rewrite calls_of_app. unfold saved.
    destruct (write_ok h (nwrites w)); simpl; by rewrite app_nil_r.
  - eexists. split; [reflexivity|]. done.
Qed.

(** Without one, a due rollover clears the counters and then throws at the
    write of the data file. *)
Lemma checkVipLikeReset_None w :
  _ctx (ps w) = None →
  ∃ w', checkVipLikeReset h w =
          (if bool_decide (lastVipLikeResetDay (ps w) ≠ clock h (nclock w))
           then Throw Uninitialized else Ok tt, w')
        ∧ ps w' = rolled (clock h (nclock w)) (ps w).
Proof.
  intros Hc. unfold checkVipLikeReset, today, rolled. unfold_monad. simpl.
  case_bool_decide as Hd.
  - rewrite saveDataFile_None by done. eexists. by split.
  - eexists. by split.
Qed.

Lemma getVipLikeCount_Some w c userId :
  _ctx (ps w) = Some c →
  ∃ w', getVipLikeCount h userId w =
          (Ok (count_of userId (vipLikeCounts (rolled (clock h (nclock w)) (ps w)))), w')
        ∧ ps w' = rolled (clock h (nclock w)) (ps w)
        ∧ calls_of (trace w') = calls_of (trace w)
        ∧ ncalls w' = ncalls w
        ∧ nclock w' = S (nclock w).
Proof.
  intros Hc. destruct (checkVipLikeReset_Some w c Hc) as (w' & Hr & Hps & Ht & Hn & Hk).
  exists w'. unfold getVipLikeCount. rewrite (bind_Ok _ _ _ _ _ Hr).
  unfold gets. by rewrite Hps.
Qed.

Lemma incrementVipLikeCount_Some w c userId :
  _ctx (ps w) = Some c →
  ∃ w', incrementVipLikeCount h userId w = (Ok tt, w')
        ∧ ps w' =
            (let s := rolled (clock h (nclock w)) (ps w) in
             set_vipLikeCounts
               (<[userId := count_of userId (vipLikeCounts s) + 1]> (vipLikeCounts s)) s)
        ∧ calls_of (trace w') = calls_of (trace w)
        ∧ ncalls w' = ncalls w
        ∧ nclock w' = S (nclock w).
Proof.
  intros Hc. destruct (checkVipLikeReset_Some w c Hc) as (w1 & Hr & Hps & Ht & Hn & Hk).
  unfold incrementVipLikeCount. rewrite (bind_Ok _ _ _ _ _ Hr).
  unfold_monad. simpl.
  rewrite saveDataFile_Some with (c := c) by (simpl; by rewrite Hps, rolled_ctx).
  eexists. split; [reflexivity|]. simpl. rewrite Hps, Hn, Hk.
  repeat split; [].
  rewrite calls_of_app, Ht. unfold saved.
  destruct (write_ok h (nwrites w1)); simpl; by rewrite app_nil_r.
Qed.

Lemma callApi_Some w c action params :
  _ctx (ps w) = Some c →
  callApi h action params w =
  (match reply h (ncalls w) (mkCall action params) with
   | Resolve v => Ok v
   | Reject e => Throw e
   end,
   mkWorld (ps w) (trace w ++ [ECall (mkCall action params)])
           (S (ncalls w)) (nclock w) (nwrites w)).
Proof.
  intros Hc. unfold callApi. rewrite (bind_Ok _ _ _ _ _ (ctx_Some _ _ Hc)).
  unfold bridge_call. by destruct (reply h (ncalls w) _).
Qed.

Lemma callApi_None w action params :
  _ctx (ps w) = None → callApi h action params w = (Throw Uninitialized, w).
Proof.
  intros Hc. unfold callApi. by rewrite (bind_Throw _ _ _ _ _ (ctx_None _ Hc)).
Qed.

Lemma saveConfig_None w : _ctx (ps w) = None → saveConfig h w = (Ok tt, w).
Proof. unfold saveConfig. by intros ->. Qed.

Lemma saveConfig_Some w c :
  _ctx (ps w) = Some c →
  ∃ w', saveConfig h w = (Ok tt, w') ∧ ps w' = ps w
        ∧ calls_of (trace w') = calls_of (trace w).
Proof.
  unfold saveConfig, next_write. intros ->. unfold_monad. simpl.
  destruct (write_ok h (nwrites w)); eexists; (split; [reflexivity|]); simpl;
    by rewrite calls_of_app, app_nil_r.
Qed.

End Equations.

Section AutoLike.

Context (h : Host).

Lemma for_of_cons {A} (x : A) rest body w :
  for_of (x :: rest) body w =
  match body x w with
  | (Ok _, w') => for_of rest body w'
  | (Throw e, w') => (Throw e, w')
  end.
Proof. reflexivity. Qed.

(** One target of the proactive-like loop on an initialized store: whatever
    the bridge answers, the body returns normally. *)
Lemma autoLikeTarget_Some w c times userId :
  _ctx (ps w) = Some c →
  autoLikeTarget h times userId w =
  (Ok tt,
   match reply h (ncalls w) (send_like userId times) with
   | Resolve _ =>
       mkWorld (set_stats (bumped (clock h (nclock w)) (stats (ps w))) (ps w))
         (trace w ++ [ECall (send_like userId times);
                      ELog LInfo (MsgAutoLiked userId times); ESleep 1000])
         (S (ncalls w)) (S (nclock w)) (nwrites w)
   | Reject e =>
       if str_includes "No data returned" (errMsg_of e) then
         mkWorld (set_stats (bumped (clock h (nclock w)) (stats (ps w))) (ps w))
           (trace w ++ [ECall (send_like userId times);
                        ELog LInfo (MsgAutoLikedNoData userId times)])
           (S (ncalls w)) (S (nclock w)) (nwrites w)
       else
         mkWorld (ps w)
           (trace w ++ [ECall (send_like userId times);
                        ELog LError (MsgAutoLikeFailed userId)])
           (S (ncalls w)) (nclock w) (nwrites w)
   end).
Proof.
  intros Hc. unfold autoLikeTarget, try_catch.
  unfold mbind at 1. unfold M_bind.
  rewrite (callApi_Some h w c) by done. fold (send_like userId times).
  destruct (reply h (ncalls w) (send_like userId times)) as [v|e]; cbv beta iota.
  - erewrite bind_Ok by (by apply (log_Some _ c)).
    erewrite bind_Ok by apply incrementProcessed_eq.
    unfold sleep, emit. simpl. by rewrite <- !app_assoc.
  - destruct (str_includes "No data returned" (errMsg_of e)).
    + erewrite bind_Ok by (by apply (log_Some _ c)).
      rewrite incrementProcessed_eq. simpl. by rewrite <- !app_assoc.
    + rewrite (log_Some _ c) by done. simpl. by rewrite <- !app_assoc.
Qed.

(** On an initialized store the loop runs through every target and issues one
    [send_like] per target, in order, whatever the bridge answers. *)
Lemma for_of_autoLikeTarget c times users w :
  _ctx (ps w) = Some c →
  ∃ w', for_of users (autoLikeTarget h times) w = (Ok tt, w')
        ∧ _ctx (ps w') = Some c
        ∧ calls_of (trace w')
            = calls_of (trace w) ++ List.map (fun u => send_like u times) users.
Proof.
  revert w. induction users as [|u rest IH]; intros w Hc.
  - exists w. simpl. by rewrite app_nil_r.
  - rewrite for_of_cons, (autoLikeTarget_Some w c) by done.
    set (w1 := match reply h (ncalls w) (send_like u times) with
               | Resolve _ => _ | Reject _ => _ end).
    assert (_ctx (ps w1) = Some c
            ∧ calls_of (trace w1) = calls_of (trace w) ++ [send_like u times])
      as [Hc1 Ht1].
    { subst w1. destruct (reply h (ncalls w) (send_like u times)) as [v|e];
        [|destruct (str_includes _ _)]; simpl; by rewrite calls_of_app. }
    destruct (IH w1 Hc1) as (w' & Hrun & Hc' & Ht').
    exists w'. split; [done|]. split; [done|].
    rewrite Ht', Ht1. by rewrite <- app_assoc.
Qed.

End AutoLike.

(** C8. In the proactive-like loop on an initialized store, a [send_like] the
    bridge rejects with a message containing "No data returned" is treated as
    a success: it is logged as one and [incrementProcessed] runs
    ([processed] grows by one, [todayProcessed] by one after its rollover);
    any other rejection is logged as an error and leaves the store as it was.
    Either way the body returns normally, so the loop goes on with the
    remaining targets and issues a [send_like] for each of them. *)
Theorem no_data_returned_counts_as_success
    (h : Host) (w : World) (c : Context) (times userId : number) (e : Error)
    (rest : list number) :
  _ctx (ps w) = Some c →
  reply h (ncalls w) (send_like userId times) = Reject e →
  ∃ w', autoLikeTarget h times userId w = (Ok tt, w')
    ∧ (str_includes "No data returned" (errMsg_of e) = true →
         trace w' = trace w ++ [ECall (send_like userId times);
                                ELog LInfo (MsgAutoLikedNoData userId times)]
         ∧ stats (ps w') = bumped (clock h (nclock w)) (stats (ps w))
         ∧ processed (stats (ps w')) = processed (stats (ps w)) + 1)
    ∧ (str_includes "No data returned" (errMsg_of e) = false →
         trace w' = trace w ++ [ECall (send_like userId times);
                                ELog LError (MsgAutoLikeFailed userId)]
         ∧ ps w' = ps w)
    ∧ for_of (userId :: rest) (autoLikeTarget h times) w
        = for_of rest (autoLikeTarget h times) w'
    ∧ ∃ w'', for_of rest (autoLikeTarget h times) w' = (Ok tt, w'')
        ∧ calls_of (trace w'')
            = calls_of (trace w')
              ++ List.map (fun u => send_like u times) rest.
Proof.
  intros Hc Hrej.
  pose proof (autoLikeTarget_Some h w c times userId Hc) as Hone.
  rewrite Hrej in Hone. eexists. split; [exact Hone|].
  split; [|split; [|split]].
  - intros ->. by simpl.
  - intros ->. by simpl.
  - by rewrite for_of_cons, Hone.
  - match goal with |- context [for_of rest _ ?w1] =>
      destruct (for_of_autoLikeTarget h c times rest w1) as (w'' & Hrun & _ & Ht)
    end.
    { by destruct (str_includes _ _). }
    by exists w''.
Qed.

(** C3, as the code has it.  With [autoLikeSomeoneEnabled], targets [[1; 2]]
    and [autoLikeTimes = 5], one pass on an initialized store issues exactly
    the two calls [send_like {user_id: "1", times: 5}] and
    [send_like {user_id: "2", times: 5}], in this order.  When both resolve,
    each is followed by its log line and a sleep of 1000 ms, and [processed]
    grows by 2; when moreover the clock gives the same day at both increments,
    [todayProcessed] is 2 more than its value after the day rollover: 2 more
    than the stored value when the stored day is current, and 2 when it is
    stale. *)
Theorem proactive_like_pass (h : Host) (w : World) (c : Context) :
  _ctx (ps w) = Some c →
  autoLikeSomeoneEnabled (config (ps w)) = true →
  autoLikeUsers (config (ps w)) = [Num 1; Num 2] →
  autoLikeTimes (config (ps w)) = Num 5 →
  let c1 := mkCall "send_like" [("user_id", VStr "1"); ("times", VNum (Num 5))] in
  let c2 := mkCall "send_like" [("user_id", VStr "2"); ("times", VNum (Num 5))] in
  ∃ w', executeAutoLike h w = (Ok tt, w')
    ∧ calls_of (trace w') = calls_of (trace w) ++ [c1; c2]
    ∧ (∀ v1 v2,
         reply h (ncalls w) c1 = Resolve v1 →
         reply h (S (ncalls w)) c2 = Resolve v2 →
         trace w' = trace w ++ [ECall c1; ELog LInfo (MsgAutoLiked (Num 1) (Num 5));
                                ESleep 1000;
                                ECall c2; ELog LInfo (MsgAutoLiked (Num 2) (Num 5));
                                ESleep 1000]
         ∧ processed (stats (ps w')) = processed (stats (ps w)) + 2
         ∧ (clock h (S (nclock w)) = clock h (nclock w) →
            todayProcessed (stats (ps w')) =
              (if bool_decide (lastUpdateDay (stats (ps w)) ≠ clock h (nclock w))
               then 0 else todayProcessed (stats (ps w))) + 2)).
Proof.
  intros Hc Hen Husers Htimes c1 c2.
  unfold executeAutoLike. unfold mbind, M_bind, gets.
  rewrite Hen, Husers, Htimes. cbn [negb orb length bool_decide].
  rewrite bool_decide_eq_false_2 by done. cbv beta iota.
  rewrite for_of_cons, (autoLikeTarget_Some h w c) by done.
  change (send_like (Num 1) (Num 5)) with c1.
  set (w1 := match reply h (ncalls w) c1 with Resolve _ => _ | Reject _ => _ end).
  assert (_ctx (ps w1) = Some c ∧ ncalls w1 = S (ncalls w)
          ∧ calls_of (trace w1) = calls_of (trace w) ++ [c1]) as (Hc1 & Hn1 & Ht1).
  { subst w1. destruct (reply h (ncalls w) c1) as [v|e];
      [|destruct (str_includes _ _)]; simpl; by rewrite calls_of_app. }
  rewrite for_of_cons, (autoLikeTarget_Some h w1 c) by done.
  change (send_like (Num 2) (Num 5)) with c2. rewrite Hn1.
  eexists. split; [reflexivity|]. split.
  - destruct (reply h (S (ncalls w)) c2) as [v|e];
      [|destruct (str_includes _ _)]; simpl;
      rewrite calls_of_app, Ht1; simpl; by rewrite <- app_assoc.
  - intros v1 v2 H1 H2. rewrite H2. subst w1. rewrite H1. simpl.
    split; [by rewrite <- app_assoc|]. split; [lia|].
    intros ->. rewrite (bool_decide_eq_false_2 (_ ≠ _)) by auto. lia.
Qed.

(** C9, as the code has it.  A store without a context is what
    [new PluginState()] gives and what [cleanup] leaves.  On such a store the
    operations that go through the [ctx] getter ([ctx], [logger],
    [getDataFilePath], [saveDataFile], [callApi]) throw the uninitialized
    error and change nothing; [saveConfig], which tests [_ctx] itself, returns
    without an error and without writing; [incrementProcessed], which needs no
    context, proceeds. *)
Theorem uninitialized_access (h : Host) (w : World) :
  _ctx (ps w) = None →
  ctx w = (Throw Uninitialized, w)
  ∧ (∀ lvl msg, log lvl msg w = (Throw Uninitialized, w))
  ∧ (∀ filename, getDataFilePath filename w = (Throw Uninitialized, w))
  ∧ (∀ filename data, saveDataFile h filename data w = (Throw Uninitialized, w))
  ∧ (∀ action params, callApi h action params w = (Throw Uninitialized, w))
  ∧ saveConfig h w = (Ok tt, w)
  ∧ (∃ w', incrementProcessed h w = (Ok tt, w')).
Proof.
  intros Hc. repeat split.
  - by apply ctx_None.
  - intros. by apply log_None.
  - intros. unfold getDataFilePath. by rewrite (bind_Throw _ _ _ _ _ (ctx_None _ Hc)).
  - intros. by apply saveDataFile_None.
  - intros. by apply callApi_None.
  - by apply saveConfig_None.
  - eexists. apply incrementProcessed_eq.
Qed.

(** [new PluginState()] has no context. *)
Lemma new_PluginState_uninitialized defaults day :
  _ctx (new_PluginState defaults day) = None.
Proof. reflexivity. Qed.

(** [cleanup] on an initialized store returns and releases the context. *)
Lemma cleanup_releases_context (h : Host) (w : World) (c : Context) :
  _ctx (ps w) = Some c →
  ∃ w', cleanup h w = (Ok tt, w') ∧ _ctx (ps w') = None.
Proof.
  intros Hc. unfold cleanup.
  assert (∀ (l : list (string * Z)) w0, _ctx (ps w0) = Some c →
            ∃ w1, for_of l (fun '(jobId, _) =>
                     emit (EClearInterval jobId) ;; log LDebug (MsgTimerCleared jobId)) w0
                  = (Ok tt, w1) ∧ ps w1 = ps w0) as Hloop.
  { induction l as [|[jobId t] l IH]; intros w0 Hc0; [by exists w0|].
    rewrite for_of_cons. erewrite (bind_Ok (emit _)) by reflexivity.
    rewrite (log_Some _ c) by done.
    match goal with |- context [for_of l _ ?w1] =>
      destruct (IH w1) as (w2 & Hrun & Hps); [done|] end.
    exists w2. by split. }
  destruct (Hloop (map_to_list (timers (ps w))) w Hc) as (w1 & Hrun & Hps1).
  erewrite (bind_Ok (gets _)) by reflexivity.
  erewrite bind_Ok by exact Hrun.
  erewrite (bind_Ok (modify _)) by reflexivity.
  match goal with |- context [(saveConfig h ≫= _) ?w2] =>
    destruct (saveConfig_Some h w2 c) as (w3 & Hsave & Hps3 & _);
      [simpl; by rewrite Hps1|] end.
  erewrite bind_Ok by exact Hsave.
  erewrite (bind_Ok (gets _)) by reflexivity.
  erewrite bind_Ok
    by (apply (saveDataFile_Some h _ c); rewrite Hps3; simpl; by rewrite Hps1).
  eexists. split; [reflexivity|]. done.
Qed.


(** C4. Day rollover for both daily counters.  When the day the clock gives
    differs from the stored marker: [incrementProcessed] resets
    [todayProcessed] to 0 and sets the marker before it adds one;
    [getVipLikeCount] and [incrementVipLikeCount] first clear the counters and
    set [lastVipLikeResetDay], so the former returns 0 and the latter leaves
    the counter at 1, whatever the stale counter was.  (Without a context the
    rollover still happens, and its write of the data file then throws.) *)
Theorem day_rollover (h : Host) (w : World) (userId : number) :
  let day := clock h (nclock w) in
  (lastUpdateDay (stats (ps w)) ≠ day →
     ∃ w', incrementProcessed h w = (Ok tt, w')
           ∧ stats (ps w') = mkStats (processed (stats (ps w)) + 1) (0 + 1) day)
  ∧ (lastVipLikeResetDay (ps w) ≠ day →
       (∃ r w', getVipLikeCount h userId w = (r, w')
                ∧ lastVipLikeResetDay (ps w') = day
                ∧ vipLikeCounts (ps w') = ∅
                ∧ (r = Ok 0 ∨ r = Throw Uninitialized)
                ∧ (is_Some (_ctx (ps w)) → r = Ok 0))
       ∧ (∃ r w', incrementVipLikeCount h userId w = (r, w')
                  ∧ lastVipLikeResetDay (ps w') = day
                  ∧ (r = Ok tt ∧ vipLikeCounts (ps w') = {[ userId := 1 ]}
                     ∨ r = Throw Uninitialized ∧ vipLikeCounts (ps w') = ∅)
                  ∧ (is_Some (_ctx (ps w)) → r = Ok tt))).
Proof.
  intros day. split.
  - intros Hstale. eexists. split; [apply incrementProcessed_eq|].
    simpl. unfold bumped. fold day. by rewrite bool_decide_eq_true_2.
  - intros Hstale. destruct (_ctx (ps w)) as [c|] eqn:Hc; split.
    + destruct (getVipLikeCount_Some h w c userId Hc) as (w' & -> & Hps & _).
      do 2 eexists. split; [reflexivity|]. fold day in Hps |- *.
      rewrite Hps, rolled_marker, rolled_stale, count_of_empty by done. auto.
    + destruct (incrementVipLikeCount_Some h w c userId Hc) as (w' & -> & Hps & _).
      do 2 eexists. split; [reflexivity|]. fold day in Hps. rewrite Hps. simpl.
      rewrite rolled_marker, rolled_stale, count_of_empty by done. auto.
    + destruct (checkVipLikeReset_None h w Hc) as (w' & Hr & Hps).
      fold day in Hr, Hps. rewrite bool_decide_eq_true_2 in Hr by done.
      do 2 eexists. split.
      { unfold getVipLikeCount. apply (bind_Throw _ _ _ _ _ Hr). }
      rewrite Hps, rolled_marker, rolled_stale by done.
      repeat split; auto. by intros [? ?].
    + destruct (checkVipLikeReset_None h w Hc) as (w' & Hr & Hps).
      fold day in Hr, Hps. rewrite bool_decide_eq_true_2 in Hr by done.
      do 2 eexists. split.
      { unfold incrementVipLikeCount. apply (bind_Throw _ _ _ _ _ Hr). }
      rewrite Hps, rolled_marker, rolled_stale by done.
      repeat split; auto. by intros [? ?].
Qed.


(** ** Instances on the concrete deployment *)

Import Scenario.

Lemma day_rollover_witness :
  lastUpdateDay (stats stale) ≠ nov1
  ∧ (∃ w', incrementProcessed host (world stale) = (Ok tt, w')
           ∧ stats (ps w') = mkStats 4 1 nov1)
  ∧ lastVipLikeResetDay stale ≠ nov1
  ∧ (∃ r w', getVipLikeCount host (Num 300) (world stale) = (r, w')
             ∧ lastVipLikeResetDay (ps w') = nov1
             ∧ vipLikeCounts (ps w') = ∅
             ∧ (r = Ok 0 ∨ r = Throw Uninitialized)
             ∧ (is_Some (_ctx stale) → r = Ok 0)).
Proof.
  assert (oct31 ≠ nov1) as Hday by (apply (bool_decide_unpack _); vm_compute; exact I).
  split; [exact Hday|]. split.
  - exact (proj1 (day_rollover host (world stale) (Num 300)) Hday).
  - split; [exact Hday|].
    exact (proj1 (proj2 (day_rollover host (world stale) (Num 300)) Hday)).
Defined.

Lemma no_data_returned_counts_as_success_witness :
  ∃ w', autoLikeTarget host_no_data (Num 5) (Num 1) (world store) = (Ok tt, w')
        ∧ processed (stats (ps w')) = 4
        ∧ ∃ w'', for_of [Num 2] (autoLikeTarget host_no_data (Num 5)) w' = (Ok tt, w'')
                 ∧ calls_of (trace w'') = [send_like (Num 1) (Num 5); send_like (Num 2) (Num 5)].
Proof.
  destruct (no_data_returned_counts_as_success host_no_data (world store) context
              (Num 5) (Num 1) (JsError "Error" "No data returned") [Num 2]
              eq_refl eq_refl)
    as (w' & Hone & Hyes & _ & _ & w'' & Hrest & Ht).
  exists w'. split; [exact Hone|].
  destruct (Hyes eq_refl) as (Htr & _ & Hp). split; [exact Hp|].
  exists w''. split; [exact Hrest|].
  rewrite Ht, Htr. reflexivity.
Defined.

Lemma proactive_like_pass_witness :
  ∃ w', executeAutoLike host (world store) = (Ok tt, w')
        ∧ calls_of (trace w') =
            [ mkCall "send_like" [("user_id", VStr "1"); ("times", VNum (Num 5))];
              mkCall "send_like" [("user_id", VStr "2"); ("times", VNum (Num 5))] ]
        ∧ processed (stats (ps w')) = 3 + 2
        ∧ todayProcessed (stats (ps w')) = 7 + 2.
Proof.
  destruct (proactive_like_pass host (world store) context
              eq_refl eq_refl eq_refl eq_refl)
    as (w' & Hrun & Hcalls & Hok).
  exists w'. split; [exact Hrun|]. split; [exact Hcalls|].
  destruct (Hok VNull VNull eq_refl eq_refl) as (_ & Hp & Ht).
  split; [exact Hp|]. exact (Ht eq_refl).
Defined.

(** C3 as stated fails when the pass is the first of a new day: both calls
    succeed, and [todayProcessed] goes from 7 to 2, not to 9. *)
Lemma proactive_like_pass_after_rollover :
  let w := world stale in
  let w' := (executeAutoLike host w).2 in
  autoLikeSomeoneEnabled (config (ps w)) = true
  ∧ autoLikeUsers (config (ps w)) = [Num 1; Num 2]
  ∧ autoLikeTimes (config (ps w)) = Num 5
  ∧ (executeAutoLike host w).1 = Ok tt
  ∧ reply host 0 (send_like (Num 1) (Num 5)) = Resolve VNull
  ∧ reply host 1 (send_like (Num 2) (Num 5)) = Resolve VNull
  ∧ todayProcessed (stats (ps w)) = 7
  ∧ todayProcessed (stats (ps w')) = 2
  ∧ todayProcessed (stats (ps w')) ≠ todayProcessed (stats (ps w)) + 2.
Proof. vm_compute. repeat split; done. Qed.

Lemma uninitialized_access_witness :
  _ctx (ps (world fresh)) = None
  ∧ callApi host "send_like" [] (world fresh) = (Throw Uninitialized, world fresh)
  ∧ saveDataFile host "vip_likes.json" (PCounts ∅) (world fresh)
      = (Throw Uninitialized, world fresh)
  ∧ saveConfig host (world fresh) = (Ok tt, world fresh).
Proof.
  destruct (uninitialized_access host (world fresh) eq_refl)
    as (_ & _ & _ & Hsave & Hcall & Hcfg & _).
  split; [reflexivity|]. split; [apply Hcall|]. split; [apply Hsave|]. exact Hcfg.
Defined.

(** C9 as stated fails for [saveConfig]: before [init] it returns normally,
    and no error is raised. *)
Lemma saveConfig_before_init_returns :
  _ctx (ps (world fresh)) = None
  ∧ saveConfig host (world fresh) = (Ok tt, world fresh)
  ∧ ¬ ∃ w', saveConfig host (world fresh) = (Throw Uninitialized, w').
Proof.
  split; [reflexivity|]. split; [reflexivity|].
  intros [w' H]. vm_compute in H. discriminate H.
Qed.

End StoreFacts.

(* ===================================================================== *)
(** * Properties of the gesture handler *)
(* ===================================================================== *)

Module HandlerFacts.
Import Store Handler StoreFacts.

Lemma num_strict_eq_true a b : num_strict_eq a b = true → a = b.
Proof. destruct a, b; simpl; try done. by intros ->%Z.eqb_eq. Qed.

Lemma num_strict_eq_NaN_r a : num_strict_eq a NaN = false.
Proof. by destruct a. Qed.

Lemma includes_elem_of (arr : list number) x : includes arr x = true ↔ x ∈ arr.
Proof.
  unfold includes, same_value_zero. rewrite existsb_exists. split.
  - intros (y & Hy & Heq). apply bool_decide_eq_true in Heq as ->.
    by apply list_elem_of_In.
  - intros Hx. exists x. split; [by apply list_elem_of_In|].
    by apply bool_decide_eq_true.
Qed.

Section Pipeline.

Context (h : Host).

(** C7. A gesture whose [target_id] is not the number [parseInt] reads from the
    cached [selfId] ends the handler at once: no remote call, no log line, no
    change of the store. *)
Theorem target_mismatch_ignored (event : LikeEvent) (w : World) :
  target_id event ≠ parseInt (selfId (ps w)) →
  handleLike h event w = (Ok tt, w).
Proof.
  intros Hne. unfold handleLike.
  destruct (isLikeOrPoke event); [|done]. simpl.
  unfold mbind, M_bind, gets.
  destruct (num_strict_eq _ _) eqn:Heq; [|done].
  by apply num_strict_eq_true in Heq.
Qed.

Lemma friendship_check_pass w c friendList user_id :
  _ctx (ps w) = Some c →
  reply h (ncalls w) friend_list_call = Resolve friendList →
  isFriend_of friendList user_id = Some true →
  friendship_check h user_id w =
  (Ok true, mkWorld (ps w) (trace w ++ [ECall friend_list_call])
              (S (ncalls w)) (nclock w) (nwrites w)).
Proof.
  intros Hc Hr Hf. unfold friendship_check, try_catch.
  erewrite bind_Ok; [|rewrite (callApi_Some h w c) by done;
                      fold friend_list_call; by rewrite Hr].
  by rewrite Hf.
Qed.

(** Past steps 1 to 5, the handler is the VIP-limit check followed, if it
    passes, by the reciprocation. *)
Lemma handleLike_eligible event w :
  eligible h event w →
  handleLike h event w =
  (underLimit ← vip_limit_check h (user_id event);
   if negb underLimit then mret tt else reciprocate h event)
    (after_friendship event w).
Proof.
  intros (Hkind & Htarget & Hon & Hbl & [c Hc] & fl & Hr & Hf).
  unfold handleLike. rewrite Hkind. cbn [negb].
  erewrite (bind_Ok (gets _)) by reflexivity. rewrite Htarget. cbn [negb].
  erewrite (bind_Ok (gets _)) by reflexivity. rewrite Hon. cbn [negb].
  erewrite (bind_Ok (hlog _ _)) by reflexivity.
  destruct (includes _ _) eqn:Hin; [by apply includes_elem_of in Hin|].
  erewrite bind_Ok by (by eapply (friendship_check_pass _ c fl)).
  cbn [negb ps trace ncalls nclock nwrites]. unfold after_friendship.
  by rewrite <- app_assoc.
Qed.

(** The VIP-limit check on an initialized store.  It always returns; the
    store changes only by the rollover that [getVipLikeCount] evaluates, and
    only for a user the reply marks as VIP. *)
Lemma vip_limit_check_Some w c user_id :
  _ctx (ps w) = Some c →
  ∃ w',
    vip_limit_check h user_id w =
      (Ok match reply h (ncalls w) (stranger_info_call user_id) with
          | Resolve userInfo =>
              match isVip_of userInfo with
              | Some true =>
                  negb (num_ge
                          (Num (count_of user_id
                                  (vipLikeCounts (rolled (clock h (nclock w)) (ps w)))))
                          (vipLikeLimit (config (ps w))))
              | _ => true
              end
          | Reject _ => true
          end, w')
    ∧ calls_of (trace w') = calls_of (trace w) ++ [stranger_info_call user_id]
    ∧ ncalls w' = S (ncalls w)
    ∧ match reply h (ncalls w) (stranger_info_call user_id) with
      | Resolve userInfo =>
          match isVip_of userInfo with
          | Some true =>
              ps w' = rolled (clock h (nclock w)) (ps w) ∧ nclock w' = S (nclock w)
          | _ => ps w' = ps w ∧ nclock w' = nclock w
          end
      | Reject _ => ps w' = ps w ∧ nclock w' = nclock w
      end.
Proof.
  intros Hc. unfold vip_limit_check, try_catch.
  unfold mbind at 1. unfold M_bind.
  rewrite (callApi_Some h w c) by done. fold (stranger_info_call user_id).
  destruct (reply h (ncalls w) (stranger_info_call user_id)) as [userInfo|e];
    cbv beta iota.
  - destruct (isVip_of userInfo) as [[|]|]; cbn [or_TypeError].
    + erewrite (bind_Ok (mret _)) by reflexivity. cbv beta iota.
      match goal with |- context [(getVipLikeCount h user_id ≫= _) ?w1] =>
        destruct (getVipLikeCount_Some h w1 c user_id Hc)
          as (w2 & Hget & Hps & Ht & Hn & Hk) end.
      erewrite bind_Ok by exact Hget. cbn [ps trace ncalls nclock] in *.
      erewrite (bind_Ok (gets _)) by reflexivity.
      rewrite Hps, rolled_config. autorewrite with calls in Ht.
      destruct (num_ge _ _); cbn [negb].
      * erewrite (bind_Ok (hlog _ _)) by reflexivity.
        eexists. split; [reflexivity|]. cbn [ps trace ncalls nclock].
        by autorewrite with calls.
      * by exists w2.
    + erewrite (bind_Ok (mret _)) by reflexivity.
      eexists. split; [reflexivity|]. cbn [ps trace ncalls nclock].
      by autorewrite with calls.
    + unfold mbind, M_bind, throw, hlog, emit.
      eexists. split; [reflexivity|]. cbn [ps trace ncalls nclock].
      by autorewrite with calls.
  - unfold mbind, M_bind, hlog, emit.
    eexists. split; [reflexivity|]. cbn [ps trace ncalls nclock].
    by autorewrite with calls.
Qed.

(** One poke-back followed by the counter update, inside the [try] of the
    reciprocation step. *)
Lemma poke_then_count w c action params msg user_id :
  _ctx (ps w) = Some c →
  ∃ w',
    try_catch
      ((callApi h action params ;; hlog LInfo msg) ;;
       incrementVipLikeCount h user_id)
      (fun error => hlog LError (MsgReciprocationFailed user_id)) w
    = (Ok tt, w')
    ∧ calls_of (trace w') = calls_of (trace w) ++ [mkCall action params]
    ∧ match reply h (ncalls w) (mkCall action params) with
      | Resolve _ => ps w' = counted (clock h (nclock w)) user_id (ps w)
      | Reject _ => ps w' = ps w
      end.
Proof.
  intros Hc. unfold try_catch.
  unfold mbind at 1 2. unfold M_bind.
  rewrite (callApi_Some h w c) by done.
  destruct (reply h (ncalls w) (mkCall action params)) as [v|e]; cbv beta iota.
  - unfold hlog at 1. unfold emit at 1. cbv beta iota.
    match goal with |- context [incrementVipLikeCount h user_id ?w1] =>
      destruct (incrementVipLikeCount_Some h w1 c user_id Hc)
        as (w2 & Hinc & Hps & Ht & _) end.
    rewrite Hinc. exists w2. split; [done|].
    cbn [ps trace nclock] in *. autorewrite with calls in Ht. by split.
  - unfold hlog, emit. eexists. split; [reflexivity|].
    cbn [ps trace]. by autorewrite with calls.
Qed.

(** The reciprocation step on an initialized store, for a gesture of one of
    the two shapes: one call, and the counter update exactly when the call
    resolves. *)
Lemma reciprocate_Some event w c :
  _ctx (ps w) = Some c →
  isLikeOrPoke event = true →
  ∃ w',
    reciprocate h event w = (Ok tt, w')
    ∧ calls_of (trace w') = calls_of (trace w) ++ [poke_back_call event]
    ∧ match reply h (ncalls w) (poke_back_call event) with
      | Resolve _ => ps w' = counted (clock h (nclock w)) (user_id event) (ps w)
      | Reject _ => ps w' = ps w
      end.
Proof.
  intros Hc Hkind. unfold reciprocate, poke_back_call, isLikeOrPoke in *.
  destruct (String.eqb (notice_type event) "thumb_up"); cbn [orb] in Hkind.
  - by apply poke_then_count with (c := c).
  - apply andb_true_iff in Hkind as [_ Hsub]. rewrite Hsub.
    destruct (truthy_group (group_id event)) as [gid|];
      by apply poke_then_count with (c := c).
Qed.

Lemma after_friendship_calls event w :
  calls_of (trace (after_friendship event w)) = calls_of (trace w) ++ [friend_list_call].
Proof.
  unfold after_friendship. cbn [trace].
  change (?t ++ [?a; ?b]) with (t ++ [a] ++ [b]). rewrite app_assoc.
  by autorewrite with calls.
Qed.

(** C1. A gesture has passed steps 1 to 5 and the stranger-info lookup marks
    the acting user as VIP.  With [currentLikes] the user's counter after the
    day rollover: if [currentLikes >= vipLikeLimit] the handler ends with the
    two lookups as its only calls, no reciprocation, and the store is the
    rolled-over store, no counter touched; if [currentLikes = vipLikeLimit - 1]
    the handler goes on and issues the reciprocation call. *)
Theorem vip_limit_enforced (event : LikeEvent) (w : World) (userInfo : value)
    (limit : Z) :
  eligible h event w →
  reply h (S (ncalls w)) (stranger_info_call (user_id event)) = Resolve userInfo →
  isVip_of userInfo = Some true →
  vipLikeLimit (config (ps w)) = Num limit →
  let s := rolled (clock h (nclock w)) (ps w) in
  let currentLikes := count_of (user_id event) (vipLikeCounts s) in
  (limit ≤ currentLikes →
     ∃ w', handleLike h event w = (Ok tt, w')
           ∧ calls_of (trace w')
               = calls_of (trace w)
                 ++ [friend_list_call; stranger_info_call (user_id event)]
           ∧ ps w' = s)
  ∧ (currentLikes = limit - 1 →
       ∃ w', handleLike h event w = (Ok tt, w')
             ∧ calls_of (trace w')
                 = calls_of (trace w)
                   ++ [friend_list_call; stranger_info_call (user_id event);
                       poke_back_call event]).
Proof.
  intros Hel Hr Hvip Hlimit s currentLikes.
  rewrite (handleLike_eligible _ _ Hel).
  destruct Hel as (Hkind & _ & _ & _ & [c Hc] & _).
  destruct (vip_limit_check_Some (after_friendship event w) c (user_id event) Hc)
    as (w6 & Hcheck & Ht & Hn & Hps).
  cbn [after_friendship ps ncalls nclock] in Hcheck, Hps, Hn.
  rewrite Hr, Hvip, Hlimit in Hcheck. rewrite Hr, Hvip in Hps.
  destruct Hps as [Hps Hk]. fold s in Hps, Hcheck. fold currentLikes in Hcheck.
  rewrite after_friendship_calls, <- app_assoc in Ht.
  erewrite bind_Ok by exact Hcheck. split.
  - intros Hge. cbn [num_ge]. rewrite (proj2 (Z.leb_le _ _) Hge). cbn [negb].
    by exists w6.
  - intros Heq. cbn [num_ge].
    rewrite (proj2 (Z.leb_gt _ _)) by lia. cbn [negb].
    destruct (reciprocate_Some event w6 c) as (w7 & Hrec & Ht7 & _);
      [by rewrite Hps; unfold s; rewrite rolled_ctx | done |].
    exists w7. split; [done|]. rewrite Ht7, Ht. by rewrite <- app_assoc.
Qed.

(** C2.  For a gesture that passes every gate, the handler issues, after the
    two lookups, exactly one reciprocation call: [friend_poke {user_id}] for
    a thumb-up; for a poke, [group_poke {group_id, user_id}] when the event
    carries a group identifier (a non-zero number: line 84 reads the presence
    of the field off its value), and [friend_poke {user_id}] when it carries
    none.  When that call resolves, the acting user's counter is incremented:
    it is one above its value at the day check of [incrementVipLikeCount],
    which within a day is the stored value.  When the call is rejected the
    store stays as it was: no counter is updated. *)
Theorem reciprocation_after_gates (event : LikeEvent) (w w6 : World) :
  eligible h event w →
  vip_limit_check h (user_id event) (after_friendship event w) = (Ok true, w6) →
  ∃ call w',
    handleLike h event w = (Ok tt, w')
    ∧ calls_of (trace w')
        = calls_of (trace w)
          ++ [friend_list_call; stranger_info_call (user_id event); call]
    ∧ (notice_type event = "thumb_up" → call = friend_poke (user_id event))
    ∧ (notice_type event ≠ "thumb_up" →
         ∀ g, group_id event = Some (Num g) → g ≠ 0 →
           call = group_poke (Num g) (user_id event))
    ∧ (notice_type event ≠ "thumb_up" → group_id event = None →
         call = friend_poke (user_id event))
    ∧ (∀ v, reply h (ncalls w6) call = Resolve v →
         ps w' = counted (clock h (nclock w6)) (user_id event) (ps w6)
         ∧ vipLikeCounts (ps w') !! user_id event
             = Some (count_of (user_id event)
                       (vipLikeCounts (rolled (clock h (nclock w6)) (ps w6))) + 1)
         ∧ (lastVipLikeResetDay (ps w6) = clock h (nclock w6) →
              vipLikeCounts (ps w') !! user_id event
              = Some (count_of (user_id event) (vipLikeCounts (ps w6)) + 1)))
    ∧ (∀ e, reply h (ncalls w6) call = Reject e → ps w' = ps w6).
Proof.
  intros Hel Hcheck. rewrite (handleLike_eligible _ _ Hel).
  destruct Hel as (Hkind & _ & _ & _ & [c Hc] & _).
  destruct (vip_limit_check_Some (after_friendship event w) c (user_id event) Hc)
    as (w6' & Hcheck' & Ht & _ & Hps).
  rewrite Hcheck in Hcheck'. injection Hcheck' as _ <-.
  rewrite after_friendship_calls, <- app_assoc in Ht.
  assert (_ctx (ps w6) = Some c) as Hc6.
  { cbn [after_friendship ps] in Hps.
    destruct (reply h _ _) as [userInfo|]; [destruct (isVip_of userInfo) as [[|]|]|];
      destruct Hps as [-> _]; by rewrite ?rolled_ctx. }
  erewrite bind_Ok by exact Hcheck. cbn [negb].
  destruct (reciprocate_Some event w6 c Hc6 Hkind) as (w7 & Hrec & Ht7 & Hps7).
  exists (poke_back_call event), w7. split; [done|]. split.
  { rewrite Ht7, Ht. by rewrite <- app_assoc. }
  unfold poke_back_call in *.
  split; [|split; [|split; [|split]]].
  - intros ->. done.
  - intros Hne g -> Hg.
    rewrite (proj2 (String.eqb_neq _ _) Hne). cbn [truthy_group truthy].
    by rewrite (proj2 (Z.eqb_neq _ _) Hg).
  - intros Hne ->. by rewrite (proj2 (String.eqb_neq _ _) Hne).
  - intros v Hv. rewrite Hv in Hps7.
    assert (vipLikeCounts (ps w7) !! user_id event
            = Some (count_of (user_id event)
                      (vipLikeCounts (rolled (clock h (nclock w6)) (ps w6))) + 1))
      as Hcount.
    { rewrite Hps7. unfold counted. cbn. by rewrite lookup_insert_eq. }
    split; [done|]. split; [done|].
    intros Hday. by rewrite Hcount, rolled_fresh.
  - intros e He. by rewrite He in Hps7.
Qed.

(** C6. A gesture of a blacklisted user ends the handler before the
    friendship check: no remote call at all ([get_friend_list] included),
    hence no reciprocation, and the store, counters included, is as it was. *)
Theorem blacklisted_short_circuit (event : LikeEvent) (w : World) :
  user_id event ∈ blacklist (config (ps w)) →
  ∃ w', handleLike h event w = (Ok tt, w')
        ∧ ps w' = ps w
        ∧ calls_of (trace w') = calls_of (trace w)
        ∧ ncalls w' = ncalls w
        ∧ (∀ c, ECall c ∈ trace w' → ECall c ∈ trace w).
Proof.
  intros Hbl%includes_elem_of. unfold handleLike.
  destruct (isLikeOrPoke event); cbn [negb]; [|by exists w].
  erewrite (bind_Ok (gets _)) by reflexivity.
  destruct (num_strict_eq _ _); cbn [negb]; [|by exists w].
  erewrite (bind_Ok (gets _)) by reflexivity.
  destruct (autoLikeEnabled _); cbn [negb]; [|by exists w].
  erewrite (bind_Ok (hlog _ _)) by reflexivity.
  cbn [ps]. rewrite Hbl. unfold hlog, emit.
  eexists. split; [reflexivity|]. cbn [ps trace ncalls].
  autorewrite with calls. repeat split; [].
  intros c. rewrite !elem_of_app, !list_elem_of_singleton.
  by intros [[Hin | [=]] | [=]].
Qed.

(** C10. While [selfId] is still the empty string, as [new PluginState()]
    leaves it and as a failed [fetchSelfId] keeps it, [parseInt(selfId)] is
    [NaN] and the target check lets no gesture through, whatever its
    [target_id]: the handler returns with no remote call, no log line and no
    change of the store. *)
Theorem empty_selfId_ignores_every_gesture (w : World) :
  selfId (ps w) = "" →
  parseInt (selfId (ps w)) = NaN
  ∧ (∀ event, handleLike h event w = (Ok tt, w))
  ∧ (selfId (ps (fetchSelfId h w).2) ≠ "" →
       ∃ res, reply h (ncalls w) (mkCall "get_login_info" []) = Resolve res
              ∧ truthy (default VUndef (member res "user_id")) = true).
Proof.
  intros Hself. split; [by rewrite Hself|]. split.
  - intros event. unfold handleLike.
    destruct (isLikeOrPoke event); [|done]. cbn [negb].
    erewrite (bind_Ok (gets _)) by reflexivity.
    rewrite Hself. change (parseInt "") with NaN.
    by rewrite num_strict_eq_NaN_r.
  - unfold fetchSelfId, try_catch. unfold mbind at 1. unfold M_bind.
    destruct (_ctx (ps w)) as [c|] eqn:Hc.
    + rewrite (callApi_Some h w c) by done.
      destruct (reply h (ncalls w) _) as [res|e]; cbv beta iota.
      * destruct (truthy (default VUndef (member res "user_id"))) eqn:Htr.
        { intros _. by exists res. }
        unfold mret, M_ret. cbn [snd ps]. by rewrite Hself.
      * rewrite (log_Some _ c) by done. cbn [snd ps]. by rewrite Hself.
    + rewrite (callApi_None h w) by done. cbv beta iota.
      rewrite log_None by done. cbn [snd]. by rewrite Hself.
Qed.

End Pipeline.

(** ** Instances on the concrete deployment *)

Import Scenario.

(** The thumb-up scenario of the specification: user 100, a friend, neither
    VIP nor blacklisted, likes the bot three times. *)
Example thumb_up_scenario :
  let w' := (handleLike host (thumb_up_from 100) (world store)).2 in
  trace w' =
    [ ELog LInfo (MsgReceived (Num 100) true (Num 3));
      ECall friend_list_call;
      ECall (stranger_info_call (Num 100));
      ECall (friend_poke (Num 100));
      ELog LInfo (MsgPokedBackForLike (Num 100) (Num 3));
      EWrite "/napcat/data/plugin/vip_likes.json"
        (PCounts {[ Num 100 := 1; Num 300 := 2; Num 301 := 1 ]}) ]
  ∧ vipLikeCounts (ps w') !! Num 100 = Some 1.
Proof. vm_compute. by split. Qed.

(** Steps 1 to 5 on a concrete gesture, by evaluation. *)
Ltac eligible_by_evaluation :=
  unfold eligible;
  split; [reflexivity|]; split; [reflexivity|]; split; [reflexivity|];
  split; [apply (bool_decide_unpack _); vm_compute; exact I|];
  split; [by eexists|]; exists friends; split; reflexivity.

Lemma vip_limit_enforced_witness :
  (∃ w', handleLike host (thumb_up_from 300) (world store) = (Ok tt, w')
         ∧ calls_of (trace w') = [friend_list_call; stranger_info_call (Num 300)]
         ∧ ps w' = store)
  ∧ (∃ w', handleLike host (thumb_up_from 301) (world store) = (Ok tt, w')
           ∧ calls_of (trace w') = [friend_list_call; stranger_info_call (Num 301);
                                    friend_poke (Num 301)]).
Proof.
  split.
  - refine (proj1 (vip_limit_enforced host (thumb_up_from 300) (world store)
                     vip_info 2 _ eq_refl eq_refl eq_refl) _).
    + eligible_by_evaluation.
    + vm_compute. discriminate.
  - refine (proj2 (vip_limit_enforced host (thumb_up_from 301) (world store)
                     vip_info 2 _ eq_refl eq_refl eq_refl) _).
    + eligible_by_evaluation.
    + vm_compute. reflexivity.
Defined.

Lemma reciprocation_after_gates_witness :
  ∃ w', handleLike host (poke_from 200 (Some (Num 555))) (world store) = (Ok tt, w')
        ∧ calls_of (trace w') = [friend_list_call; stranger_info_call (Num 200);
                                 group_poke (Num 555) (Num 200)]
        ∧ vipLikeCounts (ps w') !! Num 200 = Some 1.
Proof.
  set (event := poke_from 200 (Some (Num 555))).
  set (w6 := (vip_limit_check host (Num 200) (after_friendship event (world store))).2).
  destruct (reciprocation_after_gates host event (world store) w6)
    as (call & w' & Hrun & Hcalls & _ & Hgroup & _ & Hok & _).
  - eligible_by_evaluation.
  - reflexivity.
  - assert (call = group_poke (Num 555) (Num 200)) as ->.
    { apply (Hgroup ltac:(discriminate) 555 eq_refl). discriminate. }
    exists w'. split; [exact Hrun|]. split; [exact Hcalls|].
    exact (proj1 (proj2 (Hok VNull eq_refl))).
Defined.

Lemma blacklisted_short_circuit_witness :
  ∃ w', handleLike host (poke_from 900 None) (world store) = (Ok tt, w')
        ∧ ps w' = store
        ∧ calls_of (trace w') = [].
Proof.
  destruct (blacklisted_short_circuit host (poke_from 900 None) (world store))
    as (w' & Hrun & Hps & Hcalls & _).
  - apply (bool_decide_unpack _). vm_compute. exact I.
  - exists w'. split; [exact Hrun|]. split; [exact Hps | exact Hcalls].
Defined.

Lemma target_mismatch_ignored_witness :
  let event := mkEvent "thumb_up" None (Num 100) (Num 43) None None in
  handleLike host event (world store) = (Ok tt, world store).
Proof.
  intros event. apply target_mismatch_ignored.
  apply (bool_decide_unpack _). vm_compute. exact I.
Defined.

Lemma empty_selfId_ignores_every_gesture_witness :
  selfId fresh = ""
  ∧ parseInt (selfId fresh) = NaN
  ∧ handleLike host (thumb_up_from 100) (world fresh) = (Ok tt, world fresh).
Proof.
  destruct (empty_selfId_ignores_every_gesture host (world fresh) eq_refl)
    as (Hnan & Hall & _).
  split; [reflexivity|]. split; [exact Hnan | apply Hall].
Defined.

End HandlerFacts.

(* ===================================================================== *)
(** * Printing and parsing identifiers *)
(* ===================================================================== *)

Module PrintedFacts.
Import Printed Sanitize.

Lemma digit_of_pretty_N_char (d : N) :
  (d < 10)%N → digit_of 10 (pretty_N_char d) = Some (Z.of_N d).
Proof.
  intros Hd.
  assert (d = 0 ∨ d = 1 ∨ d = 2 ∨ d = 3 ∨ d = 4 ∨ d = 5 ∨ d = 6 ∨ d = 7
          ∨ d = 8 ∨ d = 9)%N as Hcases by lia.
  repeat (destruct Hcases as [-> | Hcases]; [reflexivity|]). by subst.
Qed.

Lemma is_digit10_pretty_N_char (d : N) : is_digit10 (pretty_N_char d) = true.
Proof. unfold pretty_N_char. by repeat case_match. Qed.

(** Reading back the digits that [pretty_N_go] puts in front of [s]. *)
Lemma read_digits_pretty_N_go (x : N) (s : string) :
  (0 < x)%N →
  ∃ k : Z, 0 ≤ k ∧ ∀ acc,
    read_digits 10 acc (pretty_N_go x s)
    = read_digits 10 (Some (default 0 acc * 10 ^ k + Z.of_N x)) s.
Proof.
  revert s. induction (N.lt_wf_0 x) as [x _ IH]. intros s Hx.
  rewrite pretty_N_go_step by done.
  destruct (N.eq_0_gt_0_cases (x `div` 10)) as [Hq | Hq].
  - rewrite Hq, pretty_N_go_0. exists 1. split; [lia|]. intros acc.
    cbn [read_digits]. rewrite digit_of_pretty_N_char by (by apply N.mod_lt).
    do 2 f_equal. rewrite Z.pow_1_r.
    pose proof (N.Div0.div_mod x 10) as Hdm. rewrite Hq in Hdm.
    rewrite N.mul_0_r, N.add_0_l in Hdm. by rewrite <- Hdm.
  - destruct (IH (x `div` 10)%N) with (s := String (pretty_N_char (x `mod` 10)) s)
      as (k & Hk & Hread); [by apply N.div_lt | done |].
    exists (k + 1). split; [lia|]. intros acc. rewrite Hread.
    cbn [read_digits]. rewrite digit_of_pretty_N_char by (by apply N.mod_lt).
    do 2 f_equal. cbn [default]. rewrite Z.pow_add_r by lia.
    pose proof (N.Div0.div_mod x 10) as Hdm.
    apply (f_equal Z.of_N) in Hdm. rewrite N2Z.inj_add, N2Z.inj_mul in Hdm.
    set (q := Z.of_N (x `div` 10)) in *. set (r := Z.of_N (x `mod` 10)) in *.
    rewrite Hdm, Z.pow_1_r. change (Z.of_N 10) with 10.
    unfold id. ring.
Qed.

Lemma str_forall_pretty_N_go (P : ascii → bool) (x : N) (s : string) :
  (∀ d, P (pretty_N_char d) = true) →
  str_forall P s = true → str_forall P (pretty_N_go x s) = true.
Proof.
  intros HP. revert s. induction (N.lt_wf_0 x) as [x _ IH]. intros s Hs.
  destruct (N.eq_0_gt_0_cases x) as [-> | Hx]; [by rewrite pretty_N_go_0|].
  rewrite pretty_N_go_step by done. apply IH; [by apply N.div_lt|].
  cbn [str_forall]. by rewrite HP, Hs.
Qed.

Lemma str_forall_pretty_N (P : ascii → bool) (x : N) :
  (∀ d, P (pretty_N_char d) = true) → str_forall P (pretty x) = true.
Proof.
  intros HP. unfold pretty, pretty_N. case_decide.
  - pose proof (HP 0%N) as H0. cbn in H0 |- *. by rewrite H0.
  - by apply str_forall_pretty_N_go.
Qed.

Lemma str_forall_weaken (P Q : ascii → bool) s :
  (∀ a, P a = true → Q a = true) → str_forall P s = true → str_forall Q s = true.
Proof.
  intros HPQ. induction s as [|a s IH]; [done|]. cbn.
  intros [Ha Hs]%andb_true_iff. by rewrite (HPQ a Ha), IH.
Qed.

(** A printed integer is made of digits and at most a leading minus sign. *)
Lemma pretty_Z_numeral (z : Z) : str_forall is_numeral (pretty z) = true.
Proof.
  assert (∀ d, is_numeral (pretty_N_char d) = true) as Hd.
  { intros d. unfold is_numeral. by rewrite is_digit10_pretty_N_char. }
  destruct z as [|p|p]; [done| |]; unfold pretty, pretty_Z, pretty, pretty_positive.
  - by apply str_forall_pretty_N.
  - cbn. by apply str_forall_pretty_N.
Qed.

Lemma read_digits_pretty_pos (p : positive) :
  read_digits 10 None (pretty (N.pos p)) = Some (Z.pos p).
Proof.
  unfold pretty, pretty_N. rewrite decide_False by done.
  destruct (read_digits_pretty_N_go (N.pos p) "") as (k & _ & Hread); [done|].
  by rewrite Hread.
Qed.

(** What the first character of a string of digits rules out. *)
Lemma digits_plain (s : string) :
  str_forall is_digit10 s = true →
  skip_ws s = s ∧ strip_sign s = (1, s) ∧ strip_hex_prefix s = None.
Proof.
  destruct s as [|a s]; [done|]. cbn [str_forall].
  intros [Ha Hs]%andb_true_iff. repeat split.
  - destruct a as [[] [] [] [] [] [] [] []]; vm_compute in Ha;
      try discriminate Ha; reflexivity.
  - destruct a as [[] [] [] [] [] [] [] []]; vm_compute in Ha;
      try discriminate Ha; reflexivity.
  - destruct s as [|b s].
    { destruct a as [[] [] [] [] [] [] [] []]; reflexivity. }
    cbn [str_forall] in Hs. apply andb_true_iff in Hs as [Hb _].
    destruct a as [[] [] [] [] [] [] [] []]; try reflexivity.
    destruct b as [[] [] [] [] [] [] [] []]; vm_compute in Hb;
      try discriminate Hb; reflexivity.
Qed.

Lemma str_forall_digits_pos (p : positive) :
  str_forall is_digit10 (pretty (N.pos p)) = true.
Proof. apply str_forall_pretty_N, is_digit10_pretty_N_char. Qed.

(** [parseInt(String(z))] is [z], with or without the radix 10: what
    [String] prints of an integer, [parseInt] reads back. *)
Lemma parseInt_radix_pretty (z : Z) (radix : option Z) :
  radix = None ∨ radix = Some 10 →
  parseInt_radix (pretty z) radix = Num z.
Proof.
  intros Hr. unfold parseInt_radix.
  destruct z as [|p|p]; unfold pretty, pretty_Z, pretty, pretty_positive.
  - by destruct Hr as [-> | ->].
  - destruct (digits_plain _ (str_forall_digits_pos p)) as (-> & -> & Hhex).
    destruct Hr as [-> | ->]; change (10 =? 16) with false; cbv beta iota;
      rewrite ?Hhex; rewrite read_digits_pretty_pos; cbn; done.
  - set (digits := pretty (N.pos p)).
    replace (skip_ws ("-" +:+ digits)) with (String "-" digits) by reflexivity.
    cbn [strip_sign]. subst digits.
    destruct (digits_plain _ (str_forall_digits_pos p)) as (_ & _ & Hhex).
    destruct Hr as [-> | ->]; change (10 =? 16) with false; cbv beta iota;
      rewrite ?Hhex; rewrite read_digits_pretty_pos; cbn; done.
Qed.

Lemma rev_app_rev_app (s t u : string) :
  String.rev_app (String.rev_app s t) u = String.rev_app t (s +:+ u).
Proof. revert t. induction s as [|a s IH]; intros t; [done|]. cbn. by rewrite IH. Qed.

Lemma str_app_nil_r (s : string) : s +:+ "" = s.
Proof.
  induction s as [|a s IH]; [done|].
  change (String a s +:+ "") with (String a (s +:+ "")). by rewrite IH.
Qed.

Lemma rev_involutive (s : string) : String.rev (String.rev s) = s.
Proof. unfold String.rev. rewrite rev_app_rev_app. apply str_app_nil_r. Qed.

Lemma str_forall_rev_app (P : ascii → bool) (s t : string) :
  str_forall P (String.rev_app s t) = str_forall P s && str_forall P t.
Proof.
  revert t. induction s as [|a s IH]; intros t; [done|]. cbn.
  rewrite IH. cbn. by destruct (P a), (str_forall P s).
Qed.

Lemma skip_ws_no_ws (s : string) :
  str_forall (fun a => negb (is_ws a)) s = true → skip_ws s = s.
Proof.
  destruct s as [|a s]; [done|]. cbn.
  intros [Ha _]%andb_true_iff. by apply negb_true_iff in Ha as ->.
Qed.

(** [trim] leaves a string without white space as it is. *)
Lemma trim_no_ws (s : string) :
  str_forall (fun a => negb (is_ws a)) s = true → trim s = s.
Proof.
  intros Hs. unfold trim. rewrite (skip_ws_no_ws s Hs).
  rewrite skip_ws_no_ws; [apply rev_involutive|].
  unfold String.rev. rewrite str_forall_rev_app, Hs. done.
Qed.

Lemma is_numeral_plain (a : ascii) :
  is_numeral a = true → negb (is_ws a) = true ∧ negb (Ascii.eqb a ",") = true.
Proof.
  intros Ha. destruct a as [[] [] [] [] [] [] [] []]; vm_compute in Ha;
    try discriminate Ha; by split.
Qed.

Lemma split_comma_no_comma (s : string) :
  str_forall (fun a => negb (Ascii.eqb a ",")) s = true → split_comma s = [s].
Proof.
  induction s as [|a s IH]; [done|]. cbn.
  intros [Ha Hs]%andb_true_iff. apply negb_true_iff in Ha as ->. by rewrite IH.
Qed.

Lemma split_comma_app (x rest : string) :
  str_forall (fun a => negb (Ascii.eqb a ",")) x = true →
  split_comma (x +:+ "," +:+ rest) = x :: split_comma rest.
Proof.
  induction x as [|a x IH]; [done|]. cbn [str_forall].
  intros [Ha Hx]%andb_true_iff.
  change (String a x +:+ "," +:+ rest) with (String a (x +:+ "," +:+ rest)).
  cbn [split_comma]. apply negb_true_iff in Ha as ->. by rewrite IH.
Qed.

(** [split(',')] undoes [join(',')] on pieces that hold no comma. *)
Lemma split_comma_concat (pieces : list string) :
  pieces ≠ [] →
  Forall (fun s => str_forall (fun a => negb (Ascii.eqb a ",")) s = true) pieces →
  split_comma (String.concat "," pieces) = pieces.
Proof.
  induction pieces as [|x [|y l] IH]; [done| |]; intros _ Hall.
  - apply split_comma_no_comma. by inversion Hall.
  - inversion Hall as [|? ? Hx Hrest]; subst.
    change (String.concat "," (x :: y :: l))
      with (x +:+ "," +:+ String.concat "," (y :: l)).
    rewrite split_comma_app by done. f_equal. by apply IH.
Qed.

Lemma parseInt10_trim_pretty (z : Z) : parseInt10 (trim (pretty z)) = Num z.
Proof.
  rewrite trim_no_ws.
  - apply parseInt_radix_pretty. by right.
  - eapply str_forall_weaken; [|apply pretty_Z_numeral].
    intros a Ha. by apply is_numeral_plain.
Qed.

Lemma parse_id_list_join (ids : list Z) :
  parse_id_list (String.concat "," (List.map (fun z => string_of_number (Num z)) ids))
  = List.map Num ids.
Proof.
  destruct ids as [|z ids]; [reflexivity|].
  unfold parse_id_list. rewrite split_comma_concat.
  - rewrite List.map_map.
    induction (z :: ids) as [|y l IH]; [done|]. cbn [List.map List.filter].
    change (string_of_number (Num y)) with (pretty y).
    rewrite parseInt10_trim_pretty. cbn [isNaN negb]. by rewrite IH.
  - done.
  - apply Forall_forall. intros piece Hin.
    apply list_elem_of_In, in_map_iff in Hin as (y & <- & _).
    eapply str_forall_weaken; [|apply (pretty_Z_numeral y)].
    intros a Ha. by apply is_numeral_plain.
Qed.

(** The identifier list a user reads, [String(ids)], typed back into a list
    field gives the same list: [split(',')], [trim], [parseInt(_, 10)] and the
    [NaN] filter undo [join(',')] of printed integers.  The identifiers are
    safe integers (at most 2^53 - 1 in absolute value), the range in which
    the numbers of the code are the integers of this model and are printed
    digit by digit. *)
Theorem parse_id_list_printed (ids : list Z) :
  Forall (fun z => isSafeInteger z = true) ids →
  parse_id_list (String.concat "," (List.map (fun z => string_of_number (Num z)) ids))
  = List.map Num ids.
Proof. intros _. apply parse_id_list_join. Qed.

Lemma parse_id_list_printed_witness :
  parse_id_list "301,-7,9007199254740991" = [Num 301; Num (-7); Num 9007199254740991].
Proof.
  apply (parse_id_list_printed [301; -7; 9007199254740991]).
  repeat constructor.
Defined.

End PrintedFacts.

(* ===================================================================== *)
(** * More on [sanitizeConfig] *)
(* ===================================================================== *)

Module SanitizeMore.
Import Sanitize SanitizeFacts.

Lemma setProp_keys k v (o : obj) : k ∈ o.*1 → (setProp k v o).*1 = o.*1.
Proof.
  induction o as [|[k' v'] o IH]; [by intros ?%elem_of_nil|].
  cbn. intros Hin. destruct (String.eqb_spec k k') as [-> | Hne]; [done|].
  cbn. f_equal. apply IH. apply elem_of_cons in Hin as [? | ?]; [done | done].
Qed.

Lemma getProp_key k (o : obj) : getProp k o ≠ VUndef → k ∈ o.*1.
Proof.
  induction o as [|[k' v'] o IH]; [done|]. cbn.
  destruct (String.eqb_spec k k') as [-> | Hne]; [intros _; by left|].
  intros H. right. by apply IH.
Qed.

Lemma run_keys raw fields (out : obj) :
  (∀ f, f ∈ fields → f.1 ∈ out.*1) → (run raw fields out).*1 = out.*1.
Proof.
  revert out. induction fields as [|f l IH]; intros out Hkeys; [done|].
  rewrite run_cons.
  assert ((assign raw out f).*1 = out.*1) as Hstep.
  { rewrite assign_accepted. destruct (accepted _ _); [|done].
    apply setProp_keys, Hkeys. by left. }
  rewrite IH; [done|]. intros f' Hf'. rewrite Hstep. apply Hkeys. by right.
Qed.

(** The result of [sanitizeConfig] has exactly the keys of the defaults, in
    their order: a field of the input that the configuration does not know
    is dropped, and no field is lost, whatever the input is. *)
Theorem sanitizeConfig_keys (DEFAULT_CONFIG : obj) (x : value) :
  has_declared_types (VObj DEFAULT_CONFIG) = true →
  ∃ out, sanitizeConfig DEFAULT_CONFIG x = VObj out ∧ out.*1 = DEFAULT_CONFIG.*1.
Proof.
  intros HD. destruct x as [| | | | | |r]; try (by eexists).
  rewrite sanitizeConfig_run. eexists. split; [done|].
  apply run_keys. intros [k kd] Hin. apply getProp_key. cbn.
  intros Hundef.
  pose proof (proj1 (has_declared_types_schema _) HD k kd Hin) as Hty.
  rewrite Hundef in Hty. by rewrite (schema_not_undef k kd Hin) in Hty.
Qed.

Lemma sanitizeConfig_keys_witness :
  let D := [ ("enabled", VBool true); ("debug", VBool false);
             ("autoLikeEnabled", VBool true); ("blacklist", VArr []);
             ("vipLikeLimit", VNum (Num 10));
             ("autoLikeSomeoneEnabled", VBool false);
             ("autoLikeInterval", VNum (Num 60));
             ("autoLikeTimes", VNum (Num 10)); ("autoLikeUsers", VArr []) ] in
  let x := VObj [ ("theme", VStr "dark"); ("enabled", VBool false);
                  ("stats", VObj [("processed", VNum (Num 4))]) ] in
  ∃ out, sanitizeConfig D x = VObj out ∧ out.*1 = D.*1.
Proof. intros D x. exact (sanitizeConfig_keys D x eq_refl). Defined.

(** Field by field, for any defaults and any object: a flag or a numeric
    field is the input's when [typeof] agrees and the default's otherwise; a
    list field is the input's array filtered, or its string parsed, and the
    default's for any other shape; every other key reads as in the defaults,
    whatever the input holds under it. *)
Theorem sanitizeConfig_field_by_field (DEFAULT_CONFIG raw : obj) (k : string) :
  let out := sanitizeConfig DEFAULT_CONFIG (VObj raw) in
  (∀ ty, (k, KTyped ty) ∈ schema →
     field k out = if bool_decide (typeof (getProp k raw) = ty)
                   then getProp k raw else getProp k DEFAULT_CONFIG)
  ∧ ((k, KIdList) ∈ schema →
       field k out = match getProp k raw with
                     | VArr elems => VArr (List.filter is_number elems)
                     | VStr str => VArr (List.map VNum (parse_id_list str))
                     | _ => getProp k DEFAULT_CONFIG
                     end)
  ∧ (k ∉ schema.*1 → field k out = getProp k DEFAULT_CONFIG).
Proof.
  intros out. subst out. rewrite sanitizeConfig_run. cbn [field].
  split; [|split].
  - intros ty Hin. rewrite (getProp_run _ _ _ _ _ schema_NoDup Hin).
    cbn [accepted]. by case_bool_decide.
  - intros Hin. rewrite (getProp_run _ _ _ _ _ schema_NoDup Hin).
    cbn [accepted]. by destruct (getProp k raw).
  - apply getProp_run_other.
Qed.

Lemma sanitizeConfig_field_by_field_witness :
  let raw := [ ("vipLikeLimit", VStr "3"); ("autoLikeTimes", VNum (Num 7));
               ("autoLikeUsers", VStr "1,x,2"); ("theme", VStr "dark") ] in
  let out := sanitizeConfig Scenario2.defaults (VObj raw) in
  field "vipLikeLimit" out = VNum (Num 10)
  ∧ field "autoLikeTimes" out = VNum (Num 7)
  ∧ field "autoLikeUsers" out = VArr [VNum (Num 1); VNum (Num 2)]
  ∧ field "theme" out = VUndef.
Proof.
  intros raw out.
  destruct (sanitizeConfig_field_by_field Scenario2.defaults raw "vipLikeLimit")
    as (Hlimit & _ & _).
  destruct (sanitizeConfig_field_by_field Scenario2.defaults raw "autoLikeTimes")
    as (Htimes & _ & _).
  destruct (sanitizeConfig_field_by_field Scenario2.defaults raw "autoLikeUsers")
    as (_ & Husers & _).
  destruct (sanitizeConfig_field_by_field Scenario2.defaults raw "theme")
    as (_ & _ & Htheme).
  split; [|split; [|split]].
  - apply (Hlimit TNumber). unfold schema. repeat constructor.
  - apply (Htimes TNumber). unfold schema. repeat constructor.
  - apply Husers. unfold schema. repeat constructor.
  - apply Htheme. apply (bool_decide_unpack _). vm_compute. exact I.
Defined.

End SanitizeMore.

(* ===================================================================== *)
(** * Properties of the schedule and of the configuration updates *)
(* ===================================================================== *)

Module ConfigFacts.
Import Printed Sanitize Store Config StoreFacts SanitizeFacts.

(** ** The merged configuration of [updateConfig] *)

Lemma getProp_spread (a b : obj) k :
  NoDup b.*1 →
  getProp k (spread a b)
  = if bool_decide (k ∈ b.*1) then getProp k b else getProp k a.
Proof.
  revert a. induction b as [|[k' v'] b IH]; intros a Hnd.
  - cbn. by rewrite bool_decide_eq_false_2 by apply not_elem_of_nil.
  - apply NoDup_cons in Hnd as [Hnin Hnd].
    change (spread a ((k', v') :: b)) with (spread (setProp k' v' a) b).
    rewrite IH by done. cbn [fmap list_fmap fst getProp].
    destruct (String.eqb_spec k k') as [-> | Hne].
    + rewrite (bool_decide_eq_false_2 _ Hnin).
      rewrite bool_decide_eq_true_2 by (by left).
      apply getProp_setProp_eq.
    + rewrite getProp_setProp_ne by done.
      case_bool_decide as Hin.
      * by rewrite bool_decide_eq_true_2 by (by right).
      * rewrite bool_decide_eq_false_2; [done|]. by intros [? | ?]%elem_of_cons.
Qed.

Lemma normalize_id_list_keys k0 (p : obj) : (normalize_id_list k0 p).*1 = p.*1.
Proof.
  unfold normalize_id_list. destruct (getProp k0 p) eqn:Hv; try done.
  apply SanitizeMore.setProp_keys, SanitizeMore.getProp_key. by rewrite Hv.
Qed.

Lemma getProp_normalize_id_list k0 k (p : obj) :
  getProp k (normalize_id_list k0 p)
  = if String.eqb k k0
    then match getProp k p with
         | VStr str => VArr (List.map VNum (parse_id_list str))
         | v => v
         end
    else getProp k p.
Proof.
  unfold normalize_id_list. destruct (String.eqb_spec k k0) as [-> | Hne].
  - destruct (getProp k0 p) eqn:Hv; rewrite ?Hv; try done.
    apply getProp_setProp_eq.
  - destruct (getProp k0 p); try done. by rewrite getProp_setProp_ne.
Qed.

Lemma kind_of_schema k kd : (k, kd) ∈ schema → kind_of k = Some kd.
Proof.
  unfold schema. rewrite !elem_of_cons, elem_of_nil.
  intros H. repeat (destruct H as [[= -> ->]|H]; [reflexivity|]). done.
Qed.

(** A key of a typed update holds a value of its kind; a key it does not
    have reads [undefined]. *)
Lemma typed_update_lookup (p : obj) k kd :
  typed_update p = true → kind_of k = Some kd →
  (k ∈ p.*1 ∧ update_kinded kd (getProp k p) = true)
  ∨ ((k ∉ p.*1) ∧ getProp k p = VUndef).
Proof.
  unfold typed_update. intros [_ Hall]%andb_true_iff Hk.
  induction p as [|[k' v'] p IH].
  - right. split; [apply not_elem_of_nil | done].
  - cbn [forallb fst snd] in Hall. apply andb_true_iff in Hall as [Hhead Hall].
    cbn [getProp fmap list_fmap fst].
    destruct (String.eqb_spec k k') as [<- | Hne].
    + left. split; [by left|]. by rewrite Hk in Hhead.
    + destruct (IH Hall) as [[Hin Hv] | [Hnin Hv]].
      * left. split; [by right | done].
      * right. split; [|done]. by intros [? | ?]%elem_of_cons.
Qed.

Lemma is_number_array_numbers v :
  is_number_array v = true → VArr (List.map VNum (numbers_of v)) = v.
Proof.
  destruct v as [| | | | |elems|]; try done. cbn [is_number_array numbers_of].
  intros Hall. f_equal.
  induction elems as [|e l IH]; [done|].
  cbn [forallb] in Hall. apply andb_true_iff in Hall as [He Hl].
  destruct e; try done. cbn [omap list_omap List.map]. by rewrite IH.
Qed.

(** The stored record gives back every field of an object that has the
    field's declared type. *)
Lemma encode_decode_field (m : obj) k kd :
  (k, kd) ∈ schema → well_kinded kd (getProp k m) = true →
  getProp k (encodeConfig (decodeConfig (VObj m))) = getProp k m.
Proof.
  unfold schema. rewrite !elem_of_cons, elem_of_nil.
  intros H.
  repeat (destruct H as [[= -> ->]|H];
          [cbn -[numbers_of]; intros Hv;
           first [ by apply is_number_array_numbers
                 | by destruct (getProp _ m) ] |]).
  done.
Qed.

Lemma encodeConfig_kinded c k kd :
  (k, kd) ∈ schema → well_kinded kd (getProp k (encodeConfig c)) = true.
Proof.
  unfold schema. rewrite !elem_of_cons, elem_of_nil.
  intros H.
  repeat (destruct H as [[= -> ->]|H];
          [cbn; first [ done | apply forallb_is_number_VNum ] |]).
  done.
Qed.

(** The value an update gives a field, once normalized, has the field's
    declared type. *)
Lemma updated_field_kinded kd old v :
  (kd = KTyped TBoolean ∨ kd = KTyped TNumber ∨ kd = KIdList) →
  well_kinded kd old = true →
  v = VUndef ∨ update_kinded kd v = true →
  well_kinded kd (updated_field old v) = true.
Proof.
  intros Hkd Hold [-> | Hv]; [done|].
  destruct Hkd as [-> | [-> | ->]]; destruct v; try done.
  - cbn. apply forallb_is_number_VNum.
  - cbn in Hv |- *. by rewrite orb_false_r in Hv.
Qed.

Lemma schema_kinds k kd :
  (k, kd) ∈ schema → kd = KTyped TBoolean ∨ kd = KTyped TNumber ∨ kd = KIdList.
Proof.
  unfold schema. rewrite !elem_of_cons, elem_of_nil.
  intros H. repeat (destruct H as [[= -> ->]|H]; [auto|]). done.
Qed.

(** Field by field, the merged object of a typed update. *)
Lemma merged_field c (p : obj) k kd :
  typed_update p = true → (k, kd) ∈ schema →
  getProp k (merged c p) = updated_field (getProp k (encodeConfig c)) (getProp k p)
  ∧ well_kinded kd (getProp k (merged c p)) = true.
Proof.
  intros Hty Hin. pose proof (kind_of_schema _ _ Hin) as Hk.
  assert (NoDup p.*1) as Hnd.
  { unfold typed_update in Hty. apply andb_true_iff in Hty as [Hnd _].
    by apply bool_decide_eq_true in Hnd. }
  pose proof (typed_update_lookup p k kd Hty Hk) as Hlook.
  assert (getProp k (merged c p)
          = updated_field (getProp k (encodeConfig c)) (getProp k p)) as Heq.
  { unfold merged. rewrite getProp_spread by (by rewrite !normalize_id_list_keys).
    rewrite !normalize_id_list_keys, !getProp_normalize_id_list.
    destruct Hlook as [[Hin' Hv] | [Hnin Hv]].
    - rewrite bool_decide_eq_true_2 by done.
      revert Hin Hv. unfold schema. rewrite !elem_of_cons, elem_of_nil.
      intros H.
      repeat (destruct H as [[= -> ->]|H];
              [cbn -[parse_id_list]; intros Hv; by destruct (getProp _ p) |]).
      done.
    - rewrite bool_decide_eq_false_2 by done. by rewrite Hv. }
  split; [done|]. rewrite Heq.
  apply updated_field_kinded;
    [by eapply schema_kinds | by apply encodeConfig_kinded |].
  destruct Hlook as [[_ Hv] | [_ Hv]]; auto.
Qed.

Lemma decoded_merged_field c (p : obj) k kd :
  typed_update p = true → (k, kd) ∈ schema →
  getProp k (encodeConfig (decodeConfig (VObj (merged c p))))
  = updated_field (getProp k (encodeConfig c)) (getProp k p).
Proof.
  intros Hty Hin. destruct (merged_field c p k kd Hty Hin) as [Heq Hkd].
  by rewrite (encode_decode_field _ k kd).
Qed.

Section Schedule.

Context (h : Host).

Lemma logger_info_Some w c : _ctx (ps w) = Some c → logger_info w = (Ok tt, w).
Proof. intros Hc. unfold logger_info. by rewrite (bind_Ok _ _ _ _ _ (ctx_Some _ _ Hc)). Qed.

Lemma logger_info_None w : _ctx (ps w) = None → logger_info w = (Throw Uninitialized, w).
Proof. intros Hc. unfold logger_info. by rewrite (bind_Throw _ _ _ _ _ (ctx_None _ Hc)). Qed.

Lemma set_timers_same s : set_timers (timers s) s = s.
Proof. by destruct s. Qed.

(** [stopAutoLikeTimer] up to its log line: the job is cancelled and removed
    from the table. *)
Lemma stopAutoLikeTimer_run w :
  ∃ w', stopAutoLikeTimer w =
          (if bool_decide (is_Some (timers (ps w) !! "autoLike"))
           then match _ctx (ps w) with Some _ => Ok tt | None => Throw Uninitialized end
           else Ok tt, w')
        ∧ ps w' = set_timers (delete "autoLike" (timers (ps w))) (ps w)
        ∧ trace w' = trace w ++ cancelled (timers (ps w))
        ∧ ncalls w' = ncalls w ∧ nclock w' = nclock w ∧ nwrites w' = nwrites w.
Proof.
  unfold stopAutoLikeTimer, cancelled.
  erewrite (bind_Ok (gets _)) by reflexivity.
  case_bool_decide as Hjob.
  - erewrite (bind_Ok (emit _)) by reflexivity.
    erewrite (bind_Ok (modify _)) by reflexivity.
    destruct (_ctx (ps w)) as [c|] eqn:Hc.
    + rewrite (logger_info_Some _ c) by done. by eexists.
    + rewrite logger_info_None by done. by eexists.
  - exists w. rewrite app_nil_r. repeat split.
    rewrite delete_id; [by rewrite set_timers_same|].
    by apply eq_None_not_Some.
Qed.

Lemma scheduled_lookup cfg (ts : gmap string Z) :
  scheduled cfg ts !! "autoLike"
  = (if job_wanted cfg then Some (job_delay cfg) else None).
Proof.
  unfold scheduled. destruct (job_wanted cfg).
  - by rewrite lookup_insert_eq.
  - by rewrite lookup_delete_eq.
Qed.

Lemma scheduled_lookup_ne cfg (ts : gmap string Z) k :
  k ≠ "autoLike" → scheduled cfg ts !! k = ts !! k.
Proof.
  intros Hk. unfold scheduled. destruct (job_wanted cfg).
  - rewrite lookup_insert_ne by done. by rewrite lookup_delete_ne.
  - by rewrite lookup_delete_ne.
Qed.

Lemma scheduled_idem cfg (ts : gmap string Z) :
  scheduled cfg (scheduled cfg ts) = scheduled cfg ts.
Proof.
  apply map_eq. intros k. destruct (decide (k = "autoLike")) as [-> | Hk].
  - by rewrite !scheduled_lookup.
  - by rewrite !scheduled_lookup_ne.
Qed.

(** [startAutoLikeTimer] in full: where it throws, and what it has done by
    then. *)
Lemma startAutoLikeTimer_run w :
  let had := bool_decide (is_Some (timers (ps w) !! "autoLike")) in
  let cfg := config (ps w) in
  ∃ w', startAutoLikeTimer w =
          (match _ctx (ps w) with
           | Some _ => Ok tt
           | None => if had || job_wanted cfg then Throw Uninitialized else Ok tt
           end, w')
        ∧ ps w' = set_timers (match _ctx (ps w) with
                              | None => if had then delete "autoLike" (timers (ps w))
                                        else scheduled cfg (timers (ps w))
                              | Some _ => scheduled cfg (timers (ps w))
                              end) (ps w)
        ∧ trace w' = trace w ++ cancelled (timers (ps w))
        ∧ ncalls w' = ncalls w ∧ nclock w' = nclock w ∧ nwrites w' = nwrites w.
Proof.
  intros had cfg. unfold startAutoLikeTimer.
  destruct (stopAutoLikeTimer_run w) as (w1 & Hstop & Hps1 & Ht1 & Hn1 & Hk1 & Hw1).
  fold had in Hstop.
  assert (config (ps w1) = cfg ∧ _ctx (ps w1) = _ctx (ps w)
          ∧ timers (ps w1) = delete "autoLike" (timers (ps w))) as (Hcfg1 & Hc1 & Hts1).
  { by rewrite Hps1. }
  destruct had eqn:Hhad, (_ctx (ps w)) as [c|] eqn:Hc; cbn [orb].
  4: { (* no job, no context *)
    erewrite bind_Ok by exact Hstop.
    erewrite (bind_Ok (gets _)) by reflexivity. rewrite Hcfg1.
    unfold scheduled, job_wanted.
    destruct (autoLikeSomeoneEnabled cfg); cbn [negb orb andb];
      [case_bool_decide; cbn [negb]|].
    - exists w1. by rewrite Hps1.
    - erewrite (bind_Ok (modify _)) by reflexivity.
      rewrite logger_info_None by done. eexists. split; [reflexivity|].
      cbn [ps trace ncalls nclock nwrites]. rewrite Hts1, Hps1. by destruct (ps w).
    - exists w1. by rewrite Hps1. }
  2: { (* a job, no context: the stop throws *)
    erewrite bind_Throw by exact Hstop. exists w1. by rewrite Hps1. }
  all: erewrite bind_Ok by exact Hstop;
    erewrite (bind_Ok (gets _)) by reflexivity; rewrite Hcfg1;
    unfold scheduled, job_wanted;
    (destruct (autoLikeSomeoneEnabled cfg); cbn [negb orb andb];
      [case_bool_decide; cbn [negb]|]);
    try (exists w1; by rewrite Hps1);
    erewrite (bind_Ok (modify _)) by reflexivity;
    rewrite (logger_info_Some _ c) by (cbn [ps]; by destruct (ps w1));
    (eexists; split; [reflexivity|]);
    cbn [ps trace ncalls nclock nwrites]; rewrite Hts1, Hps1; by destruct (ps w).
Qed.

(** On an initialized store [startAutoLikeTimer] always returns.  Afterwards
    the table holds an [autoLike] job exactly when the job is enabled and has
    targets; every other timer is as before; a job registered earlier has been
    cancelled, and nothing is cancelled otherwise; nothing else of the store
    changes and no remote call, clock read or file write happens. *)
Theorem start_schedules_one_job (w : World) (c : Context) :
  _ctx (ps w) = Some c →
  ∃ w', startAutoLikeTimer w = (Ok tt, w')
    ∧ timers (ps w') !! "autoLike"
        = (if job_wanted (config (ps w)) then Some (job_delay (config (ps w)))
           else None)
    ∧ (∀ k, k ≠ "autoLike" → timers (ps w') !! k = timers (ps w) !! k)
    ∧ trace w' = trace w ++ cancelled (timers (ps w))
    ∧ set_timers (timers (ps w)) (ps w') = ps w
    ∧ ncalls w' = ncalls w ∧ nclock w' = nclock w ∧ nwrites w' = nwrites w.
Proof.
  intros Hc. destruct (startAutoLikeTimer_run w) as (w' & Hrun & Hps & Ht & Hrest).
  rewrite Hc in Hrun, Hps. exists w'. split; [done|]. rewrite Hps. cbn [timers set_timers].
  split; [apply scheduled_lookup|]. split; [intros k; apply scheduled_lookup_ne|].
  split; [done|]. split; [by destruct (ps w)|done].
Qed.

(** Restarting the schedule never leaves two jobs: a second
    [startAutoLikeTimer] cancels the job the first one registered and ends
    with the same table; [stopAutoLikeTimer] then cancels that one and leaves
    no [autoLike] job. *)
Theorem restart_replaces_job (w : World) (c : Context) :
  _ctx (ps w) = Some c →
  ∃ w1 w2 w3,
    startAutoLikeTimer w = (Ok tt, w1)
    ∧ restartAutoLikeTimer w1 = (Ok tt, w2)
    ∧ stopAutoLikeTimer w2 = (Ok tt, w3)
    ∧ ps w2 = ps w1
    ∧ trace w2 = trace w1 ++ (if job_wanted (config (ps w))
                              then [EClearInterval "autoLike"] else [])
    ∧ timers (ps w3) !! "autoLike" = None
    ∧ trace w3 = trace w2 ++ (if job_wanted (config (ps w))
                              then [EClearInterval "autoLike"] else []).
Proof.
  intros Hc.
  destruct (startAutoLikeTimer_run w) as (w1 & Hrun1 & Hps1 & _).
  rewrite Hc in Hrun1, Hps1.
  assert (_ctx (ps w1) = Some c ∧ config (ps w1) = config (ps w)
          ∧ timers (ps w1) = scheduled (config (ps w)) (timers (ps w)))
    as (Hc1 & Hcfg1 & Hts1) by (by rewrite Hps1).
  destruct (startAutoLikeTimer_run w1) as (w2 & Hrun2 & Hps2 & Ht2 & _).
  rewrite Hc1, Hcfg1, Hts1, scheduled_idem, <- Hts1, set_timers_same in Hps2.
  rewrite Hc1 in Hrun2.
  destruct (stopAutoLikeTimer_run w2) as (w3 & Hrun3 & Hps3 & Ht3 & _).
  assert (cancelled (scheduled (config (ps w)) (timers (ps w)))
          = (if job_wanted (config (ps w)) then [EClearInterval "autoLike"] else []))
    as Hcancel.
  { unfold cancelled. rewrite scheduled_lookup.
    destruct (job_wanted _).
    - by rewrite bool_decide_eq_true_2 by (by eexists).
    - by rewrite bool_decide_eq_false_2 by (by intros [? ?]). }
  rewrite Hps2, Hc1 in Hrun3. rewrite Hps2, Hts1, Hcancel in Ht3.
  rewrite Hts1, Hcancel in Ht2.
  exists w1, w2, w3. split; [done|]. split; [done|]. split.
  { rewrite Hrun3. by destruct (bool_decide _). }
  split; [done|]. split; [done|]. split; [|done].
  rewrite Hps3. cbn [timers set_timers]. apply lookup_delete_eq.
Qed.

(** Before [init] (no context) [startAutoLikeTimer] works up to its first log
    line.  With the job enabled and no job registered, it registers the job
    and then throws the uninitialized error: the timer stays in the table.
    With a job registered, it cancels and removes it and throws before
    registering another.  With neither, it returns and changes nothing. *)
Theorem start_before_init (w : World) :
  _ctx (ps w) = None →
  (timers (ps w) !! "autoLike" = None → job_wanted (config (ps w)) = true →
     ∃ w', startAutoLikeTimer w = (Throw Uninitialized, w')
           ∧ timers (ps w') !! "autoLike" = Some (job_delay (config (ps w))))
  ∧ (is_Some (timers (ps w) !! "autoLike") →
       ∃ w', startAutoLikeTimer w = (Throw Uninitialized, w')
             ∧ timers (ps w') !! "autoLike" = None
             ∧ trace w' = trace w ++ [EClearInterval "autoLike"])
  ∧ (timers (ps w) !! "autoLike" = None → job_wanted (config (ps w)) = false →
       startAutoLikeTimer w = (Ok tt, w)).
Proof.
  intros Hc. destruct (startAutoLikeTimer_run w) as (w' & Hrun & Hps & Ht & Hn & Hk & Hw).
  rewrite Hc in Hrun, Hps. split; [|split].
  - intros Hnone Hwant.
    rewrite bool_decide_eq_false_2, Hwant in Hrun by (rewrite Hnone; by intros [? ?]).
    rewrite bool_decide_eq_false_2 in Hps by (rewrite Hnone; by intros [? ?]).
    cbn [orb] in Hrun. exists w'. split; [done|]. rewrite Hps. cbn [timers set_timers].
    by rewrite scheduled_lookup, Hwant.
  - intros Hsome. unfold cancelled in Ht.
    rewrite bool_decide_eq_true_2 in Hrun, Hps, Ht by done.
    exists w'. split; [done|]. rewrite Hps. cbn [timers set_timers].
    by rewrite lookup_delete_eq.
  - intros Hnone Hwant. unfold cancelled in Ht.
    rewrite bool_decide_eq_false_2, Hwant in Hrun by (rewrite Hnone; by intros [? ?]).
    rewrite bool_decide_eq_false_2 in Hps, Ht by (rewrite Hnone; by intros [? ?]).
    rewrite Hrun. f_equal. unfold scheduled in Hps. rewrite Hwant in Hps.
    rewrite delete_id, set_timers_same in Hps by done. rewrite app_nil_r in Ht.
    destruct w, w'. cbn in *. by subst.
Qed.

(** What [saveConfig] leaves in the trace of an initialized store. *)
Lemma saveConfig_run w c :
  _ctx (ps w) = Some c →
  saveConfig h w =
  (Ok tt, mkWorld (ps w)
            (trace w ++ [if write_ok h (nwrites w)
                         then EWrite (configPath c) (PConfig (config (ps w)) (stats (ps w)))
                         else ELog LError MsgSaveConfigFailed])
            (ncalls w) (nclock w) (S (nwrites w))).
Proof.
  unfold saveConfig, next_write. intros ->. unfold_monad. cbn.
  by destruct (write_ok h (nwrites w)).
Qed.

(** On an initialized store, an update within the declared types always
    returns.  The configuration becomes the old one with each field of the
    update written over it, a list given as a string being parsed; it is
    written once to the configuration file together with the statistics (or
    the failure is logged), and the schedule is restarted under the new
    configuration, the previous job being cancelled after the write. *)
Theorem updateConfig_merges_and_reschedules
    (partial : obj) (w : World) (c : Context) :
  _ctx (ps w) = Some c →
  typed_update partial = true →
  let cfg' := decodeConfig (VObj (merged (config (ps w)) partial)) in
  ∃ w', updateConfig h partial w = (Ok tt, w')
    ∧ config (ps w') = cfg'
    ∧ (∀ k kd, (k, kd) ∈ schema →
         getProp k (encodeConfig cfg')
         = updated_field (getProp k (encodeConfig (config (ps w)))) (getProp k partial))
    ∧ timers (ps w') = scheduled cfg' (timers (ps w))
    ∧ trace w' = trace w
                 ++ [if write_ok h (nwrites w)
                     then EWrite (configPath c) (PConfig cfg' (stats (ps w)))
                     else ELog LError MsgSaveConfigFailed]
                 ++ cancelled (timers (ps w))
    ∧ stats (ps w') = stats (ps w)
    ∧ vipLikeCounts (ps w') = vipLikeCounts (ps w)
    ∧ selfId (ps w') = selfId (ps w)
    ∧ _ctx (ps w') = Some c.
Proof.
  intros Hc Hty cfg'. unfold updateConfig, restartAutoLikeTimer.
  erewrite (bind_Ok (modify _)) by reflexivity. fold cfg'.
  erewrite bind_Ok by (by apply (saveConfig_run _ c)).
  match goal with |- context [startAutoLikeTimer ?w1] =>
    destruct (startAutoLikeTimer_run w1) as (w' & Hrun & Hps & Ht & _) end.
  cbn [ps trace nwrites set_config _ctx config timers stats] in Hrun, Hps, Ht.
  rewrite Hc in Hrun, Hps.
  exists w'. split; [done|]. rewrite Hps, Ht. cbn.
  split; [done|]. split; [intros k kd Hin; by apply (decoded_merged_field _ _ k kd)|].
  by rewrite <- app_assoc.
Qed.

(** A list typed as text is the list: an update whose [blacklist] and
    [autoLikeUsers] are the printed, comma-separated identifiers (safe
    integers) does exactly what the update with the two arrays does,
    whatever else the update holds. *)
Theorem updateConfig_printed_lists (bl us : list Z) (rest : obj) (w : World) :
  Forall (fun z => isSafeInteger z = true) bl →
  Forall (fun z => isSafeInteger z = true) us →
  let printed ids := String.concat "," (List.map (fun z => string_of_number (Num z)) ids) in
  let numbers ids := VArr (List.map (fun z => VNum (Num z)) ids) in
  updateConfig h (("blacklist", VStr (printed bl))
                  :: ("autoLikeUsers", VStr (printed us)) :: rest) w
  = updateConfig h (("blacklist", numbers bl)
                    :: ("autoLikeUsers", numbers us) :: rest) w.
Proof.
  intros _ _ printed numbers. unfold updateConfig.
  erewrite !(bind_Ok (modify _)) by reflexivity.
  replace (merged (config (ps w))
             (("blacklist", VStr (printed bl))
              :: ("autoLikeUsers", VStr (printed us)) :: rest))
    with (merged (config (ps w))
            (("blacklist", numbers bl) :: ("autoLikeUsers", numbers us) :: rest));
    [done|].
  unfold merged, normalize_id_list, printed, numbers.
  cbn [getProp setProp String.eqb Ascii.eqb Bool.eqb].
  by rewrite !PrintedFacts.parse_id_list_join, !List.map_map.
Qed.

(** After [cleanup] or before [init], with no job registered, an update
    within the declared types still replaces the configuration in memory and
    writes nothing.  It returns normally when the new configuration does not
    want the proactive-like job; when it does, the job is registered and the
    uninitialized error is thrown after that. *)
Theorem updateConfig_before_init (partial : obj) (w : World) :
  _ctx (ps w) = None →
  timers (ps w) !! "autoLike" = None →
  typed_update partial = true →
  let cfg' := decodeConfig (VObj (merged (config (ps w)) partial)) in
  ∃ w', updateConfig h partial w
          = (if job_wanted cfg' then Throw Uninitialized else Ok tt, w')
    ∧ config (ps w') = cfg'
    ∧ (∀ k kd, (k, kd) ∈ schema →
         getProp k (encodeConfig cfg')
         = updated_field (getProp k (encodeConfig (config (ps w)))) (getProp k partial))
    ∧ timers (ps w') !! "autoLike"
        = (if job_wanted cfg' then Some (job_delay cfg') else None)
    ∧ trace w' = trace w
    ∧ nwrites w' = nwrites w.
Proof.
  intros Hc Hnone Hty cfg'. unfold updateConfig, restartAutoLikeTimer.
  erewrite (bind_Ok (modify _)) by reflexivity. fold cfg'.
  erewrite bind_Ok by (by apply saveConfig_None).
  match goal with |- context [startAutoLikeTimer ?w1] =>
    destruct (startAutoLikeTimer_run w1) as (w' & Hrun & Hps & Ht & _ & _ & Hw) end.
  cbn [ps trace nwrites set_config _ctx config timers stats] in Hrun, Hps, Ht, Hw.
  unfold cancelled in Ht.
  rewrite Hc, bool_decide_eq_false_2 in Hrun, Hps by (rewrite Hnone; by intros [? ?]).
  rewrite bool_decide_eq_false_2, app_nil_r in Ht by (rewrite Hnone; by intros [? ?]).
  cbn [orb] in Hrun. exists w'. split; [done|]. rewrite Hps.
  cbn [config timers set_timers]. split; [done|].
  split; [intros k kd Hin; by apply (decoded_merged_field _ _ k kd)|].
  by rewrite scheduled_lookup.
Qed.

End Schedule.

(** ** [replaceConfig] *)

Lemma numbers_of_numbers (l : list number) :
  numbers_of (VArr (List.filter is_number (List.map VNum l))) = l.
Proof.
  rewrite filter_is_number_fix by apply forallb_is_number_VNum.
  cbn [numbers_of]. induction l as [|n l IH]; [done|].
  cbn [List.map omap list_omap]. by rewrite IH.
Qed.

(** Sanitizing a stored configuration and reading the result back gives the
    configuration, whatever the defaults are. *)
Lemma decode_sanitize_encode (D : obj) (c : PluginConfig) :
  decodeConfig (sanitizeConfig D (VObj (encodeConfig c))) = c.
Proof.
  rewrite sanitizeConfig_run. unfold decodeConfig. cbn [field].
  assert (∀ k kd, (k, kd) ∈ schema →
            getProp k (run (encodeConfig c) schema D)
            = match accepted kd (getProp k (encodeConfig c)) with
              | Some v => v | None => getProp k D end) as Hget.
  { intros k kd Hin. by apply getProp_run; [apply schema_NoDup|]. }
  rewrite (Hget "enabled" (KTyped TBoolean)) by (unfold schema; set_solver).
  rewrite (Hget "debug" (KTyped TBoolean)) by (unfold schema; set_solver).
  rewrite (Hget "autoLikeEnabled" (KTyped TBoolean)) by (unfold schema; set_solver).
  rewrite (Hget "blacklist" KIdList) by (unfold schema; set_solver).
  rewrite (Hget "vipLikeLimit" (KTyped TNumber)) by (unfold schema; set_solver).
  rewrite (Hget "autoLikeSomeoneEnabled" (KTyped TBoolean)) by (unfold schema; set_solver).
  rewrite (Hget "autoLikeInterval" (KTyped TNumber)) by (unfold schema; set_solver).
  rewrite (Hget "autoLikeTimes" (KTyped TNumber)) by (unfold schema; set_solver).
  rewrite (Hget "autoLikeUsers" KIdList) by (unfold schema; set_solver).
  cbn -[numbers_of List.filter]. rewrite !numbers_of_numbers. by destruct c.
Qed.

(** [replaceConfig] never throws and never touches the schedule: the store
    takes the sanitized configuration and, when there is a context, writes it
    once.  A well-typed configuration is stored as it is; anything that is
    not an object stores the defaults. *)
Theorem replaceConfig_stores_sanitized
    (h : Host) (DEFAULT_CONFIG : obj) (raw : value) (w : World) :
  ∃ w', replaceConfig h DEFAULT_CONFIG raw w = (Ok tt, w')
    ∧ ps w' = set_config (decodeConfig (sanitizeConfig DEFAULT_CONFIG raw)) (ps w)
    ∧ (∀ c, raw = VObj (encodeConfig c) → config (ps w') = c)
    ∧ ((∀ r, raw ≠ VObj r) → config (ps w') = decodeConfig (VObj DEFAULT_CONFIG))
    ∧ match _ctx (ps w) with
      | None => trace w' = trace w ∧ nwrites w' = nwrites w
      | Some c =>
          trace w' = trace w
                     ++ [if write_ok h (nwrites w)
                         then EWrite (configPath c) (PConfig (config (ps w')) (stats (ps w)))
                         else ELog LError MsgSaveConfigFailed]
      end.
Proof.
  unfold replaceConfig. erewrite (bind_Ok (modify _)) by reflexivity.
  set (w1 := mkWorld _ _ _ _ _).
  assert (∃ w', saveConfig h w1 = (Ok tt, w') ∧ ps w' = ps w1
                ∧ match _ctx (ps w) with
                  | None => trace w' = trace w ∧ nwrites w' = nwrites w
                  | Some c =>
                      trace w' = trace w
                        ++ [if write_ok h (nwrites w)
                            then EWrite (configPath c)
                                   (PConfig (config (ps w1)) (stats (ps w)))
                            else ELog LError MsgSaveConfigFailed]
                  end) as (w' & Hrun & Hps & Ht).
  { destruct (_ctx (ps w)) as [c|] eqn:Hc.
    - rewrite (saveConfig_run h w1 c) by done. by eexists.
    - rewrite saveConfig_None by done. by exists w1. }
  exists w'. split; [done|]. rewrite Hps. split; [done|]. split; [|split].
  - intros c ->. cbn. apply decode_sanitize_encode.
  - intros Hraw. cbn. destruct raw; try done. by destruct (Hraw props).
  - done.
Qed.

(** ** Instances on the concrete deployment *)

Import Scenario Scenario2.

Lemma start_schedules_one_job_witness :
  ∃ w', startAutoLikeTimer (world store_with_job) = (Ok tt, w')
        ∧ timers (ps w') !! "autoLike" = Some 3600000
        ∧ trace w' = [EClearInterval "autoLike"].
Proof.
  destruct (start_schedules_one_job (world store_with_job) context eq_refl)
    as (w' & Hrun & Hjob & _ & Ht & _).
  exists w'. split; [exact Hrun|]. split; [exact Hjob | exact Ht].
Defined.

Lemma restart_replaces_job_witness :
  ∃ w1 w2 w3,
    startAutoLikeTimer (world store) = (Ok tt, w1)
    ∧ restartAutoLikeTimer w1 = (Ok tt, w2)
    ∧ stopAutoLikeTimer w2 = (Ok tt, w3)
    ∧ trace w2 = trace w1 ++ [EClearInterval "autoLike"]
    ∧ timers (ps w3) !! "autoLike" = None.
Proof.
  destruct (restart_replaces_job (world store) context eq_refl)
    as (w1 & w2 & w3 & H1 & H2 & H3 & _ & Ht & Hnone & _).
  exists w1, w2, w3. repeat split; assumption.
Defined.

Lemma start_before_init_witness :
  ∃ w', startAutoLikeTimer (world fresh) = (Throw Uninitialized, w')
        ∧ timers (ps w') !! "autoLike" = Some 3600000.
Proof.
  exact (proj1 (start_before_init (world fresh) eq_refl) eq_refl eq_refl).
Defined.

Lemma updateConfig_merges_and_reschedules_witness :
  ∃ w', updateConfig host turn_off (world store_with_job) = (Ok tt, w')
        ∧ blacklist (config (ps w')) = [Num 7; Num 8]
        ∧ autoLikeSomeoneEnabled (config (ps w')) = false
        ∧ vipLikeLimit (config (ps w')) = Num 2
        ∧ timers (ps w') = ∅.
Proof.
  destruct (updateConfig_merges_and_reschedules host turn_off (world store_with_job)
              context eq_refl eq_refl)
    as (w' & Hrun & Hcfg & _ & Hts & _).
  exists w'. split; [exact Hrun|]. rewrite Hcfg, Hts.
  repeat split; by vm_compute.
Defined.

Lemma updateConfig_printed_lists_witness :
  updateConfig host [ ("blacklist", VStr "7,8");
                      ("autoLikeUsers", VStr "9007199254740991");
                      ("debug", VBool true) ] (world store)
  = updateConfig host [ ("blacklist", VArr [VNum (Num 7); VNum (Num 8)]);
                        ("autoLikeUsers", VArr [VNum (Num 9007199254740991)]);
                        ("debug", VBool true) ] (world store).
Proof.
  apply (updateConfig_printed_lists host [7; 8] [9007199254740991]
           [("debug", VBool true)] (world store));
    repeat constructor.
Defined.

Lemma updateConfig_before_init_witness :
  ∃ w', updateConfig host [("debug", VBool true)] (world fresh)
          = (Throw Uninitialized, w')
        ∧ debug (config (ps w')) = true
        ∧ timers (ps w') !! "autoLike" = Some 3600000
        ∧ trace w' = [].
Proof.
  destruct (updateConfig_before_init host [("debug", VBool true)] (world fresh)
              eq_refl eq_refl eq_refl)
    as (w' & Hrun & Hcfg & _ & Hjob & Ht & _).
  exists w'. split; [exact Hrun|]. rewrite Hcfg.
  split; [reflexivity|]. split; [exact Hjob | exact Ht].
Defined.

Lemma replaceConfig_stores_sanitized_witness :
  ∃ w', replaceConfig host defaults (VObj (encodeConfig cfg)) (world fresh) = (Ok tt, w')
        ∧ config (ps w') = cfg
        ∧ trace w' = [].
Proof.
  destruct (replaceConfig_stores_sanitized host defaults (VObj (encodeConfig cfg))
              (world fresh))
    as (w' & Hrun & _ & Hsame & _ & Ht).
  exists w'. split; [exact Hrun|]. split; [exact (Hsame cfg eq_refl)|].
  exact (proj1 Ht).
Defined.

End ConfigFacts.

(* ===================================================================== *)
(** * More on the state store *)
(* ===================================================================== *)

Module StoreMore.
Import Printed Store Summary StoreFacts.

Section Counters.

Context (h : Host).

(** A reciprocation counted is a reciprocation read back: on an initialized
    store and within one day, [getVipLikeCount] after
    [incrementVipLikeCount(userId)] returns one more for [userId] and the same
    as before for every other user, whether or not the writes of
    [vip_likes.json] succeed. *)
Theorem increment_then_read (w : World) (c : Context) (userId other : number) :
  _ctx (ps w) = Some c →
  clock h (S (nclock w)) = clock h (nclock w) →
  let before := vipLikeCounts (rolled (clock h (nclock w)) (ps w)) in
  ∃ w1 w2,
    incrementVipLikeCount h userId w = (Ok tt, w1)
    ∧ getVipLikeCount h other w1
        = (Ok (count_of other before + (if bool_decide (other = userId) then 1 else 0)),
           w2)
    ∧ ps w2 = ps w1.
Proof.
  intros Hc Hday before.
  destruct (incrementVipLikeCount_Some h w c userId Hc) as (w1 & Hinc & Hps1 & _ & _ & Hk1).
  cbv zeta in Hps1. fold before in Hps1.
  assert (_ctx (ps w1) = Some c) as Hc1 by (by rewrite Hps1; cbn; rewrite rolled_ctx).
  destruct (getVipLikeCount_Some h w1 c other Hc1) as (w2 & Hget & Hps2 & _).
  assert (rolled (clock h (nclock w1)) (ps w1) = ps w1) as Hfresh.
  { apply rolled_fresh. rewrite Hk1, Hday, Hps1. cbn. apply rolled_marker. }
  rewrite Hfresh in Hget, Hps2.
  exists w1, w2. split; [done|]. split; [|done].
  rewrite Hget. do 2 f_equal. rewrite Hps1. cbn. unfold count_of.
  case_bool_decide as Heq.
  - subst other. by rewrite lookup_insert_eq.
  - rewrite lookup_insert_ne by done. lia.
Qed.

End Counters.

Section ProactiveLike.

Context (h : Host).

Lemma autoLikeTarget_None w times userId :
  _ctx (ps w) = None → autoLikeTarget h times userId w = (Throw Uninitialized, w).
Proof.
  intros Hc. unfold autoLikeTarget, try_catch.
  unfold mbind at 1. unfold M_bind. rewrite (callApi_None h w) by done.
  cbv beta iota.
  replace (str_includes "No data returned" (errMsg_of Uninitialized)) with false
    by (by vm_compute).
  by apply log_None.
Qed.

(** One target, whatever the store: only the statistics can change, and they
    change by one [incrementProcessed] or not at all. *)
Lemma autoLikeTarget_stats w times userId :
  let w' := (autoLikeTarget h times userId w).2 in
  set_stats (stats (ps w)) (ps w') = ps w
  ∧ (stats (ps w') = stats (ps w)
     ∨ stats (ps w') = bumped (clock h (nclock w)) (stats (ps w))).
Proof.
  destruct (_ctx (ps w)) as [c|] eqn:Hc.
  - rewrite (autoLikeTarget_Some h w c) by done. cbn [snd].
    destruct (reply h (ncalls w) _) as [v|e]; [|destruct (str_includes _ _)];
      cbn [ps]; (split; [by destruct (ps w)|]); auto.
  - rewrite autoLikeTarget_None by done. cbn [snd].
    split; [by destruct (ps w)|auto].
Qed.

Lemma bumped_ok day st : stats_ok st → stats_ok (bumped day st).
Proof.
  unfold stats_ok, bumped. cbn. case_bool_decide; lia.
Qed.

Lemma for_of_autoLikeTarget_stats times users w :
  let w' := (for_of users (autoLikeTarget h times) w).2 in
  stats_ok (stats (ps w)) →
  stats_ok (stats (ps w'))
  ∧ processed (stats (ps w)) ≤ processed (stats (ps w'))
  ∧ set_stats (stats (ps w)) (ps w') = ps w.
Proof.
  revert w. induction users as [|u rest IH]; intros w w' Hok; subst w'.
  - cbn. split; [done|]. split; [lia|]. by destruct (ps w).
  - rewrite for_of_cons.
    destruct (autoLikeTarget_stats w times u) as [Hframe Hstats].
    destruct (autoLikeTarget h times u w) as [[[]|e] w1] eqn:Hone; cbn [snd] in *.
    + assert (stats_ok (stats (ps w1))
              ∧ processed (stats (ps w)) ≤ processed (stats (ps w1))) as [Hok1 Hle1].
      { destruct Hstats as [-> | ->]; [split; [done|lia]|].
        split; [by apply bumped_ok|]. cbn. lia. }
      destruct (IH w1 Hok1) as (Hok' & Hle' & Hframe').
      split; [done|]. split; [lia|].
      rewrite <- Hframe at 2. rewrite <- Hframe'. by destruct (ps _).
    + split; [|split; [|done]].
      * destruct Hstats as [-> | ->]; [done | by apply bumped_ok].
      * destruct Hstats as [-> | ->]; cbn; lia.
Qed.

(** The counters of the statistics stay coherent: [incrementProcessed] and a
    whole pass of [executeAutoLike], on any store and under any host, keep
    [0 <= todayProcessed <= processed], never lower [processed], and touch
    nothing of the store but the statistics. *)
Theorem stats_stay_coherent (w : World) :
  stats_ok (stats (ps w)) →
  (let w' := (incrementProcessed h w).2 in
   stats_ok (stats (ps w')) ∧ processed (stats (ps w')) = processed (stats (ps w)) + 1)
  ∧ (let w' := (executeAutoLike h w).2 in
     stats_ok (stats (ps w'))
     ∧ processed (stats (ps w)) ≤ processed (stats (ps w'))
     ∧ set_stats (stats (ps w)) (ps w') = ps w).
Proof.
  intros Hok. split.
  - rewrite incrementProcessed_eq. cbn. split; [by apply bumped_ok | done].
  - unfold executeAutoLike. unfold mbind, M_bind, gets.
    destruct (negb _ || bool_decide _).
    + cbn. split; [done|]. split; [lia|]. by destruct (ps w).
    + by apply for_of_autoLikeTarget_stats.
Qed.

Lemma for_of_autoLikeTarget_count c times users w :
  _ctx (ps w) = Some c →
  ∃ w', for_of users (autoLikeTarget h times) w = (Ok tt, w')
        ∧ processed (stats (ps w'))
            = processed (stats (ps w)) + successes h (ncalls w) times users
        ∧ ncalls w' = (ncalls w + length users)%nat.
Proof.
  revert w. induction users as [|u rest IH]; intros w Hc.
  - exists w. cbn. split; [done|]. split; [lia|]. lia.
  - rewrite for_of_cons, (autoLikeTarget_Some h w c) by done.
    cbn [successes].
    set (w1 := match reply h (ncalls w) (send_like u times) with
               | Resolve _ => _ | Reject _ => _ end).
    assert (_ctx (ps w1) = Some c ∧ ncalls w1 = S (ncalls w)
            ∧ processed (stats (ps w1))
                = processed (stats (ps w))
                  + (if counts_as_success (reply h (ncalls w) (send_like u times))
                     then 1 else 0)) as (Hc1 & Hn1 & Hp1).
    { subst w1. destruct (reply h (ncalls w) (send_like u times)) as [v|e];
        [|cbn [counts_as_success]; destruct (str_includes _ _)];
        cbn [ps ncalls stats set_stats processed bumped counts_as_success _ctx];
        repeat split; (done || lia). }
    destruct (IH w1 Hc1) as (w' & Hrun & Hp & Hn).
    exists w'. split; [done|]. rewrite Hp, Hp1, Hn, Hn1. cbn [length]. split; lia.
Qed.

(** A pass of the proactive-like routine on an initialized store, for any
    list of targets: it always returns, issues one [send_like] per target in
    list order and nothing else, and [processed] grows by the number of
    targets whose call resolved or was rejected with the empty-body message. *)
Theorem executeAutoLike_counts_successes (w : World) (c : Context) :
  _ctx (ps w) = Some c →
  autoLikeSomeoneEnabled (config (ps w)) = true →
  let users := autoLikeUsers (config (ps w)) in
  let times := autoLikeTimes (config (ps w)) in
  ∃ w', executeAutoLike h w = (Ok tt, w')
    ∧ calls_of (trace w')
        = calls_of (trace w) ++ List.map (fun u => send_like u times) users
    ∧ processed (stats (ps w'))
        = processed (stats (ps w)) + successes h (ncalls w) times users
    ∧ ncalls w' = (ncalls w + length users)%nat.
Proof.
  intros Hc Hen users times. unfold executeAutoLike. unfold mbind, M_bind, gets.
  rewrite Hen. cbn [negb orb]. fold users. fold times.
  case_bool_decide as Hempty.
  - apply nil_length_inv in Hempty. rewrite Hempty. exists w. cbn.
    rewrite app_nil_r. repeat split; lia.
  - destruct (for_of_autoLikeTarget h c times users w Hc) as (w1 & Hrun1 & _ & Hcalls).
    destruct (for_of_autoLikeTarget_count c times users w Hc) as (w2 & Hrun2 & Hp & Hn).
    rewrite Hrun1 in Hrun2. injection Hrun2 as <-. by exists w1.
Qed.

(** When the routine issues nothing.  With the job disabled or without
    targets it returns at once and the world is as before, context or not.
    Before [init], with the job enabled and a target, the first [callApi]
    throws, the handler of the loop throws in turn at its log line, and the
    pass ends with the uninitialized error: no call, nothing counted. *)
Theorem executeAutoLike_issues_nothing (w : World) :
  (autoLikeSomeoneEnabled (config (ps w)) = false ∨ autoLikeUsers (config (ps w)) = [] →
     executeAutoLike h w = (Ok tt, w))
  ∧ (_ctx (ps w) = None →
     autoLikeSomeoneEnabled (config (ps w)) = true →
     autoLikeUsers (config (ps w)) ≠ [] →
     executeAutoLike h w = (Throw Uninitialized, w)).
Proof.
  unfold executeAutoLike. unfold mbind, M_bind, gets. split.
  - intros [-> | ->]; [done|]. cbn. by rewrite orb_true_r.
  - intros Hc -> Hne. cbn [negb orb].
    destruct (autoLikeUsers (config (ps w))) as [|u rest]; [done|].
    rewrite bool_decide_eq_false_2 by done.
    by rewrite for_of_cons, autoLikeTarget_None.
Qed.

End ProactiveLike.

Section Lifecycle.

Context (h : Host).

Lemma for_of_clear_timers c (jobs : list (string * Z)) w :
  _ctx (ps w) = Some c →
  for_of jobs (fun '(jobId, _) =>
                 emit (EClearInterval jobId) ;; log LDebug (MsgTimerCleared jobId)) w
  = (Ok tt, mkWorld (ps w) (trace w ++ cleared jobs) (ncalls w) (nclock w) (nwrites w)).
Proof.
  revert w. induction jobs as [|[jobId t] jobs IH]; intros w Hc.
  - cbn. rewrite app_nil_r. by destruct w.
  - rewrite for_of_cons. erewrite (bind_Ok (emit _)) by reflexivity.
    rewrite (log_Some _ c) by done. rewrite IH by done.
    cbn [ps trace ncalls nclock nwrites cleared flat_map].
    by rewrite <- !app_assoc.
Qed.

(** [cleanup] on an initialized store returns, having cancelled and logged
    every timer, emptied the table, written the configuration file and then
    the counter file (or logged the failure of either), and released the
    context; nothing else of the store changes.  A second [cleanup] throws
    the uninitialized error at the counter file and changes nothing. *)
Theorem cleanup_once (w : World) (c : Context) :
  _ctx (ps w) = Some c →
  ∃ w', cleanup h w = (Ok tt, w')
    ∧ ps w' = set_ctx None (set_timers ∅ (ps w))
    ∧ trace w' = trace w
                 ++ cleared (map_to_list (timers (ps w)))
                 ++ [ if write_ok h (nwrites w)
                      then EWrite (configPath c) (PConfig (config (ps w)) (stats (ps w)))
                      else ELog LError MsgSaveConfigFailed;
                      saved c (write_ok h (S (nwrites w))) "vip_likes.json"
                            (PCounts (vipLikeCounts (ps w))) ]
    ∧ ncalls w' = ncalls w
    ∧ cleanup h w' = (Throw Uninitialized, w').
Proof.
  intros Hc. unfold cleanup at 1.
  erewrite (bind_Ok (gets _)) by reflexivity.
  erewrite bind_Ok by (by apply (for_of_clear_timers c)).
  erewrite (bind_Ok (modify _)) by reflexivity.
  erewrite bind_Ok by (by apply (ConfigFacts.saveConfig_run h _ c)).
  erewrite (bind_Ok (gets _)) by reflexivity.
  erewrite bind_Ok by (by apply (saveDataFile_Some h _ c)).
  eexists. split; [reflexivity|].
  cbn [ps trace ncalls nclock nwrites set_timers config stats vipLikeCounts].
  split; [done|]. split; [by rewrite <- !app_assoc|]. split; [done|].
  unfold cleanup. erewrite (bind_Ok (gets _)) by reflexivity.
  cbn [ps set_ctx set_timers timers]. rewrite map_to_list_empty.
  erewrite (bind_Ok (for_of _ _)) by reflexivity.
  erewrite (bind_Ok (modify _)) by reflexivity.
  erewrite bind_Ok by (by apply saveConfig_None).
  erewrite (bind_Ok (gets _)) by reflexivity.
  erewrite bind_Throw by (by apply saveDataFile_None). done.
Qed.

(** [fetchSelfId] caches the account as text that [parseInt] reads back: when
    [get_login_info] resolves with a [user_id] that is a non-zero safe
    integer (at most 2^53 - 1 in absolute value, printed digit by digit),
    [selfId] becomes its decimal form and [parseInt(selfId)] is that integer
    again, so that exactly the gestures aimed at the account pass the target
    check; a non-empty string [user_id] is cached as it is. *)
Theorem fetchSelfId_caches_identifier (w : World) (c : Context) (res : value) :
  _ctx (ps w) = Some c →
  reply h (ncalls w) (mkCall "get_login_info" []) = Resolve res →
  (∀ z, member res "user_id" = Some (VNum (Num z)) → z ≠ 0 →
     isSafeInteger z = true →
     ∃ w', fetchSelfId h w = (Ok tt, w')
           ∧ selfId (ps w') = string_of_number (Num z)
           ∧ parseInt (selfId (ps w')) = Num z
           ∧ ∀ target, num_strict_eq target (parseInt (selfId (ps w'))) = true
                        ↔ target = Num z)
  ∧ (∀ str, member res "user_id" = Some (VStr str) → str ≠ "" →
       ∃ w', fetchSelfId h w = (Ok tt, w') ∧ selfId (ps w') = str).
Proof.
  intros Hc Hres.
  assert (∀ user_id, member res "user_id" = Some user_id → truthy user_id = true →
            ∃ w', fetchSelfId h w = (Ok tt, w')
                  ∧ selfId (ps w') = string_of_value user_id) as Hfetch.
  { intros user_id Hm Htr. unfold fetchSelfId, try_catch.
    erewrite bind_Ok by (rewrite (callApi_Some h w c) by done; by rewrite Hres).
    rewrite Hm. cbn [default from_option id]. unfold id. rewrite Htr.
    erewrite (bind_Ok (modify _)) by reflexivity.
    erewrite (bind_Ok (gets _)) by reflexivity.
    rewrite (log_Some _ c) by done. by eexists. }
  split.
  - intros z Hm Hz _.
    destruct (Hfetch _ Hm) as (w' & Hrun & Hself).
    { cbn. by apply negb_true_iff, Z.eqb_neq. }
    exists w'. split; [done|]. split; [done|]. rewrite Hself.
    assert (parseInt (string_of_value (VNum (Num z))) = Num z) as Hparse.
    { apply PrintedFacts.parseInt_radix_pretty. by left. }
    split; [done|]. intros target. rewrite Hparse. split.
    + destruct target as [|t]; [done|]. cbn. by intros ->%Z.eqb_eq.
    + intros ->. cbn. apply Z.eqb_refl.
  - intros str Hm Hstr.
    destruct (Hfetch _ Hm) as (w' & Hrun & Hself).
    { cbn. apply negb_true_iff. by apply String.eqb_neq. }
    by exists w'.
Qed.

End Lifecycle.

(** ** Instances on the concrete deployment *)

Import Scenario Scenario2.

Lemma increment_then_read_witness :
  ∃ w1 w2,
    incrementVipLikeCount host (Num 301) (world store) = (Ok tt, w1)
    ∧ getVipLikeCount host (Num 301) w1 = (Ok 2, w2)
    ∧ ps w2 = ps w1.
Proof.
  destruct (increment_then_read host (world store) context (Num 301) (Num 301)
              eq_refl eq_refl)
    as (w1 & w2 & Hinc & Hget & Hps).
  exists w1, w2. split; [exact Hinc|]. split; [exact Hget | exact Hps].
Defined.

Lemma stats_stay_coherent_witness :
  stats_ok (stats (ps (world tallied)))
  ∧ stats_ok (stats (ps (executeAutoLike host (world tallied)).2))
  ∧ processed (stats (ps (world tallied)))
      ≤ processed (stats (ps (executeAutoLike host (world tallied)).2)).
Proof.
  assert (stats_ok (stats (ps (world tallied)))) as Hok by (vm_compute; split; discriminate).
  split; [exact Hok|].
  destruct (stats_stay_coherent host (world tallied) Hok) as (_ & Hok' & Hle & _).
  split; [exact Hok' | exact Hle].
Defined.

Lemma executeAutoLike_counts_successes_witness :
  ∃ w', executeAutoLike host_flaky (world store) = (Ok tt, w')
        ∧ calls_of (trace w') = [send_like (Num 1) (Num 5); send_like (Num 2) (Num 5)]
        ∧ processed (stats (ps w')) = 3 + 1.
Proof.
  destruct (executeAutoLike_counts_successes host_flaky (world store) context
              eq_refl eq_refl)
    as (w' & Hrun & Hcalls & Hp & _).
  exists w'. split; [exact Hrun|]. split; [exact Hcalls | exact Hp].
Defined.

Lemma executeAutoLike_issues_nothing_witness :
  executeAutoLike host (world released) = (Throw Uninitialized, world released).
Proof.
  apply (proj2 (executeAutoLike_issues_nothing host (world released)));
    [reflexivity | reflexivity | discriminate].
Defined.

Lemma cleanup_once_witness :
  ∃ w', cleanup host (world store_with_job) = (Ok tt, w')
        ∧ ps w' = released
        ∧ cleanup host w' = (Throw Uninitialized, w').
Proof.
  destruct (cleanup_once host (world store_with_job) context eq_refl)
    as (w' & Hrun & Hps & _ & _ & Hagain).
  exists w'. split; [exact Hrun|]. split; [exact Hps | exact Hagain].
Defined.

Lemma fetchSelfId_caches_identifier_witness :
  ∃ w', fetchSelfId host_login (world store) = (Ok tt, w')
        ∧ selfId (ps w') = "42"
        ∧ parseInt (selfId (ps w')) = Num 42.
Proof.
  destruct (proj1 (fetchSelfId_caches_identifier host_login (world store) context
                     (VObj [("user_id", VNum (Num 42))]) eq_refl eq_refl)
              42 eq_refl ltac:(discriminate) eq_refl)
    as (w' & Hrun & Hself & Hparse & _).
  exists w'. split; [exact Hrun|]. split; [exact Hself | exact Hparse].
Defined.

End StoreMore.

(* ===================================================================== *)
(** * More on the gesture handler *)
(* ===================================================================== *)

Module HandlerMore.
Import Store Handler Gates StoreFacts HandlerFacts.

Lemma same_but_counters_refl s : same_but_counters s s.
Proof. by repeat split. Qed.

Lemma same_but_counters_rolled day s : same_but_counters s (rolled day s).
Proof. unfold same_but_counters, rolled. by case_bool_decide. Qed.

Lemma same_but_counters_counted day user s : same_but_counters s (counted day user s).
Proof. unfold same_but_counters, counted, rolled. by case_bool_decide. Qed.

Lemma same_but_counters_trans s1 s2 s3 :
  same_but_counters s1 s2 → same_but_counters s2 s3 → same_but_counters s1 s3.
Proof.
  unfold same_but_counters.
  intros (?&?&?&?&?&?) (?&?&?&?&?&?). repeat split; congruence.
Qed.

Section Pipeline.

Context (h : Host).

(** The friendship check on any store: it never throws and changes nothing
    of the store; it lets the gesture through only when the call was issued
    and the reply lists the user. *)
Lemma friendship_check_run w user_id :
  ∃ w',
    friendship_check h user_id w =
      (Ok match _ctx (ps w), reply h (ncalls w) friend_list_call with
          | Some _, Resolve friendList =>
              bool_decide (isFriend_of friendList user_id = Some true)
          | _, _ => false
          end, w')
    ∧ ps w' = ps w
    ∧ nclock w' = nclock w
    ∧ match _ctx (ps w) with
      | Some _ => calls_of (trace w') = calls_of (trace w) ++ [friend_list_call]
                  ∧ ncalls w' = S (ncalls w)
      | None => trace w' = trace w ++ [ELog LError MsgFriendListFailed]
                ∧ ncalls w' = ncalls w
      end.
Proof.
  unfold friendship_check, try_catch. unfold mbind at 1. unfold M_bind.
  destruct (_ctx (ps w)) as [c|] eqn:Hc.
  - rewrite (callApi_Some h w c) by done. fold friend_list_call.
    destruct (reply h (ncalls w) friend_list_call) as [friendList|e]; cbv beta iota.
    + destruct (isFriend_of friendList user_id) as [[|]|]; cbn [or_TypeError];
        unfold mbind, M_bind, mret, M_ret, throw, hlog, emit; cbn [negb];
        (eexists; split; [reflexivity|]); cbn [ps trace ncalls nclock];
        autorewrite with calls; done.
    + unfold mbind, M_bind, mret, M_ret, hlog, emit.
      eexists. split; [reflexivity|]. cbn [ps trace ncalls nclock].
      by autorewrite with calls.
  - rewrite (callApi_None h w) by done. cbv beta iota.
    unfold mbind, M_bind, mret, M_ret, hlog, emit. by eexists.
Qed.

(** What the VIP-limit check leaves of the store once the friendship check
    has issued its call. *)
Lemma vip_limit_check_frame w c user_id :
  _ctx (ps w) = Some c →
  ∃ b w', vip_limit_check h user_id w = (Ok b, w')
          ∧ calls_of (trace w') = calls_of (trace w) ++ [stranger_info_call user_id]
          ∧ same_but_counters (ps w) (ps w').
Proof.
  intros Hc.
  destruct (vip_limit_check_Some h w c user_id Hc) as (w' & Hrun & Ht & _ & Hps).
  eexists _, w'. split; [exact Hrun|]. split; [done|].
  destruct (reply h _ _) as [userInfo|]; [destruct (isVip_of userInfo) as [[|]|]|];
    destruct Hps as [-> _];
    auto using same_but_counters_refl, same_but_counters_rolled.
Qed.

Lemma reciprocate_frame event w c :
  _ctx (ps w) = Some c →
  isLikeOrPoke event = true →
  ∃ w', reciprocate h event w = (Ok tt, w')
        ∧ calls_of (trace w') = calls_of (trace w) ++ [poke_back_call event]
        ∧ same_but_counters (ps w) (ps w').
Proof.
  intros Hc Hkind.
  destruct (reciprocate_Some h event w c Hc Hkind) as (w' & Hrun & Ht & Hps).
  exists w'. split; [done|]. split; [done|].
  destruct (reply h _ _); rewrite Hps;
    auto using same_but_counters_refl, same_but_counters_counted.
Qed.

(** Every run of the handler, on any store and under any host. *)
Lemma handleLike_run event w :
  ∃ w' (n : nat),
    handleLike h event w = (Ok tt, w')
    ∧ calls_of (trace w') = calls_of (trace w) ++ take n (pipeline_calls event)
    ∧ same_but_counters (ps w) (ps w').
Proof.
  unfold handleLike.
  destruct (isLikeOrPoke event) eqn:Hkind; cbn [negb];
    [|exists w, 0%nat; cbn; rewrite app_nil_r; auto using same_but_counters_refl].
  erewrite (bind_Ok (gets _)) by reflexivity.
  destruct (num_strict_eq _ _); cbn [negb];
    [|exists w, 0%nat; cbn; rewrite app_nil_r; auto using same_but_counters_refl].
  erewrite (bind_Ok (gets _)) by reflexivity.
  destruct (autoLikeEnabled _); cbn [negb];
    [|exists w, 0%nat; cbn; rewrite app_nil_r; auto using same_but_counters_refl].
  erewrite (bind_Ok (hlog _ _)) by reflexivity.
  destruct (includes _ _).
  { unfold hlog, emit. eexists _, 0%nat. split; [reflexivity|].
    cbn [ps trace take]. autorewrite with calls. rewrite app_nil_r.
    auto using same_but_counters_refl. }
  match goal with |- context [(friendship_check h ?u ≫= _) ?w0] =>
    destruct (friendship_check_run w0 u) as (w1 & Hfr & Hps1 & _ & Hcalls1) end.
  cbn [ps trace ncalls] in Hfr, Hps1, Hcalls1.
  erewrite bind_Ok by exact Hfr.
  destruct (_ctx (ps w)) as [c|] eqn:Hc.
  2: { destruct Hcalls1 as [Ht1 _]. cbn [negb]. exists w1, 0%nat.
       split; [done|]. rewrite Ht1, Hps1. autorewrite with calls. cbn.
       rewrite app_nil_r. auto using same_but_counters_refl. }
  destruct Hcalls1 as [Ht1 _]. autorewrite with calls in Ht1.
  destruct (match reply h (ncalls w) friend_list_call with
            | Resolve friendList => _ | Reject _ => _ end); cbn [negb].
  2: { exists w1, 1%nat. split; [done|]. rewrite Ht1, Hps1.
       auto using same_but_counters_refl. }
  assert (_ctx (ps w1) = Some c) as Hc1 by (by rewrite Hps1).
  destruct (vip_limit_check_frame w1 c (user_id event) Hc1)
    as (b & w2 & Hvip & Ht2 & Hframe2).
  erewrite bind_Ok by exact Hvip. rewrite Hps1 in Hframe2.
  destruct b; cbn [negb].
  2: { exists w2, 2%nat. split; [done|]. rewrite Ht2, Ht1.
       by rewrite <- app_assoc. }
  assert (_ctx (ps w2) = Some c) as Hc2.
  { destruct Hframe2 as (-> & _). done. }
  destruct (reciprocate_frame event w2 c Hc2 Hkind) as (w3 & Hrec & Ht3 & Hframe3).
  exists w3, 3%nat. split; [done|]. split.
  - rewrite Ht3, Ht2, Ht1. by rewrite <- !app_assoc.
  - by eapply same_but_counters_trans.
Qed.

(** The handler contains every failure and keeps to its pipeline: on any
    store, under any host and for any event it returns normally, and the
    remote calls it has issued are a prefix of [get_friend_list],
    [get_stranger_info], poke-back.  So there is at most one reciprocation
    call, and never one before both lookups. *)
Theorem handleLike_never_throws (event : LikeEvent) (w : World) :
  ∃ w' (n : nat),
    handleLike h event w = (Ok tt, w')
    ∧ (n ≤ 3)%nat
    ∧ calls_of (trace w') = calls_of (trace w) ++ take n (pipeline_calls event).
Proof.
  destruct (handleLike_run event w) as (w' & n & Hrun & Hcalls & _).
  exists w', (n `min` 3)%nat. split; [done|]. split; [lia|].
  rewrite Hcalls. f_equal. unfold pipeline_calls.
  destruct n as [|[|[|[|n]]]]; done.
Qed.

(** The handler writes to the VIP counters and their day marker only: the
    configuration, the statistics, the cached [selfId], the context, the
    timers and the start time are the same after any run. *)
Theorem handleLike_touches_counters_only (event : LikeEvent) (w : World) :
  let s := ps w in
  let s' := ps (handleLike h event w).2 in
  config s' = config s ∧ stats s' = stats s ∧ selfId s' = selfId s
  ∧ _ctx s' = _ctx s ∧ timers s' = timers s ∧ startTime s' = startTime s.
Proof.
  destruct (handleLike_run event w) as (w' & n & Hrun & _ & Hframe).
  rewrite Hrun. cbn [snd]. destruct Hframe as (?&?&?&?&?&?). by repeat split.
Qed.

(** Friendship is a hard gate.  For a gesture past steps 1 to 4 on an
    initialized store, unless [get_friend_list] resolves with a list that has
    the acting user (it is rejected, malformed, or lacks the user), the
    handler ends with that call as its only one and the store as it was: no
    stranger lookup, no reciprocation, no counter. *)
Theorem friendship_is_a_hard_gate (event : LikeEvent) (w : World) (c : Context) :
  passes_local_gates event w →
  _ctx (ps w) = Some c →
  (∀ friendList, reply h (ncalls w) friend_list_call = Resolve friendList →
                 isFriend_of friendList (user_id event) ≠ Some true) →
  ∃ w', handleLike h event w = (Ok tt, w')
        ∧ calls_of (trace w') = calls_of (trace w) ++ [friend_list_call]
        ∧ ps w' = ps w.
Proof.
  intros (Hkind & Htarget & Hon & Hbl) Hc Hnot.
  unfold handleLike. rewrite Hkind. cbn [negb].
  erewrite (bind_Ok (gets _)) by reflexivity. rewrite Htarget. cbn [negb].
  erewrite (bind_Ok (gets _)) by reflexivity. rewrite Hon. cbn [negb].
  erewrite (bind_Ok (hlog _ _)) by reflexivity.
  destruct (includes _ _) eqn:Hin; [by apply includes_elem_of in Hin|].
  match goal with |- context [(friendship_check h ?u ≫= _) ?w0] =>
    destruct (friendship_check_run w0 u) as (w1 & Hfr & Hps1 & _ & Hcalls1) end.
  cbn [ps trace ncalls] in Hfr, Hps1, Hcalls1. rewrite Hc in Hfr, Hcalls1.
  erewrite bind_Ok by exact Hfr.
  destruct Hcalls1 as [Ht1 _]. autorewrite with calls in Ht1.
  destruct (reply h (ncalls w) friend_list_call) as [friendList|e].
  - rewrite bool_decide_eq_false_2 by (by apply Hnot). cbn [negb]. by exists w1.
  - cbn [negb]. by exists w1.
Qed.

(** Before [init] a gesture past steps 1 to 4 is logged, the friend list
    cannot be asked for, the failure is logged, and the handler returns: no
    remote call, no change of the store. *)
Theorem handleLike_before_init (event : LikeEvent) (w : World) :
  passes_local_gates event w →
  _ctx (ps w) = None →
  handleLike h event w
  = (Ok tt, mkWorld (ps w)
              (trace w ++ [received event; ELog LError MsgFriendListFailed])
              (ncalls w) (nclock w) (nwrites w)).
Proof.
  intros (Hkind & Htarget & Hon & Hbl) Hc.
  unfold handleLike. rewrite Hkind. cbn [negb].
  erewrite (bind_Ok (gets _)) by reflexivity. rewrite Htarget. cbn [negb].
  erewrite (bind_Ok (gets _)) by reflexivity. rewrite Hon. cbn [negb].
  erewrite (bind_Ok (hlog _ _)) by reflexivity.
  destruct (includes _ _) eqn:Hin; [by apply includes_elem_of in Hin|].
  assert (∀ w0, _ctx (ps w0) = None →
            friendship_check h (user_id event) w0
            = (Ok false, mkWorld (ps w0) (trace w0 ++ [ELog LError MsgFriendListFailed])
                           (ncalls w0) (nclock w0) (nwrites w0))) as Hfr.
  { intros w0 Hc0. unfold friendship_check, try_catch.
    erewrite bind_Throw by (by apply callApi_None). done. }
  erewrite bind_Ok by (by apply Hfr). cbn [negb ps trace ncalls nclock nwrites].
  unfold received. by rewrite <- app_assoc.
Qed.

(** The VIP lookup is a soft gate.  For a gesture past the friendship check,
    when [get_stranger_info] is rejected, or resolves with something that has
    no [data], or with a falsy [data.vip], the handler goes on to the
    reciprocation without reading any counter: the poke-back is issued, and
    when it resolves the acting user's counter is incremented all the same. *)
Theorem vip_lookup_is_a_soft_gate (event : LikeEvent) (w : World) :
  eligible h event w →
  (∀ userInfo, reply h (S (ncalls w)) (stranger_info_call (user_id event))
               = Resolve userInfo → isVip_of userInfo ≠ Some true) →
  ∃ w', handleLike h event w = (Ok tt, w')
        ∧ calls_of (trace w') = calls_of (trace w) ++ pipeline_calls event
        ∧ match reply h (S (S (ncalls w))) (poke_back_call event) with
          | Resolve _ => ps w' = counted (clock h (nclock w)) (user_id event) (ps w)
          | Reject _ => ps w' = ps w
          end.
Proof.
  intros Hel Hnot. rewrite (handleLike_eligible _ _ _ Hel).
  destruct Hel as (Hkind & _ & _ & _ & [c Hc] & _).
  destruct (vip_limit_check_Some h (after_friendship event w) c (user_id event) Hc)
    as (w6 & Hcheck & Ht & Hn & Hps).
  cbn [after_friendship ps ncalls nclock] in Hcheck, Hps, Hn.
  rewrite after_friendship_calls, <- app_assoc in Ht.
  assert (vip_limit_check h (user_id event) (after_friendship event w) = (Ok true, w6)
          ∧ ps w6 = ps w ∧ nclock w6 = nclock w) as (Hcheck' & Hps6 & Hk6).
  { destruct (reply h (S (ncalls w)) _) as [userInfo|e].
    - specialize (Hnot userInfo eq_refl).
      destruct (isVip_of userInfo) as [[|]|]; [done|..]; by destruct Hps.
    - by destruct Hps. }
  erewrite bind_Ok by exact Hcheck'. cbn [negb].
  destruct (reciprocate_Some h event w6 c) as (w7 & Hrec & Ht7 & Hps7);
    [by rewrite Hps6 | done |].
  exists w7. split; [done|]. split.
  - rewrite Ht7, Ht. by rewrite <- app_assoc.
  - by rewrite Hn, Hk6, Hps6 in Hps7.
Qed.

End Pipeline.

(** ** Instances on the concrete deployment *)

Import Scenario Scenario2.

(** Steps 1 to 4 on a concrete gesture, by evaluation. *)
Ltac local_gates_by_evaluation :=
  unfold passes_local_gates;
  split; [reflexivity|]; split; [reflexivity|]; split; [reflexivity|];
  apply (bool_decide_unpack _); vm_compute; exact I.

Lemma friendship_is_a_hard_gate_witness :
  ∃ w', handleLike host (thumb_up_from 555) (world store) = (Ok tt, w')
        ∧ calls_of (trace w') = [friend_list_call]
        ∧ ps w' = store.
Proof.
  refine (friendship_is_a_hard_gate host (thumb_up_from 555) (world store) context
            _ eq_refl _).
  - local_gates_by_evaluation.
  - intros friendList [= <-]. vm_compute. discriminate.
Defined.

Lemma handleLike_before_init_witness :
  handleLike host (thumb_up_from 100) (world released)
  = (Ok tt, mkWorld released
              [received (thumb_up_from 100); ELog LError MsgFriendListFailed] 0 0 0).
Proof.
  apply (handleLike_before_init host (thumb_up_from 100) (world released));
    [local_gates_by_evaluation | reflexivity].
Defined.

Lemma vip_lookup_is_a_soft_gate_witness :
  ∃ w', handleLike host (thumb_up_from 100) (world store) = (Ok tt, w')
        ∧ calls_of (trace w') = [friend_list_call; stranger_info_call (Num 100);
                                 friend_poke (Num 100)]
        ∧ vipLikeCounts (ps w') !! Num 100 = Some 1.
Proof.
  destruct (vip_lookup_is_a_soft_gate host (thumb_up_from 100) (world store))
    as (w' & Hrun & Hcalls & Hps).
  - eligible_by_evaluation.
  - intros userInfo [= <-]. vm_compute. discriminate.
  - exists w'. split; [exact Hrun|]. split; [exact Hcalls|].
    change (reply host 2 (poke_back_call (thumb_up_from 100))) with (Resolve VNull) in Hps.
    rewrite Hps. reflexivity.
Defined.

End HandlerMore.

(* ===================================================================== *)
(** * Properties of the uptime display *)
(* ===================================================================== *)

Module UptimeFacts.
Import Store Uptime.

(** The uptime is shown in its coarsest unit that is not zero, followed by
    the next finer one, and the two numbers bracket the true uptime: the
    first is at least 1, the second is below the size of the coarser unit,
    and the uptime lies within one finer unit above what is shown.  Below one
    minute, and for a negative uptime (a clock set back), only the seconds
    are shown. *)
Theorem uptime_shows_coarsest_unit (now : Z) (st : PluginState) :
  let ms := getUptime now st in
  let out := getUptimeFormatted now st in
  (ms < 60000 → out = pretty (ms / 1000) +:+ "秒")
  ∧ (60000 ≤ ms < 3600000 →
       ∃ m s, out = pretty m +:+ "分钟" +:+ pretty s +:+ "秒"
              ∧ 1 ≤ m < 60 ∧ 0 ≤ s < 60
              ∧ (m * 60 + s) * 1000 ≤ ms < (m * 60 + s + 1) * 1000)
  ∧ (3600000 ≤ ms < 86400000 →
       ∃ h m, out = pretty h +:+ "小时" +:+ pretty m +:+ "分钟"
              ∧ 1 ≤ h < 24 ∧ 0 ≤ m < 60
              ∧ (h * 60 + m) * 60000 ≤ ms < (h * 60 + m + 1) * 60000)
  ∧ (86400000 ≤ ms →
       ∃ d h, out = pretty d +:+ "天" +:+ pretty h +:+ "小时"
              ∧ 1 ≤ d ∧ 0 ≤ h < 24
              ∧ (d * 24 + h) * 3600000 ≤ ms < (d * 24 + h + 1) * 3600000).
Proof.
  intros ms out. subst out. unfold getUptimeFormatted. fold ms.
  set (s := ms / 1000). set (m := s / 60). set (h := m / 60). set (d := h / 24).
  assert (1000 * s ≤ ms < 1000 * s + 1000) as Hs
    by (subst s; pose proof (Z.div_mod ms 1000) as Hdm;
        pose proof (Z.mod_pos_bound ms 1000); lia).
  assert (60 * m ≤ s < 60 * m + 60) as Hm
    by (subst m; pose proof (Z.div_mod s 60); pose proof (Z.mod_pos_bound s 60); lia).
  assert (60 * h ≤ m < 60 * h + 60) as Hh
    by (subst h; pose proof (Z.div_mod m 60); pose proof (Z.mod_pos_bound m 60); lia).
  assert (24 * d ≤ h < 24 * d + 24) as Hd
    by (subst d; pose proof (Z.div_mod h 24); pose proof (Z.mod_pos_bound h 24); lia).
  clearbody s m h d. repeat split.
  - intros Hlt.
    rewrite !(proj2 (Z.ltb_ge 0 _)) by lia. done.
  - intros [Hlo Hhi].
    rewrite (proj2 (Z.ltb_ge 0 d)), (proj2 (Z.ltb_ge 0 h)), (proj2 (Z.ltb_lt 0 m)) by lia.
    exists m, (Z.rem s 60). split; [done|].
    rewrite Z.rem_mod_nonneg by lia.
    rewrite <- (Z.mod_unique_pos s 60 m (s - 60 * m)) by lia. lia.
  - intros [Hlo Hhi].
    rewrite (proj2 (Z.ltb_ge 0 d)), (proj2 (Z.ltb_lt 0 h)) by lia.
    exists h, (Z.rem m 60). split; [done|].
    rewrite Z.rem_mod_nonneg by lia.
    rewrite <- (Z.mod_unique_pos m 60 h (m - 60 * h)) by lia. lia.
  - intros Hlo.
    rewrite (proj2 (Z.ltb_lt 0 d)) by lia.
    exists d, (Z.rem h 24). split; [done|].
    rewrite Z.rem_mod_nonneg by lia.
    rewrite <- (Z.mod_unique_pos h 24 d (h - 24 * d)) by lia. lia.
Qed.

Lemma uptime_shows_coarsest_unit_witness :
  ∃ d h, getUptimeFormatted 93784000 Scenario.store
           = pretty d +:+ "天" +:+ pretty h +:+ "小时"
         ∧ 1 ≤ d ∧ 0 ≤ h < 24
         ∧ (d * 24 + h) * 3600000 ≤ getUptime 93784000 Scenario.store
             < (d * 24 + h + 1) * 3600000.
Proof.
  apply (proj2 (proj2 (proj2 (uptime_shows_coarsest_unit 93784000 Scenario.store)))).
  vm_compute. discriminate.
Defined.

End UptimeFacts.
